(** * acg-server-monitor: sampling, rate derivation, alert evaluation, broadcast

    A shallow embedding of the monitoring core of the server monitor
    (the packages [monitor], [scheduler], [websocket], [models] and
    [database]) and the properties of its specification, settled on it.

    Conventions of the embedding
    - Go's [float64] is the kernel's binary64 [float]; every arithmetic
      operation of the source is the corresponding IEEE operation.
    - Go's [uint64] is a [Z] in [0, 2^64) with the wrap-around written out.
    - A call that returns [(T, error)] returns a [result T].
    - Readings of the operating system and of the clock are inputs. *)

From Stdlib Require Import ZArith Lia List Floats Uint63.
#[local] Set Warnings "-inexact-float".
From stdpp Require Import gmap strings list fin_maps.
Import ListNotations.

Local Open Scope Z_scope.

(** ** Go values *)

(** [error]: the message of a Go error value. *)
Definition error := string.

Inductive result (A : Type) : Type :=
| Ok (a : A)
| Err (e : error).
Arguments Ok {A} a.
Arguments Err {A} e.

(** Unsigned 64-bit integers. *)
Module U64.
Definition modulus : Z := 2 ^ 64.
Definition wrap (z : Z) : Z := z mod modulus.
Definition add (a b : Z) : Z := wrap (a + b).
Definition sub (a b : Z) : Z := wrap (a - b).
Definition in_range (z : Z) : Prop := 0 <= z < modulus.
End U64.

(** IEEE binary64, as Go's [float64]. *)
Module F64.
(** [x == y], [x > y] and [x < y] of Go: IEEE comparisons, false on NaN. *)
Definition eqb (x y : float) : bool :=
  match PrimFloat.compare x y with FEq => true | _ => false end.
Definition gtb (x y : float) : bool :=
  match PrimFloat.compare x y with FGt => true | _ => false end.
Definition ltb (x y : float) : bool :=
  match PrimFloat.compare x y with FLt => true | _ => false end.

(** [float64(n)] for [n : uint64], that is [0 <= n < 2^64]: the high and
    low 32-bit halves are exact floats, so the only rounding is that of
    the final sum. *)
Definition of_uint64 (n : Z) : float :=
  (PrimFloat.of_uint63 (Uint63.of_Z (n / 2 ^ 32)) * 4294967296
   + PrimFloat.of_uint63 (Uint63.of_Z (n mod 2 ^ 32)))%float.

(** [float64(n)] for a signed integer. *)
Definition of_int (n : Z) : float :=
  if n <? 0 then (- of_uint64 (- n))%float else of_uint64 n.

Definition two52 : float := 4503599627370496%float.

(** [math.Round]: the nearest integer, halves away from zero. The
    magnitude is rounded and the sign bit is that of the argument; values
    of magnitude at least 2^52, infinities and NaN are returned unchanged. *)
Definition Round (x : float) : float :=
  let a := PrimFloat.abs x in
  match PrimFloat.compare a two52 with
  | FLt =>
      let r := ((a + two52) - two52)%float in
      let fl := match PrimFloat.compare r a with
                | FGt => (r - 1)%float
                | _ => r
                end in
      let res := match PrimFloat.compare (a - fl)%float 0.5%float with
                 | FLt => fl
                 | _ => (fl + 1)%float
                 end in
      match PrimFloat.compare x 0%float with
      | FLt => (- PrimFloat.abs res)%float
      | FGt => PrimFloat.abs res
      | _ => x
      end
  | _ => x
  end.

(** [math.Round(x*100) / 100]: the source's rounding to two decimals. *)
Definition round2 (x : float) : float := (Round (x * 100) / 100)%float.
End F64.

(** [time.Time] and [time.Duration]. *)
Module GoTime.
(** A reading of the monotonic clock, in nanoseconds. *)
Definition Time := Z.
(** [time.Duration]: a signed 64-bit count of nanoseconds. *)
Definition Duration := Z.
Definition minDuration : Duration := - 2 ^ 63.
Definition maxDuration : Duration := 2 ^ 63 - 1.
Definition Second : Duration := 1000000000.

(** [t.Sub(u)]: the difference, saturated to the range of a Duration. *)
Definition Sub (t u : Time) : Duration :=
  Z.max minDuration (Z.min maxDuration (t - u)).

(** [d.Seconds()]: [float64(d / Second) + float64(d % Second) / 1e9],
    with Go's truncated division. *)
Definition Seconds (d : Duration) : float :=
  (F64.of_int (Z.quot d Second) + F64.of_int (Z.rem d Second) / 1e9)%float.
End GoTime.

(** ** Readings of the operating system (gopsutil) *)

Module net.
Record IOCountersStat := {
  Name : string;
  BytesSent : Z;      (* uint64 *)
  BytesRecv : Z;      (* uint64 *)
  PacketsSent : Z;
  PacketsRecv : Z
}.
End net.

Module disk.
Record PartitionStat := { Device : string; Mountpoint : string }.
Record UsageStat := { Total : Z; Used : Z; Free : Z; UsedPercent : float }.
End disk.

Module mem.
Record VirtualMemoryStat := { UsedPercent : float }.
End mem.

(** What one collection cycle reads from its environment. *)
Record Sensors := {
  clock : GoTime.Time;                              (* time.Now() of the record *)
  cpu_Percent : result (list float);                (* cpu.Percent(0, false) *)
  mem_VirtualMemory : result mem.VirtualMemoryStat; (* mem.VirtualMemory() *)
  disk_Partitions : result (list disk.PartitionStat); (* disk.Partitions(false) *)
  disk_Usage : string -> result disk.UsageStat;     (* disk.Usage(mountpoint) *)
  net_IOCounters : result (list net.IOCountersStat); (* net.IOCounters(false) *)
  net_clock : GoTime.Time                           (* time.Now() of getNetworkSpeed *)
}.

(** ** Configuration consumed by the core *)

Module config.
Record Monitor := {
  Interval : Z;
  AlertCPU : Z;
  AlertMemory : Z;
  AlertDisk : Z;
  HistoryHours : Z
}.
End config.

(** ** models *)

Module models.

Module SystemMetrics.
Record t := {
  ID : Z;
  Timestamp : GoTime.Time;
  CPU : float;
  Memory : float;
  Disk : float;
  Upload : float;
  Download : float;
  CreatedAt : GoTime.Time;
  UpdatedAt : GoTime.Time
}.
(** [&models.SystemMetrics{Timestamp: ts}]: the other fields are zero. *)
Definition new (ts : GoTime.Time) : t :=
  {| ID := 0; Timestamp := ts; CPU := 0; Memory := 0; Disk := 0;
     Upload := 0; Download := 0; CreatedAt := 0; UpdatedAt := 0 |}.
Definition set_CPU (v : float) (m : t) : t :=
  {| ID := ID m; Timestamp := Timestamp m; CPU := v; Memory := Memory m;
     Disk := Disk m; Upload := Upload m; Download := Download m;
     CreatedAt := CreatedAt m; UpdatedAt := UpdatedAt m |}.
Definition set_Memory (v : float) (m : t) : t :=
  {| ID := ID m; Timestamp := Timestamp m; CPU := CPU m; Memory := v;
     Disk := Disk m; Upload := Upload m; Download := Download m;
     CreatedAt := CreatedAt m; UpdatedAt := UpdatedAt m |}.
Definition set_Disk (v : float) (m : t) : t :=
  {| ID := ID m; Timestamp := Timestamp m; CPU := CPU m; Memory := Memory m;
     Disk := v; Upload := Upload m; Download := Download m;
     CreatedAt := CreatedAt m; UpdatedAt := UpdatedAt m |}.
Definition set_Upload (v : float) (m : t) : t :=
  {| ID := ID m; Timestamp := Timestamp m; CPU := CPU m; Memory := Memory m;
     Disk := Disk m; Upload := v; Download := Download m;
     CreatedAt := CreatedAt m; UpdatedAt := UpdatedAt m |}.
Definition set_Download (v : float) (m : t) : t :=
  {| ID := ID m; Timestamp := Timestamp m; CPU := CPU m; Memory := Memory m;
     Disk := Disk m; Upload := Upload m; Download := v;
     CreatedAt := CreatedAt m; UpdatedAt := UpdatedAt m |}.
End SystemMetrics.

(** [fmt.Sprintf(format, arg)] with one float argument, kept unformatted. *)
Inductive Text := Sprintf (format : string) (arg : float).

Module Alert.
Record t := {
  ID : Z;
  Type_ : string;        (* cpu, memory, disk, service *)
  Level : string;
  Message : Text;
  Value : float;
  Threshold : float;
  Status : string;       (* active, resolved *)
  Timestamp : GoTime.Time;
  CreatedAt : GoTime.Time;
  UpdatedAt : GoTime.Time
}.
End Alert.

Module SystemLog.
Record t := {
  ID : Z;
  Level : string;
  Category : string;
  Message : Text;
  Timestamp : GoTime.Time;
  CreatedAt : GoTime.Time
}.
End SystemLog.

End models.

(** ** database: the store behind [database.DB] *)

Module database.
Import models.

Record DB := {
  alerts : list Alert.t;
  system_logs : list SystemLog.t;
  system_metrics : list SystemMetrics.t
}.

Definition empty : DB :=
  {| alerts := []; system_logs := []; system_metrics := [] |}.

(** The auto-increment key of the next row: above every key in use. *)
Definition next_id (ids : list Z) : Z := 1 + fold_right Z.max 0 ids.

(** [DB.Create(&alert)]: the row gets its key, the [BeforeCreate] hook
    stamps [CreatedAt] and [UpdatedAt], and the row is inserted. *)
Definition Create_alert (now : GoTime.Time) (a : Alert.t) (db : DB) : DB :=
  let row :=
    {| Alert.ID := next_id (map Alert.ID (alerts db));
       Alert.Type_ := Alert.Type_ a; Alert.Level := Alert.Level a;
       Alert.Message := Alert.Message a; Alert.Value := Alert.Value a;
       Alert.Threshold := Alert.Threshold a; Alert.Status := Alert.Status a;
       Alert.Timestamp := Alert.Timestamp a;
       Alert.CreatedAt := now; Alert.UpdatedAt := now |} in
  {| alerts := alerts db ++ [row]; system_logs := system_logs db;
     system_metrics := system_metrics db |}.

Definition Create_log (now : GoTime.Time) (l : SystemLog.t) (db : DB) : DB :=
  let row :=
    {| SystemLog.ID := next_id (map SystemLog.ID (system_logs db));
       SystemLog.Level := SystemLog.Level l;
       SystemLog.Category := SystemLog.Category l;
       SystemLog.Message := SystemLog.Message l;
       SystemLog.Timestamp := SystemLog.Timestamp l;
       SystemLog.CreatedAt := now |} in
  {| alerts := alerts db; system_logs := system_logs db ++ [row];
     system_metrics := system_metrics db |}.

(** [DB.Create(metrics)] writes the key and the stamps back through the
    pointer: the stored row is returned with the store. *)
Definition Create_metrics (now : GoTime.Time) (m : SystemMetrics.t) (db : DB)
  : SystemMetrics.t * DB :=
  let row :=
    {| SystemMetrics.ID := next_id (map SystemMetrics.ID (system_metrics db));
       SystemMetrics.Timestamp := SystemMetrics.Timestamp m;
       SystemMetrics.CPU := SystemMetrics.CPU m;
       SystemMetrics.Memory := SystemMetrics.Memory m;
       SystemMetrics.Disk := SystemMetrics.Disk m;
       SystemMetrics.Upload := SystemMetrics.Upload m;
       SystemMetrics.Download := SystemMetrics.Download m;
       SystemMetrics.CreatedAt := now; SystemMetrics.UpdatedAt := now |} in
  (row,
   {| alerts := alerts db; system_logs := system_logs db;
      system_metrics := system_metrics db ++ [row] |}).

(** The condition [type = ? AND status = ?]. *)
Definition type_and_status (ty st : string) (a : Alert.t) : bool :=
  String.eqb (Alert.Type_ a) ty && String.eqb (Alert.Status a) st.

(** [DB.Where(cond).First(&a)]: the matching row of least key, or none
    (a record-not-found error). *)
Definition pick_least (best : option Alert.t) (a : Alert.t) : option Alert.t :=
  match best with
  | None => Some a
  | Some b => if Alert.ID a <? Alert.ID b then Some a else Some b
  end.

Definition First (cond : Alert.t -> bool) (db : DB) : option Alert.t :=
  fold_left (fun best a => if cond a then pick_least best a else best)
            (alerts db) None.

(** [DB.Save(&a)] of a row read from the table: the row of that key is
    overwritten. *)
Definition Save_alert (a : Alert.t) (db : DB) : DB :=
  {| alerts := map (fun r => if Alert.ID r =? Alert.ID a then a else r) (alerts db);
     system_logs := system_logs db;
     system_metrics := system_metrics db |}.
End database.

(** ** monitor: [SystemMonitor] *)

Module monitor.
Import models.

Record SystemMonitor := {
  lastNetworkStats : gmap string net.IOCountersStat;
  lastNetworkTime : GoTime.Time
}.

(** [NewSystemMonitor()], created at time [now]. *)
Definition NewSystemMonitor (now : GoTime.Time) : SystemMonitor :=
  {| lastNetworkStats := ∅; lastNetworkTime := now |}.

(** The accumulators of the loop of [getNetworkSpeed]:
    [totalUploadBytes], [totalDownloadBytes] and the map being written. *)
Record NetAcc := {
  totalUploadBytes : Z;
  totalDownloadBytes : Z;
  stats : gmap string net.IOCountersStat
}.

(** One iteration of [for _, stat := range netStats]. *)
Definition net_iter (acc : NetAcc) (stat : net.IOCountersStat) : NetAcc :=
  match stats acc !! net.Name stat with
  | Some lastStat =>
      let uploadDiff := U64.sub (net.BytesSent stat) (net.BytesSent lastStat) in
      let downloadDiff := U64.sub (net.BytesRecv stat) (net.BytesRecv lastStat) in
      {| totalUploadBytes := U64.add (totalUploadBytes acc) uploadDiff;
         totalDownloadBytes := U64.add (totalDownloadBytes acc) downloadDiff;
         stats := <[net.Name stat := stat]> (stats acc) |}
  | None =>
      {| totalUploadBytes := totalUploadBytes acc;
         totalDownloadBytes := totalDownloadBytes acc;
         stats := <[net.Name stat := stat]> (stats acc) |}
  end.

Definition net_loop (last : gmap string net.IOCountersStat)
           (netStats : list net.IOCountersStat) : NetAcc :=
  fold_left net_iter netStats
    {| totalUploadBytes := 0; totalDownloadBytes := 0; stats := last |}.

(** [now.Sub(sm.lastNetworkTime).Seconds()]. *)
Definition timeDiff (sm : SystemMonitor) (now : GoTime.Time) : float :=
  GoTime.Seconds (GoTime.Sub now (lastNetworkTime sm)).

Definition errTimeDiffZero : error := "time difference is zero".

(** [getNetworkSpeed]: the monitor after the call, and
    [(uploadSpeed, downloadSpeed)] or the error. *)
Definition getNetworkSpeed (sm : SystemMonitor)
           (io : result (list net.IOCountersStat)) (now : GoTime.Time)
  : SystemMonitor * result (float * float) :=
  match io with
  | Err e => (sm, Err e)
  | Ok netStats =>
      let dt := timeDiff sm now in
      if F64.eqb dt 0 then (sm, Err errTimeDiffZero)
      else
        let acc := net_loop (lastNetworkStats sm) netStats in
        let uploadSpeed :=
          (F64.of_uint64 (totalUploadBytes acc) / (1024 * 1024 * dt))%float in
        let downloadSpeed :=
          (F64.of_uint64 (totalDownloadBytes acc) / (1024 * 1024 * dt))%float in
        ({| lastNetworkStats := stats acc; lastNetworkTime := now |},
         Ok ((F64.Round (uploadSpeed * 100) / 100)%float,
             (F64.Round (downloadSpeed * 100) / 100)%float))
  end.

(** The loop over the partitions: [totalUsage] and [partitionCount]. A
    partition whose usage lookup fails is passed over by [continue]. The
    count is at most the length of the slice, so the [int] cannot
    overflow. *)
Definition disk_iter (usage : string -> result disk.UsageStat)
           (acc : float * Z) (partition : disk.PartitionStat) : float * Z :=
  match usage (disk.Mountpoint partition) with
  | Err _ => acc
  | Ok u => ((fst acc + disk.UsedPercent u)%float, snd acc + 1)
  end.

Definition disk_loop (usage : string -> result disk.UsageStat)
           (partitions : list disk.PartitionStat) : float * Z :=
  fold_left (disk_iter usage) partitions (0%float, 0).

Definition collect_cpu (r : result (list float)) (metrics : SystemMetrics.t)
  : SystemMetrics.t :=
  match r with
  | Err _ => SystemMetrics.set_CPU 0 metrics
  | Ok (c :: _) => SystemMetrics.set_CPU (F64.Round (c * 100) / 100)%float metrics
  | Ok [] => metrics
  end.

Definition collect_memory (r : result mem.VirtualMemoryStat)
           (metrics : SystemMetrics.t) : SystemMetrics.t :=
  match r with
  | Err _ => SystemMetrics.set_Memory 0 metrics
  | Ok memory =>
      SystemMetrics.set_Memory
        (F64.Round (mem.UsedPercent memory * 100) / 100)%float metrics
  end.

Definition collect_disk (r : result (list disk.PartitionStat))
           (usage : string -> result disk.UsageStat)
           (metrics : SystemMetrics.t) : SystemMetrics.t :=
  match r with
  | Err _ => SystemMetrics.set_Disk 0 metrics
  | Ok partitions =>
      let '(totalUsage, partitionCount) := disk_loop usage partitions in
      if 0 <? partitionCount then
        SystemMetrics.set_Disk
          (F64.Round ((totalUsage / F64.of_int partitionCount) * 100) / 100)%float
          metrics
      else metrics
  end.

Definition collect_network (r : result (float * float))
           (metrics : SystemMetrics.t) : SystemMetrics.t :=
  match r with
  | Err _ => SystemMetrics.set_Download 0 (SystemMetrics.set_Upload 0 metrics)
  | Ok (uploadSpeed, downloadSpeed) =>
      SystemMetrics.set_Download downloadSpeed
        (SystemMetrics.set_Upload uploadSpeed metrics)
  end.

(** [CollectSystemMetrics]: the monitor after the call, the record and the
    returned error ([None] is [nil]). *)
Definition CollectSystemMetrics (sm : SystemMonitor) (env : Sensors)
  : SystemMonitor * (SystemMetrics.t * option error) :=
  let metrics := SystemMetrics.new (clock env) in
  let metrics := collect_cpu (cpu_Percent env) metrics in
  let metrics := collect_memory (mem_VirtualMemory env) metrics in
  let metrics := collect_disk (disk_Partitions env) (disk_Usage env) metrics in
  let '(sm', speed) := getNetworkSpeed sm (net_IOCounters env) (net_clock env) in
  let metrics := collect_network speed metrics in
  (sm', (metrics, None)).

(** [SaveMetrics]: [write_error] is the error of the write, if it fails. *)
Definition SaveMetrics (write_error : option error) (now : GoTime.Time)
           (metrics : SystemMetrics.t) (db : database.DB)
  : result (SystemMetrics.t * database.DB) :=
  match write_error with
  | Some e => Err e
  | None => Ok (database.Create_metrics now metrics db)
  end.

(** The texts of one signal kind: the alert type, and the formats of the
    raised and of the recovered message. *)
Record Kind := { type_name : string; fmt_high : string; fmt_normal : string }.

Definition kind_cpu : Kind :=
  {| type_name := "cpu";
     fmt_high := "CPU使用率过高: %.2f%%";
     fmt_normal := "CPU使用率恢复正常: %.2f%%" |}.
Definition kind_memory : Kind :=
  {| type_name := "memory";
     fmt_high := "内存使用率过高: %.2f%%";
     fmt_normal := "内存使用率恢复正常: %.2f%%" |}.
Definition kind_disk : Kind :=
  {| type_name := "disk";
     fmt_high := "磁盘使用率过高: %.2f%%";
     fmt_normal := "磁盘使用率恢复正常: %.2f%%" |}.

(** One of the three blocks of [CheckAlerts], for the value [v] of a kind
    and its configured threshold. *)
Definition check_kind (k : Kind) (v : float) (threshold : Z)
           (now : GoTime.Time) (db : database.DB) : database.DB :=
  if F64.gtb v (F64.of_int threshold) then
    match database.First (database.type_and_status (type_name k) "active") db with
    | None =>
        let alert :=
          {| Alert.ID := 0; Alert.Type_ := type_name k; Alert.Level := "warning";
             Alert.Message := Sprintf (fmt_high k) v; Alert.Value := v;
             Alert.Threshold := F64.of_int threshold; Alert.Status := "active";
             Alert.Timestamp := now; Alert.CreatedAt := 0; Alert.UpdatedAt := 0 |} in
        let db := database.Create_alert now alert db in
        let systemLog :=
          {| SystemLog.ID := 0; SystemLog.Level := "warning";
             SystemLog.Category := "system";
             SystemLog.Message := Sprintf (fmt_high k) v;
             SystemLog.Timestamp := now; SystemLog.CreatedAt := 0 |} in
        database.Create_log now systemLog db
    | Some existingAlert =>
        let existingAlert :=
          {| Alert.ID := Alert.ID existingAlert;
             Alert.Type_ := Alert.Type_ existingAlert;
             Alert.Level := Alert.Level existingAlert;
             Alert.Message := Sprintf (fmt_high k) v;
             Alert.Value := v;
             Alert.Threshold := Alert.Threshold existingAlert;
             Alert.Status := Alert.Status existingAlert;
             Alert.Timestamp := Alert.Timestamp existingAlert;
             Alert.CreatedAt := Alert.CreatedAt existingAlert;
             Alert.UpdatedAt := now |} in
        database.Save_alert existingAlert db
    end
  else
    match database.First (database.type_and_status (type_name k) "active") db with
    | Some existingAlert =>
        let existingAlert :=
          {| Alert.ID := Alert.ID existingAlert;
             Alert.Type_ := Alert.Type_ existingAlert;
             Alert.Level := Alert.Level existingAlert;
             Alert.Message := Alert.Message existingAlert;
             Alert.Value := Alert.Value existingAlert;
             Alert.Threshold := Alert.Threshold existingAlert;
             Alert.Status := "resolved";
             Alert.Timestamp := Alert.Timestamp existingAlert;
             Alert.CreatedAt := Alert.CreatedAt existingAlert;
             Alert.UpdatedAt := now |} in
        let db := database.Save_alert existingAlert db in
        let systemLog :=
          {| SystemLog.ID := 0; SystemLog.Level := "info";
             SystemLog.Category := "system";
             SystemLog.Message := Sprintf (fmt_normal k) v;
             SystemLog.Timestamp := now; SystemLog.CreatedAt := 0 |} in
        database.Create_log now systemLog db
    | None => db
    end.

(** [CheckAlerts]: the store after the call and the returned error, which
    is always [nil]. The function has no other output. *)
Definition CheckAlerts (cfg : config.Monitor) (now : GoTime.Time)
           (metrics : SystemMetrics.t) (db : database.DB)
  : database.DB * option error :=
  let db := check_kind kind_cpu (SystemMetrics.CPU metrics) (config.AlertCPU cfg) now db in
  let db := check_kind kind_memory (SystemMetrics.Memory metrics) (config.AlertMemory cfg) now db in
  let db := check_kind kind_disk (SystemMetrics.Disk metrics) (config.AlertDisk cfg) now db in
  (db, None).
End monitor.

(** ** websocket: the Hub and its clients *)

Module websocket.
Import models.

(** The [data] member of a broadcast JSON object. *)
Inductive Data :=
| DataMetrics (metrics : SystemMetrics.t)
| DataAlert (alert : Alert.t)
| DataSystemLog (logs : list SystemLog.t)
| DataPong (timestamp : Z).

(** A message: the JSON object [{"type": ..., "data": ...}] that the
    bytes on a channel encode. *)
Record message := { type : string; data : Data }.

(** A buffered [chan []byte]. *)
Record Chan := { buf : list message; cap : nat; closed : bool }.

Definition make_chan (n : nat) : Chan :=
  {| buf := []; cap := n; closed := false |}.

(** [select { case ch <- m: ... default: ... }]. A send on a closed
    channel panics. *)
Inductive send_result := Sent (ch : Chan) | WouldBlock | SendPanic.

Definition try_send (m : message) (ch : Chan) : send_result :=
  if closed ch then SendPanic
  else if (length (buf ch) <? cap ch)%nat
       then Sent {| buf := buf ch ++ [m]; cap := cap ch; closed := false |}
       else WouldBlock.

(** [close(ch)]: [None] is the panic on a channel already closed. *)
Definition close (ch : Chan) : option Chan :=
  if closed ch then None
  else Some {| buf := buf ch; cap := cap ch; closed := true |}.

(** What was written to a connection. *)
Inductive frame := TextMessage (m : message) | CloseMessage | PingMessage.

Record Client := { ID : string; Socket : list frame; Send : Chan }.

Definition set_Send (ch : Chan) (c : Client) : Client :=
  {| ID := ID c; Socket := Socket c; Send := ch |}.

(** [*Client]. *)
Definition ptr := positive.

(** The Hub: [Clients] is the map [h.Clients]; [mem] holds the [Client]
    objects that the pointers refer to. *)
Record Hub := { Clients : gmap ptr bool; mem : gmap ptr Client }.

Definition NewHub : Hub := {| Clients := ∅; mem := ∅ |}.

(** The body of [for client := range h.Clients] in the Broadcast case,
    at [client]; [None] is a panic. An entry removed before it is
    reached is not visited. *)
Definition deliver (m : message) (h : Hub) (client : ptr) : option Hub :=
  match Clients h !! client with
  | None => Some h
  | Some _ =>
      match mem h !! client with
      | None => None
      | Some c =>
          match try_send m (Send c) with
          | Sent ch =>
              Some {| Clients := Clients h;
                      mem := <[client := set_Send ch c]> (mem h) |}
          | WouldBlock =>
              match close (Send c) with
              | None => None
              | Some ch =>
                  Some {| Clients := delete client (Clients h);
                          mem := <[client := set_Send ch c]> (mem h) |}
              end
          | SendPanic => None
          end
      end
  end.

Fixpoint broadcast_over (order : list ptr) (m : message) (h : Hub) : option Hub :=
  match order with
  | [] => Some h
  | client :: rest =>
      match deliver m h client with
      | None => None
      | Some h' => broadcast_over rest m h'
      end
  end.

(** What [Hub.Run] takes from its three channels. *)
Inductive request :=
| Register (client : ptr)
| Unregister (client : ptr)
| Broadcast (m : message).

(** One turn of the [for { select { ... } }] of [Hub.Run]; [order] is the
    order in which [range] visits the clients. *)
Definition Run_case (order : list ptr) (req : request) (h : Hub) : option Hub :=
  match req with
  | Register client =>
      Some {| Clients := <[client := true]> (Clients h); mem := mem h |}
  | Unregister client =>
      match Clients h !! client with
      | Some _ =>
          match mem h !! client with
          | None => None
          | Some c =>
              match close (Send c) with
              | None => None
              | Some ch =>
                  Some {| Clients := delete client (Clients h);
                          mem := <[client := set_Send ch c]> (mem h) |}
              end
          end
      | None => Some h
      end
  | Broadcast m => broadcast_over order m h
  end.

(** The keys of [h.Clients]. *)
Definition registered (h : Hub) : list ptr := (map_to_list (Clients h)).*1.

(** [range] visits the registered clients in an unspecified order. *)
Inductive hub_step : Hub -> request -> Hub -> Prop :=
| hub_step_intro h req order h' :
    order ≡ₚ registered h ->
    Run_case order req h = Some h' ->
    hub_step h req h'.

(** [ServeWebSocket]: a new client at a fresh address, with a queue of
    256 messages; it is then sent to [h.Register]. *)
Definition new_client (id : string) : Client :=
  {| ID := id; Socket := []; Send := make_chan 256 |}.

(** [writePump] taking one message from [c.Send] and writing it to the
    connection; on a closed and drained channel it writes the close
    frame. [None]: nothing to receive, the pump waits. *)
Definition writePump_recv (client : ptr) (h : Hub) : option Hub :=
  match mem h !! client with
  | None => None
  | Some c =>
      match buf (Send c) with
      | m :: rest =>
          Some {| Clients := Clients h;
                  mem := <[client :=
                            {| ID := ID c; Socket := Socket c ++ [TextMessage m];
                               Send := {| buf := rest; cap := cap (Send c);
                                          closed := closed (Send c) |} |}]> (mem h) |}
      | [] =>
          if closed (Send c) then
            Some {| Clients := Clients h;
                    mem := <[client :=
                              {| ID := ID c; Socket := Socket c ++ [CloseMessage];
                                 Send := Send c |}]> (mem h) |}
          else None
      end
  end.

(** The Hub loop and the write pumps of the clients, interleaved. *)
Inductive event := HubTakes (req : request) | PumpWrites (client : ptr).

Inductive step : Hub -> event -> Hub -> Prop :=
| step_hub h req h' : hub_step h req h' -> step h (HubTakes req) h'
| step_pump h client h' :
    writePump_recv client h = Some h' -> step h (PumpWrites client) h'.

Inductive run : Hub -> list event -> Hub -> Prop :=
| run_nil h : run h [] h
| run_cons h e h' es h'' : step h e h' -> run h' es h'' -> run h (e :: es) h''.

(** [json.Marshal] refuses a float that is NaN or infinite. *)
Definition finite (x : float) : bool :=
  match PrimFloat.classify x with
  | NaN | PInf | NInf => false
  | _ => true
  end.

Definition marshals (d : Data) : bool :=
  match d with
  | DataMetrics m =>
      finite (SystemMetrics.CPU m) && finite (SystemMetrics.Memory m)
      && finite (SystemMetrics.Disk m) && finite (SystemMetrics.Upload m)
      && finite (SystemMetrics.Download m)
  | DataAlert a => finite (Alert.Value a) && finite (Alert.Threshold a)
  | DataSystemLog _ => true
  | DataPong _ => true
  end.

(** The [Broadcast...] methods: what is sent to [h.Broadcast], nothing
    when the encoding fails. *)
Definition publish (ty : string) (d : Data) : list request :=
  if marshals d then [Broadcast {| type := ty; data := d |}] else [].

Definition BroadcastSystemMetrics (metrics : SystemMetrics.t) : list request :=
  publish "system_metrics" (DataMetrics metrics).
Definition BroadcastAlert (alert : Alert.t) : list request :=
  publish "alert" (DataAlert alert).
Definition BroadcastSystemLog (logs : list SystemLog.t) : list request :=
  publish "system_log" (DataSystemLog logs).
End websocket.

(** ** scheduler *)

Module scheduler.
Import models.

Record Scheduler := { sysMon : monitor.SystemMonitor; DB : database.DB }.

(** [collectSystemMetrics], the job of every sampling tick: the
    scheduler and the store after the job, and what the job sent to the
    Hub. [write_error] is the outcome of the write of [SaveMetrics] and
    [now] the clock of the writes. *)
Definition collectSystemMetrics (cfg : config.Monitor) (env : Sensors)
           (write_error : option error) (now : GoTime.Time) (s : Scheduler)
  : Scheduler * list websocket.request :=
  let '(sm, (metrics, err)) := monitor.CollectSystemMetrics (sysMon s) env in
  match err with
  | Some _ => ({| sysMon := sm; DB := DB s |}, [])
  | None =>
      match monitor.SaveMetrics write_error now metrics (DB s) with
      | Err _ => ({| sysMon := sm; DB := DB s |}, [])
      | Ok (metrics, db) =>
          let '(db, _) := monitor.CheckAlerts cfg now metrics db in
          ({| sysMon := sm; DB := db |},
           websocket.BroadcastSystemMetrics metrics)
      end
  end.

(** Successive ticks. *)
Fixpoint ticks (cfg : config.Monitor)
         (inputs : list (Sensors * option error * GoTime.Time)) (s : Scheduler)
  : Scheduler * list websocket.request :=
  match inputs with
  | [] => (s, [])
  | (env, write_error, now) :: rest =>
      let '(s', out) := collectSystemMetrics cfg env write_error now s in
      let '(s'', outs) := ticks cfg rest s' in
      (s'', out ++ outs)
  end.

(** The messages of a given type among what was sent to the Hub. *)
Definition of_type (ty : string) (reqs : list websocket.request)
  : list websocket.message :=
  flat_map (fun r => match r with
                     | websocket.Broadcast m =>
                         if String.eqb (websocket.type m) ty then [m] else []
                     | _ => []
                     end) reqs.
End scheduler.

(** ** The fields of a record, from the readings that succeed *)

Module fields.
(** The CPU field from a successful [cpu.Percent]: the first entry,
    rounded; the field keeps its zero value when the slice is empty. *)
Definition cpu_value (cpuPercent : list float) : float :=
  match cpuPercent with
  | c :: _ => F64.round2 c
  | [] => 0%float
  end.

(** The Disk field from a successful [disk.Partitions]: the rounded
    quotient when a partition was counted; else the field keeps its zero
    value. *)
Definition disk_value (usage : string -> result disk.UsageStat)
           (partitions : list disk.PartitionStat) : float :=
  if 0 <? snd (monitor.disk_loop usage partitions)
  then F64.round2 (fst (monitor.disk_loop usage partitions)
                   / F64.of_int (snd (monitor.disk_loop usage partitions)))%float
  else 0%float.
End fields.

(** ** The words of the specification *)

Module spec.
(** "rate = (delta bytes) / (1,048,576 x elapsed seconds), rounded to 2
    decimal places, expressed in MB/s". *)
Definition rate_MBps (delta : Z) (dt : float) : float :=
  F64.round2 (F64.of_uint64 delta / (1048576 * dt))%float.

(** The byte delta of two readings of a counter as the unsigned
    subtraction gives it: a decrease wraps around [2^64]. *)
Definition wrapped_delta (cur prev : Z) : Z :=
  if cur <? prev then cur - prev + 2 ^ 64 else cur - prev.

(** The sign bit of a float is clear, or the float is NaN. *)
Definition sign_clear (f : spec_float) : Prop :=
  match f with
  | S754_zero s | S754_infinity s | S754_finite s _ _ => s = false
  | S754_nan => True
  end.

Definition not_negative (x : float) : Prop := sign_clear (Prim2SF x).

(** "the current readings", as a map from interface name to sample. *)
Definition put (m : gmap string net.IOCountersStat) (stat : net.IOCountersStat)
  : gmap string net.IOCountersStat :=
  <[net.Name stat := stat]> m.

Definition current_readings (netStats : list net.IOCountersStat)
  : gmap string net.IOCountersStat :=
  fold_left put netStats ∅.

(** "the per-partition used-percent of exactly those partitions whose
    usage lookup succeeds". *)
Definition successful_usage (usage : string -> result disk.UsageStat)
           (partitions : list disk.PartitionStat) : list float :=
  flat_map (fun partition =>
              match usage (disk.Mountpoint partition) with
              | Ok u => [disk.UsedPercent u]
              | Err _ => []
              end) partitions.


(** "a sub-measurement that fails is substituted with 0". *)
Definition or_zero {A : Type} (r : result A) (value : A -> float) : float :=
  match r with
  | Ok a => value a
  | Err _ => 0%float
  end.
End spec.

(** ** Sample data *)

Module sample.
Import monitor.

Definition stat (name : string) (sent recv : Z) : net.IOCountersStat :=
  {| net.Name := name; net.BytesSent := sent; net.BytesRecv := recv;
     net.PacketsSent := 0; net.PacketsRecv := 0 |}.

(** A monitor that last saw the aggregate interface at time 0. *)
Definition sm_all : SystemMonitor :=
  {| lastNetworkStats := {[ "all"%string := stat "all" 1000 5000 ]};
     lastNetworkTime := 0 |}.

(** A monitor that last saw only [eth0]. *)
Definition sm_eth0 : SystemMonitor :=
  {| lastNetworkStats := {[ "eth0"%string := stat "eth0" 1000 5000 ]};
     lastNetworkTime := 0 |}.

Definition two_seconds : GoTime.Time := 2000000000.
End sample.

Module sample_env.
Definition failing : error := "sensor unavailable".

Definition root_fs : disk.PartitionStat :=
  {| disk.Device := "/dev/sda1"; disk.Mountpoint := "/" |}.
Definition data_fs : disk.PartitionStat :=
  {| disk.Device := "/dev/sdb1"; disk.Mountpoint := "/data" |}.
Definition cdrom : disk.PartitionStat :=
  {| disk.Device := "/dev/sr0"; disk.Mountpoint := "/media/cdrom" |}.

Definition used (percent : float) : result disk.UsageStat :=
  Ok {| disk.Total := 100; disk.Used := 0; disk.Free := 0;
        disk.UsedPercent := percent |}.

(** [/] is 40% used, [/data] 65.5%, and the lookup of the cdrom fails. *)
Definition usage (mountpoint : string) : result disk.UsageStat :=
  if String.eqb mountpoint "/" then used 40
  else if String.eqb mountpoint "/data" then used 65.5
  else Err failing.

(** No usage lookup succeeds. *)
Definition no_usage (mountpoint : string) : result disk.UsageStat := Err failing.

Definition healthy : Sensors :=
  {| clock := 2000000000;
     cpu_Percent := Ok [12.345%float];
     mem_VirtualMemory := Ok {| mem.UsedPercent := 50 |};
     disk_Partitions := Ok [root_fs; cdrom; data_fs];
     disk_Usage := usage;
     net_IOCounters := Ok [sample.stat "all" 2098152 3150728];
     net_clock := 2000000000 |}.

(** The same cycle, every usage lookup failing. *)
Definition no_disk_usage : Sensors :=
  {| clock := 2000000000;
     cpu_Percent := Ok [12.345%float];
     mem_VirtualMemory := Ok {| mem.UsedPercent := 50 |};
     disk_Partitions := Ok [root_fs; cdrom; data_fs];
     disk_Usage := no_usage;
     net_IOCounters := Ok [sample.stat "all" 2098152 3150728];
     net_clock := 2000000000 |}.

(** A cycle in which every sub-measurement fails. *)
Definition all_failing : Sensors :=
  {| clock := 2000000000;
     cpu_Percent := Err failing;
     mem_VirtualMemory := Err failing;
     disk_Partitions := Err failing;
     disk_Usage := no_usage;
     net_IOCounters := Err failing;
     net_clock := 2000000000 |}.

(** The same cycle, read at the very time of the previous sample. *)
Definition same_instant : Sensors :=
  {| clock := 0;
     cpu_Percent := Ok [12.345%float];
     mem_VirtualMemory := Ok {| mem.UsedPercent := 50 |};
     disk_Partitions := Ok [root_fs; cdrom; data_fs];
     disk_Usage := usage;
     net_IOCounters := Ok [sample.stat "all" 2098152 3150728];
     net_clock := 0 |}.
End sample_env.

(** ** The invariant of the alert table *)

Module alerts.
Import models.

(** The active alerts of a kind. *)
Definition active_of (kind : string) (db : database.DB) : list Alert.t :=
  List.filter (database.type_and_status kind "active") (database.alerts db).

(** "at most one Alert with status=active exists" for the kind. *)
Definition at_most_one_active (kind : string) (db : database.DB) : Prop :=
  (length (active_of kind db) <= 1)%nat.

(** The primary key of the table. *)
Definition keys_unique (db : database.DB) : Prop :=
  NoDup (map Alert.ID (database.alerts db)).
End alerts.

(** ** The example scenario of the alert evaluator *)

Module scenario.
Import models.

(** Thresholds: cpu 80, memory 80, disk 90. *)
Definition cfg : config.Monitor :=
  {| config.Interval := 5; config.AlertCPU := 80; config.AlertMemory := 80;
     config.AlertDisk := 90; config.HistoryHours := 24 |}.

(** The readings of the tick at [seconds], with CPU usage [cpu]. *)
Definition readings (seconds : Z) (cpu : float) : Sensors :=
  {| clock := seconds * GoTime.Second;
     cpu_Percent := Ok [cpu];
     mem_VirtualMemory := Ok {| mem.UsedPercent := 50 |};
     disk_Partitions := Ok [sample_env.root_fs; sample_env.cdrom; sample_env.data_fs];
     disk_Usage := sample_env.usage;
     net_IOCounters := Ok [sample.stat "all" (seconds * 1048576) 0];
     net_clock := seconds * GoTime.Second |}.

Definition tick (seconds : Z) (cpu : float)
  : Sensors * option error * GoTime.Time :=
  (readings seconds cpu, None, seconds * GoTime.Second).

(** The scheduler at time 0, on an empty store. *)
Definition start : scheduler.Scheduler :=
  {| scheduler.sysMon := monitor.NewSystemMonitor 0;
     scheduler.DB := database.empty |}.

(** The sample sequence [70, 85, 90, 75], one sample every 5 seconds. *)
Definition samples : list (Sensors * option error * GoTime.Time) :=
  [tick 5 70; tick 10 85; tick 15 90; tick 20 75].

(** The store after the first [n] samples. *)
Definition store_after (n : nat) : database.DB :=
  scheduler.DB (fst (scheduler.ticks cfg (firstn n samples) start)).

(** What the four ticks sent to the Hub. *)
Definition sent : list websocket.request :=
  snd (scheduler.ticks cfg samples start).

(** The alert of the scenario, as it is stored after the sample [value]
    read at [seconds], with status [status]. *)
Definition cpu_alert (value : float) (seconds : Z) (status : string) : Alert.t :=
  {| Alert.ID := 1; Alert.Type_ := "cpu"; Alert.Level := "warning";
     Alert.Message := Sprintf "CPU使用率过高: %.2f%%" value;
     Alert.Value := value; Alert.Threshold := 80; Alert.Status := status;
     Alert.Timestamp := 10 * GoTime.Second;
     Alert.CreatedAt := 10 * GoTime.Second;
     Alert.UpdatedAt := seconds * GoTime.Second |}.

(** A store holding that alert, active. *)
Definition store_with_alert : database.DB :=
  {| database.alerts := [cpu_alert 85 10 "active"];
     database.system_logs := []; database.system_metrics := [] |}.

Definition metrics_cpu (cpu : float) : SystemMetrics.t :=
  SystemMetrics.set_CPU cpu (SystemMetrics.new 0).
End scenario.

(** ** The fan-out of the Hub, in the words of the specification *)

Module fanout.
Import websocket.

(** The client's queue has free capacity. *)
Definition has_room (c : Client) : bool :=
  (length (buf (Send c)) <? cap (Send c))%nat.

(** The client with [m] at the back of its queue. *)
Definition enqueue (m : message) (c : Client) : Client :=
  set_Send {| buf := buf (Send c) ++ [m]; cap := cap (Send c); closed := false |} c.

(** The client with its queue closed. *)
Definition shut (c : Client) : Client :=
  set_Send {| buf := buf (Send c); cap := cap (Send c); closed := true |} c.

(** Every registered pointer refers to a client whose queue is open. *)
Definition wf (h : Hub) : Prop :=
  forall client, is_Some (Clients h !! client) ->
    exists c, mem h !! client = Some c /\ closed (Send c) = false.

(** Nothing changed at [client]. *)
Definition same (h h' : Hub) (client : ptr) : Prop :=
  Clients h' !! client = Clients h !! client /\ mem h' !! client = mem h !! client.

(** The publish of [m] at [client]: a registered client with room has
    received [m] and stays registered; a registered client whose queue is
    full is out of the set, its queue closed; nothing else changes. *)
Definition outcome (m : message) (h h' : Hub) (client : ptr) : Prop :=
  match Clients h !! client, mem h !! client with
  | Some b, Some c =>
      if has_room c
      then Clients h' !! client = Some b /\ mem h' !! client = Some (enqueue m c)
      else Clients h' !! client = None /\ mem h' !! client = Some (shut c)
  | _, _ => same h h' client
  end.

(** [N] publishes, the fast client's pump writing each message out before
    the next publish; the slow client's pump never runs. *)
Definition fast_schedule (fast : ptr) (msgs : list message) : list event :=
  flat_map (fun m => [HubTakes (Broadcast m); PumpWrites fast]) msgs.

(** A client whose queue is empty and open. *)
Definition drained (c : Client) : Client :=
  set_Send {| buf := []; cap := cap (Send c); closed := false |} c.

(** The client after its pump wrote [msgs] to the connection. *)
Definition wrote (msgs : list message) (c : Client) : Client :=
  {| ID := ID c; Socket := Socket c ++ map TextMessage msgs; Send := Send c |}.

(** The client [c] at [client] is registered. *)
Definition still_in (h : Hub) (client : ptr) (c : Client) (b : bool) : Prop :=
  Clients h !! client = Some b /\ mem h !! client = Some c.

(** The client [c] at [client] is out of the set, its queue closed. *)
Definition dropped (h : Hub) (client : ptr) (c : Client) : Prop :=
  Clients h !! client = None /\ mem h !! client = Some (shut c).
End fanout.

Module sample_hub.
Import websocket.

Definition metrics_message (id : Z) : message :=
  {| type := "system_metrics";
     data := DataMetrics (models.SystemMetrics.set_CPU 50 (models.SystemMetrics.new id)) |}.

Definition fast : ptr := 1%positive.
Definition slow : ptr := 2%positive.

(** A client whose queue of two is empty. *)
Definition fast_client : Client :=
  {| ID := "fast"; Socket := []; Send := make_chan 2 |}.

(** A client whose queue of two is full. *)
Definition slow_client : Client :=
  {| ID := "slow"; Socket := [];
     Send := {| buf := [metrics_message 0; metrics_message 1]; cap := 2;
                closed := false |} |}.

Definition hub : Hub :=
  {| Clients := <[fast := true]> (<[slow := true]> ∅);
     mem := <[fast := fast_client]> (<[slow := slow_client]> ∅) |}.

Definition published : list message :=
  [metrics_message 2; metrics_message 3; metrics_message 4].
End sample_hub.

(** * Further code of the packages *)

(** ** The rows that [CheckAlerts] writes *)

Module alert_rows.
Import models.

(** The alert row stored when an alert of kind [k] is raised at [now] for
    the value [v], under the key [key]. *)
Definition raised (k : monitor.Kind) (v : float) (threshold : Z)
           (now : GoTime.Time) (key : Z) : Alert.t :=
  {| Alert.ID := key; Alert.Type_ := monitor.type_name k;
     Alert.Level := "warning";
     Alert.Message := Sprintf (monitor.fmt_high k) v; Alert.Value := v;
     Alert.Threshold := F64.of_int threshold; Alert.Status := "active";
     Alert.Timestamp := now; Alert.CreatedAt := now; Alert.UpdatedAt := now |}.

(** The row [a] after an update in place: value, message and update
    stamp change. *)
Definition updated (k : monitor.Kind) (v : float) (now : GoTime.Time)
           (a : Alert.t) : Alert.t :=
  {| Alert.ID := Alert.ID a; Alert.Type_ := Alert.Type_ a;
     Alert.Level := Alert.Level a;
     Alert.Message := Sprintf (monitor.fmt_high k) v; Alert.Value := v;
     Alert.Threshold := Alert.Threshold a; Alert.Status := Alert.Status a;
     Alert.Timestamp := Alert.Timestamp a; Alert.CreatedAt := Alert.CreatedAt a;
     Alert.UpdatedAt := now |}.

(** The row [a] once resolved: status and update stamp change. *)
Definition resolved (now : GoTime.Time) (a : Alert.t) : Alert.t :=
  {| Alert.ID := Alert.ID a; Alert.Type_ := Alert.Type_ a;
     Alert.Level := Alert.Level a; Alert.Message := Alert.Message a;
     Alert.Value := Alert.Value a; Alert.Threshold := Alert.Threshold a;
     Alert.Status := "resolved"; Alert.Timestamp := Alert.Timestamp a;
     Alert.CreatedAt := Alert.CreatedAt a; Alert.UpdatedAt := now |}.

(** The log row written with an alert transition. *)
Definition log_row (level format : string) (v : float) (now : GoTime.Time)
           (key : Z) : SystemLog.t :=
  {| SystemLog.ID := key; SystemLog.Level := level;
     SystemLog.Category := "system"; SystemLog.Message := Sprintf format v;
     SystemLog.Timestamp := now; SystemLog.CreatedAt := now |}.

(** The alerts of a type, whatever their status. *)
Definition of_type (ty : string) (db : database.DB) : list Alert.t :=
  List.filter (fun a => String.eqb (Alert.Type_ a) ty) (database.alerts db).
End alert_rows.

Module scenario_more.
Import models.

(** An alert of type service, as another component may store it. *)
Definition service_alert : Alert.t :=
  {| Alert.ID := 2; Alert.Type_ := "service"; Alert.Level := "error";
     Alert.Message := Sprintf "服务连接失败" 0;
     Alert.Value := 0; Alert.Threshold := 0; Alert.Status := "active";
     Alert.Timestamp := 12 * GoTime.Second;
     Alert.CreatedAt := 12 * GoTime.Second;
     Alert.UpdatedAt := 12 * GoTime.Second |}.

(** A store with an active cpu alert and an active service alert. *)
Definition store_with_service_alert : database.DB :=
  {| database.alerts := [scenario.cpu_alert 85 10 "active"; service_alert];
     database.system_logs := []; database.system_metrics := [] |}.
End scenario_more.

(** ** The life of a connection *)

Module connection.
Import websocket.

(** [ServeWebSocket] after the upgrade: the client object is allocated at
    [client], an address not in use, and is sent to [h.Register]. *)
Definition ServeWebSocket (id : string) (client : ptr) (h : Hub) : Hub * request :=
  ({| Clients := Clients h; mem := <[client := new_client id]> (mem h) |},
   Register client).

(** The loop of [writePump] on a connection whose writes succeed, for at
    most [turns] turns of its [Send] case (the ticker does not fire): the
    Hub, and whether the pump has returned. It returns after the close
    frame, and waits when the queue is empty and open. *)
Fixpoint writePump (turns : nat) (client : ptr) (h : Hub) : Hub * bool :=
  match turns with
  | O => (h, false)
  | S n =>
      match mem h !! client with
      | None => (h, false)
      | Some c =>
          match writePump_recv client h with
          | None => (h, false)
          | Some h' =>
              match buf (Send c) with
              | [] => (h', true)
              | _ :: _ => writePump n client h'
              end
          end
      end
  end.

(** The publishes of [msgs], one after the other. *)
Definition publishes (msgs : list message) : list event :=
  map (fun m => HubTakes (Broadcast m)) msgs.

(** The client with [msgs] at the back of its queue. *)
Definition enqueue_all (msgs : list message) (c : Client) : Client :=
  set_Send {| buf := buf (Send c) ++ msgs; cap := cap (Send c); closed := false |} c.
End connection.

Module sample_drop.
Import websocket.

(** The sample Hub after a publish removed the slow client. *)
Definition after_drop : Hub :=
  {| Clients := delete sample_hub.slow (Clients sample_hub.hub);
     mem := <[sample_hub.slow := fanout.shut sample_hub.slow_client]>
              (mem sample_hub.hub) |}.
End sample_drop.

(** ** The other tables of [models] *)

Module models_more.

Module DiskUsage.
Record t := {
  ID : Z;
  Path : string;
  Name : string;
  Total : Z;        (* uint64, GB *)
  Used : Z;
  Free : Z;
  Usage : float;
  Timestamp : GoTime.Time;
  CreatedAt : GoTime.Time;
  UpdatedAt : GoTime.Time
}.
End DiskUsage.

Module NetworkTraffic.
Record t := {
  ID : Z;
  Interface : string;
  Upload : Z;       (* uint64, bytes *)
  Download : Z;
  UploadSpeed : float;
  DownloadSpeed : float;
  Timestamp : GoTime.Time;
  CreatedAt : GoTime.Time;
  UpdatedAt : GoTime.Time
}.
End NetworkTraffic.

Module ProcessInfo.
Record t := {
  ID : Z;
  PID : Z;
  Name : string;
  CPU : float;
  Memory : float;
  Status : string;
  Timestamp : GoTime.Time;
  CreatedAt : GoTime.Time
}.
End ProcessInfo.

End models_more.

(** ** monitor: the secondary collections of [SystemMonitor] *)

Module monitor_more.
Import models_more.

(** [1024 * 1024 * 1024]. *)
Definition GB : Z := 1024 * 1024 * 1024.

(** The row [CollectDiskUsage] builds for a partition and its usage. *)
Definition disk_row (now : GoTime.Time) (partition : disk.PartitionStat)
           (usage : disk.UsageStat) : DiskUsage.t :=
  {| DiskUsage.ID := 0;
     DiskUsage.Path := disk.Mountpoint partition;
     DiskUsage.Name := disk.Device partition;
     DiskUsage.Total := disk.Total usage / GB;
     DiskUsage.Used := disk.Used usage / GB;
     DiskUsage.Free := disk.Free usage / GB;
     DiskUsage.Usage := (F64.Round (disk.UsedPercent usage * 100) / 100)%float;
     DiskUsage.Timestamp := now;
     DiskUsage.CreatedAt := 0; DiskUsage.UpdatedAt := 0 |}.

(** One iteration of the loop of [CollectDiskUsage]: a partition whose
    usage lookup fails is passed over. *)
Definition disk_usage_iter (usage : string -> result disk.UsageStat)
           (now : GoTime.Time) (diskUsages : list DiskUsage.t)
           (partition : disk.PartitionStat) : list DiskUsage.t :=
  match usage (disk.Mountpoint partition) with
  | Err _ => diskUsages
  | Ok u => diskUsages ++ [disk_row now partition u]
  end.

(** [CollectDiskUsage]. *)
Definition CollectDiskUsage (partitions : result (list disk.PartitionStat))
           (usage : string -> result disk.UsageStat) (now : GoTime.Time)
  : result (list DiskUsage.t) :=
  match partitions with
  | Err e => Err e
  | Ok partitions => Ok (fold_left (disk_usage_iter usage now) partitions [])
  end.

(** One iteration of the loop of [CollectNetworkTraffic]. The speeds
    stay 0 unless the interface has a stored sample and the elapsed time
    is above zero. *)
Definition traffic_iter (sm : monitor.SystemMonitor) (now : GoTime.Time)
           (networkTraffic : list NetworkTraffic.t) (stat : net.IOCountersStat)
  : list NetworkTraffic.t :=
  let '(uploadSpeed, downloadSpeed) :=
    match monitor.lastNetworkStats sm !! net.Name stat with
    | Some lastStat =>
        let timeDiff := monitor.timeDiff sm now in
        if F64.gtb timeDiff 0 then
          let uploadDiff := U64.sub (net.BytesSent stat) (net.BytesSent lastStat) in
          let downloadDiff := U64.sub (net.BytesRecv stat) (net.BytesRecv lastStat) in
          ((F64.of_uint64 uploadDiff / (1024 * 1024 * timeDiff))%float,
           (F64.of_uint64 downloadDiff / (1024 * 1024 * timeDiff))%float)
        else (0%float, 0%float)
    | None => (0%float, 0%float)
    end in
  networkTraffic ++
    [{| NetworkTraffic.ID := 0;
        NetworkTraffic.Interface := net.Name stat;
        NetworkTraffic.Upload := net.BytesSent stat;
        NetworkTraffic.Download := net.BytesRecv stat;
        NetworkTraffic.UploadSpeed := (F64.Round (uploadSpeed * 100) / 100)%float;
        NetworkTraffic.DownloadSpeed := (F64.Round (downloadSpeed * 100) / 100)%float;
        NetworkTraffic.Timestamp := now;
        NetworkTraffic.CreatedAt := 0; NetworkTraffic.UpdatedAt := 0 |}].

(** [CollectNetworkTraffic]: it reads the baseline of the monitor and
    does not write it. [io] is [net.IOCounters(true)]. *)
Definition CollectNetworkTraffic (sm : monitor.SystemMonitor)
           (io : result (list net.IOCountersStat)) (now : GoTime.Time)
  : result (list NetworkTraffic.t) :=
  match io with
  | Err e => Err e
  | Ok netStats => Ok (fold_left (traffic_iter sm now) netStats [])
  end.

(** Neither speed of the row is below zero. *)
Definition speeds_not_negative (row : NetworkTraffic.t) : Prop :=
  F64.ltb (NetworkTraffic.UploadSpeed row) 0 = false
  /\ F64.ltb (NetworkTraffic.DownloadSpeed row) 0 = false.

(** [DB.Create(&usage)] on the disk usage table. *)
Definition Create_disk_usage (now : GoTime.Time) (u : DiskUsage.t)
           (table : list DiskUsage.t) : list DiskUsage.t :=
  table ++
    [{| DiskUsage.ID := database.next_id (map DiskUsage.ID table);
        DiskUsage.Path := DiskUsage.Path u; DiskUsage.Name := DiskUsage.Name u;
        DiskUsage.Total := DiskUsage.Total u; DiskUsage.Used := DiskUsage.Used u;
        DiskUsage.Free := DiskUsage.Free u; DiskUsage.Usage := DiskUsage.Usage u;
        DiskUsage.Timestamp := DiskUsage.Timestamp u;
        DiskUsage.CreatedAt := now; DiskUsage.UpdatedAt := now |}].

(** [SaveDiskUsage]: the rows are written one by one and the first write
    that fails ends the loop. [write_errors] gives the outcome of the
    successive writes, [None] for a write that succeeds; writes beyond
    the list succeed. *)
Fixpoint SaveDiskUsage (write_errors : list (option error)) (now : GoTime.Time)
         (diskUsages : list DiskUsage.t) (table : list DiskUsage.t)
  : list DiskUsage.t * option error :=
  match diskUsages with
  | [] => (table, None)
  | usage :: rest =>
      match write_errors with
      | Some e :: _ => (table, Some e)
      | None :: outcomes =>
          SaveDiskUsage outcomes now rest (Create_disk_usage now usage table)
      | [] => SaveDiskUsage [] now rest (Create_disk_usage now usage table)
      end
  end.
End monitor_more.

(** ** database: the retention job *)

(** Go's [int64], with its wrap-around. *)
Module I64.
Definition wrap (z : Z) : Z := (z + 2 ^ 63) mod 2 ^ 64 - 2 ^ 63.
Definition neg (a : Z) : Z := wrap (- a).
Definition mul (a b : Z) : Z := wrap (a * b).
End I64.

Module retention.
Import models models_more.

(** [time.Hour]. *)
Definition Hour : GoTime.Duration := 3600 * GoTime.Second.

(** [t.Add(d)]. *)
Definition Add (t : GoTime.Time) (d : GoTime.Duration) : GoTime.Time := t + d.

(** The tables [CleanupOldData] deletes from. *)
Record Tables := {
  core : database.DB;
  network_traffic : list NetworkTraffic.t;
  process_info : list ProcessInfo.t
}.

(** [DB.Where(cond).Delete(&T{})]: the rows that satisfy the condition are
    removed. A statement that fails removes nothing; [CleanupOldData]
    does not look at its error. *)
Definition Delete_where {A : Type} (failed : bool) (cond : A -> bool)
           (rows : list A) : list A :=
  if failed then rows else List.filter (fun r => negb (cond r)) rows.

(** Which of the five statements fail. *)
Record Failures := {
  metrics_failed : bool;
  traffic_failed : bool;
  process_failed : bool;
  alerts_failed : bool;
  logs_failed : bool
}.

(** The three readings of [time.Now()]. *)
Record Clock := {
  now_metrics : GoTime.Time;
  now_alerts : GoTime.Time;
  now_logs : GoTime.Time
}.

(** [-time.Duration(retentionHours) * time.Hour]. *)
Definition retention_offset (retentionHours : Z) : GoTime.Duration :=
  I64.mul (I64.neg retentionHours) Hour.

(** How the store orders two times. The conditions [created_at < ?] and
    [updated_at < ?] are evaluated by the store on the text that the
    driver wrote for the time of the row and the text that it writes for
    the bound time, each with the zone offset that the process has at
    that instant; [before t u] is the outcome for the instants [t] and
    [u]. *)
Definition Order : Type := GoTime.Time -> GoTime.Time -> bool.

(** The order in a zone whose offset never changes, such as UTC: there
    the texts are in the order of the instants. *)
Definition instants : Order := Z.ltb.

(** The store orders the times as the instants are ordered. *)
Definition by_instant (before : Order) : Prop :=
  forall t u, before t u = (t <? u).

(** The condition [status = "resolved" AND updated_at < ?]. *)
Definition resolved_before (before : Order) (cutoff : GoTime.Time)
           (a : Alert.t) : bool :=
  String.eqb (Alert.Status a) "resolved" && before (Alert.UpdatedAt a) cutoff.

Definition CleanupOldData (before : Order) (cfg : config.Monitor) (clk : Clock)
           (f : Failures) (t : Tables) : Tables :=
  let retentionHours := config.HistoryHours cfg in
  let cutoffTime := Add (now_metrics clk) (retention_offset retentionHours) in
  let system_metrics' :=
    Delete_where (metrics_failed f)
      (fun m => before (SystemMetrics.CreatedAt m) cutoffTime)
      (database.system_metrics (core t)) in
  let network_traffic' :=
    Delete_where (traffic_failed f)
      (fun n => before (NetworkTraffic.CreatedAt n) cutoffTime)
      (network_traffic t) in
  let process_info' :=
    Delete_where (process_failed f)
      (fun p => before (ProcessInfo.CreatedAt p) cutoffTime) (process_info t) in
  let alertCutoffTime := Add (now_alerts clk) (-7 * 24 * Hour) in
  let alerts' :=
    Delete_where (alerts_failed f) (resolved_before before alertCutoffTime)
      (database.alerts (core t)) in
  let logCutoffTime := Add (now_logs clk) (-30 * 24 * Hour) in
  let system_logs' :=
    Delete_where (logs_failed f)
      (fun l => before (SystemLog.CreatedAt l) logCutoffTime)
      (database.system_logs (core t)) in
  {| core := {| database.alerts := alerts';
                database.system_logs := system_logs';
                database.system_metrics := system_metrics' |};
     network_traffic := network_traffic';
     process_info := process_info' |}.

(** The greatest [HistoryHours] whose offset fits a Duration. *)
Definition max_hours : Z := 2562047.

(** No statement fails. *)
Definition no_failure : Failures :=
  {| metrics_failed := false; traffic_failed := false; process_failed := false;
     alerts_failed := false; logs_failed := false |}.

(** The three readings taken at one instant. *)
Definition at_instant (now : GoTime.Time) : Clock :=
  {| now_metrics := now; now_alerts := now; now_logs := now |}.
End retention.

Module sample_retention.
Import models models_more retention.

Definition day : Z := 24 * Hour.

(** A metrics row created at [created]. *)
Definition metrics_row (key : Z) (created : GoTime.Time) : SystemMetrics.t :=
  {| SystemMetrics.ID := key; SystemMetrics.Timestamp := created;
     SystemMetrics.CPU := 10; SystemMetrics.Memory := 20;
     SystemMetrics.Disk := 30; SystemMetrics.Upload := 0;
     SystemMetrics.Download := 0;
     SystemMetrics.CreatedAt := created; SystemMetrics.UpdatedAt := created |}.

Definition traffic_row (key : Z) (created : GoTime.Time) : NetworkTraffic.t :=
  {| NetworkTraffic.ID := key; NetworkTraffic.Interface := "eth0";
     NetworkTraffic.Upload := 1; NetworkTraffic.Download := 2;
     NetworkTraffic.UploadSpeed := 0; NetworkTraffic.DownloadSpeed := 0;
     NetworkTraffic.Timestamp := created;
     NetworkTraffic.CreatedAt := created; NetworkTraffic.UpdatedAt := created |}.

(** An alert resolved long ago, beside the two active ones. *)
Definition old_alert : Alert.t :=
  {| Alert.ID := 3; Alert.Type_ := "cpu"; Alert.Level := "warning";
     Alert.Message := Sprintf "CPU使用率过高: %.2f%%" 91;
     Alert.Value := 91; Alert.Threshold := 80; Alert.Status := "resolved";
     Alert.Timestamp := 0; Alert.CreatedAt := 0; Alert.UpdatedAt := Hour |}.

(** Ten days in: metrics and traffic rows of day 1 and of day 10. *)
Definition tables : Tables :=
  {| core :=
       {| database.alerts :=
            [scenario.cpu_alert 85 10 "active"; scenario_more.service_alert;
             old_alert];
          database.system_logs := [];
          database.system_metrics :=
            [metrics_row 1 day; metrics_row 2 (10 * day - Hour)] |};
     network_traffic := [traffic_row 1 day; traffic_row 2 (10 * day - Hour)];
     process_info := [] |}.

Definition now : GoTime.Time := 10 * day.

(** A retention period of 2562048 hours. *)
Definition cfg_long : config.Monitor :=
  {| config.Interval := 5; config.AlertCPU := 80; config.AlertMemory := 80;
     config.AlertDisk := 90; config.HistoryHours := 2562048 |}.
End sample_retention.

(** ** api: resolving an alert by hand *)

Module api.
Import models.

(** The JSON body of the response. *)
Record Response := {
  Code : Z;
  Message : string;
  Data : option Alert.t
}.

(** [DB.First(&alert, alertID)] for an [id] parameter that is the decimal
    numeral of [id]: the row of that primary key. *)
Definition First_by_id (id : Z) (db : database.DB) : option Alert.t :=
  database.First (fun a => Alert.ID a =? id) db.

(** [ResolveAlert]: the store after the request, the HTTP status and the
    body. [save_error] is the error of [DB.Save], if it fails. *)
Definition ResolveAlert (id : Z) (now : GoTime.Time) (save_error : option error)
           (db : database.DB) : database.DB * (Z * Response) :=
  match First_by_id id db with
  | None =>
      (db, (404, {| Code := 404; Message := "告警不存在"; Data := None |}))
  | Some alert =>
      let alert := alert_rows.resolved now alert in
      match save_error with
      | Some _ =>
          (db, (500, {| Code := 500; Message := "更新告警状态失败"; Data := None |}))
      | None =>
          (database.Save_alert alert db,
           (200, {| Code := 200; Message := "告警已解决"; Data := Some alert |}))
      end
  end.
End api.

(** ** monitor: the service checks *)

Module service.

(** The error of a check: the one of the dial or of the HTTP client, or
    [fmt.Errorf(format, arg)]. *)
Inductive CheckError :=
| Transport (err : error)
| Errorf (format : string) (arg : Z).

(** What a check returns: status, response time and error. *)
Definition Outcome : Type := string * Z * option CheckError.

(** [int(time.Since(start).Milliseconds())]. *)
Definition Milliseconds (d : GoTime.Duration) : Z := Z.quot d 1000000.

(** [checkDatabaseService]: [dial] is the error of [net.DialTimeout], if
    any, and [elapsed] the time since [start]. *)
Definition checkDatabaseService (dial : option error) (elapsed : GoTime.Duration)
  : Outcome :=
  match dial with
  | Some err => ("error", 0, Some (Transport err))
  | None =>
      let responseTime := Milliseconds elapsed in
      if responseTime <? 100 then ("running", responseTime, None)
      else if responseTime <? 500 then ("warning", responseTime, None)
      else ("error", responseTime, Some (Errorf "响应时间过长: %dms" responseTime))
  end.

Definition checkMailService (dial : option error) (elapsed : GoTime.Duration)
  : Outcome :=
  match dial with
  | Some err => ("error", 0, Some (Transport err))
  | None =>
      let responseTime := Milliseconds elapsed in
      if responseTime <? 100 then ("running", responseTime, None)
      else if responseTime <? 500 then ("warning", responseTime, None)
      else ("error", responseTime, Some (Errorf "响应时间过长: %dms" responseTime))
  end.

Definition checkStorageService (dial : option error) (elapsed : GoTime.Duration)
  : Outcome :=
  match dial with
  | Some err => ("error", 0, Some (Transport err))
  | None =>
      let responseTime := Milliseconds elapsed in
      if responseTime <? 100 then ("running", responseTime, None)
      else if responseTime <? 500 then ("warning", responseTime, None)
      else ("error", responseTime, Some (Errorf "响应时间过长: %dms" responseTime))
  end.

(** [checkWebService]: [new_request] and [do] are the errors of
    [http.NewRequestWithContext] and of [httpClient.Do], if any, and
    [StatusCode] the status of the response. *)
Definition checkWebService (new_request do : option error) (StatusCode : Z)
           (elapsed : GoTime.Duration) : Outcome :=
  match new_request with
  | Some err => ("error", 0, Some (Transport err))
  | None =>
      match do with
      | Some err => ("error", 0, Some (Transport err))
      | None =>
          let responseTime := Milliseconds elapsed in
          if (200 <=? StatusCode) && (StatusCode <? 400) then
            if responseTime <? 200 then ("running", responseTime, None)
            else if responseTime <? 1000 then ("warning", responseTime, None)
            else ("error", responseTime,
                  Some (Errorf "响应时间过长: %dms" responseTime))
          else ("error", responseTime,
                Some (Errorf "HTTP状态码错误: %d" StatusCode))
      end
  end.

Definition status (o : Outcome) : string := fst (fst o).
Definition response (o : Outcome) : Z := snd (fst o).
Definition err (o : Outcome) : option CheckError := snd o.

(** The order of the three statuses, from good to bad. *)
Definition severity (s : string) : nat :=
  if String.eqb s "running" then 0
  else if String.eqb s "warning" then 1
  else 2.

(** The level [CheckAllServices] logs the check at. *)
Definition log_level (o : Outcome) : string :=
  match err o with
  | Some _ => "error"
  | None => "info"
  end.
End service.

(** ** The rate of the specification, in exact arithmetic *)

Module exact.
(** "(delta bytes) / (1,048,576 x elapsed seconds), rounded to 2 decimal
    places", in hundredths of a MB/s: the integer nearest to
    [100 x delta / (1,048,576 x elapsed_ns / 10^9)], a half going up, for
    a byte count that is not negative and a positive time in
    nanoseconds. *)
Definition rate_hundredths (delta elapsed_ns : Z) : Z :=
  let num := delta * 100 * 1000000000 in
  let den := 1048576 * elapsed_ns in
  (2 * num + den) / (2 * den).

(** The float64 nearest to [h] hundredths. *)
Definition of_hundredths (h : Z) : float := (F64.of_int h / 100)%float.
End exact.

(** A sample whose quotient lies just below a rounding boundary: after
    the reading of [sample.sm_all], 83,937,163 more bytes sent in
    5.001481821 seconds. *)
Module sample_boundary.
Definition cur : net.IOCountersStat := sample.stat "all" 83938163 5000.
Definition now : GoTime.Time := 5001481821.
End sample_boundary.

(** ** The monitors that the program builds *)

Module reach.
Import monitor.

(** What [net.IOCounters(false)] returns when it succeeds: the one
    aggregate entry, named all. *)
Definition aggregate (netStats : list net.IOCountersStat) : Prop :=
  exists stat, netStats = [stat] /\ net.Name stat = "all"%string.

(** The outcome of [net.IOCounters(false)]. *)
Definition reading (io : result (list net.IOCountersStat)) : Prop :=
  match io with
  | Ok netStats => aggregate netStats
  | Err _ => True
  end.

(** The states of a [SystemMonitor]: [NewSystemMonitor] builds it and
    only [getNetworkSpeed] writes its fields. *)
Inductive reachable : SystemMonitor -> Prop :=
| reach_new now : reachable (NewSystemMonitor now)
| reach_sample sm io now :
    reachable sm -> reading io -> reachable (fst (getNetworkSpeed sm io now)).
End reach.

(** ** The alert evaluator on a store whose statements may fail *)

Module faults.
Import models monitor.

(** [gorm.ErrRecordNotFound]. *)
Definition ErrRecordNotFound : error := "record not found".

(** The errors of the statements of one block of [CheckAlerts]; [None] is
    a statement that succeeds. [lookup_error] is an error of the lookup
    other than record-not-found. The block tests the error of the lookup
    and drops the errors of its writes. *)
Record Block := {
  lookup_error : option error;
  create_alert_error : option error;
  save_error : option error;
  create_log_error : option error
}.

Definition none : Block :=
  {| lookup_error := None; create_alert_error := None; save_error := None;
     create_log_error := None |}.

(** [DB.Where(cond).First(&existingAlert)]: the row, or [result.Error]. *)
Definition First (lookup_error : option error) (cond : Alert.t -> bool)
           (db : database.DB) : result Alert.t :=
  match lookup_error with
  | Some e => Err e
  | None =>
      match database.First cond db with
      | Some a => Ok a
      | None => Err ErrRecordNotFound
      end
  end.

(** A write statement: one that fails changes nothing. *)
Definition write (failed : option error) (stmt : database.DB -> database.DB)
           (db : database.DB) : database.DB :=
  match failed with
  | Some _ => db
  | None => stmt db
  end.

(** One of the three blocks of [CheckAlerts]. The creating branch is
    taken on [result.Error != nil], whatever the error is. *)
Definition check_kind (f : Block) (k : Kind) (v : float) (threshold : Z)
           (now : GoTime.Time) (db : database.DB) : database.DB :=
  if F64.gtb v (F64.of_int threshold) then
    match First (lookup_error f) (database.type_and_status (type_name k) "active") db with
    | Err _ =>
        let alert :=
          {| Alert.ID := 0; Alert.Type_ := type_name k; Alert.Level := "warning";
             Alert.Message := Sprintf (fmt_high k) v; Alert.Value := v;
             Alert.Threshold := F64.of_int threshold; Alert.Status := "active";
             Alert.Timestamp := now; Alert.CreatedAt := 0; Alert.UpdatedAt := 0 |} in
        let db := write (create_alert_error f) (database.Create_alert now alert) db in
        let systemLog :=
          {| SystemLog.ID := 0; SystemLog.Level := "warning";
             SystemLog.Category := "system";
             SystemLog.Message := Sprintf (fmt_high k) v;
             SystemLog.Timestamp := now; SystemLog.CreatedAt := 0 |} in
        write (create_log_error f) (database.Create_log now systemLog) db
    | Ok existingAlert =>
        let existingAlert := alert_rows.updated k v now existingAlert in
        write (save_error f) (database.Save_alert existingAlert) db
    end
  else
    match First (lookup_error f) (database.type_and_status (type_name k) "active") db with
    | Ok existingAlert =>
        let existingAlert := alert_rows.resolved now existingAlert in
        let db := write (save_error f) (database.Save_alert existingAlert) db in
        let systemLog :=
          {| SystemLog.ID := 0; SystemLog.Level := "info";
             SystemLog.Category := "system";
             SystemLog.Message := Sprintf (fmt_normal k) v;
             SystemLog.Timestamp := now; SystemLog.CreatedAt := 0 |} in
        write (create_log_error f) (database.Create_log now systemLog) db
    | Err _ => db
    end.

(** The statements of the three blocks. *)
Record Faults := { cpu : Block; memory : Block; disk : Block }.

Definition no_faults : Faults := {| cpu := none; memory := none; disk := none |}.

(** Every lookup answers: with a row, or with record-not-found. *)
Definition lookups_answer (f : Faults) : Prop :=
  lookup_error (cpu f) = None /\ lookup_error (memory f) = None
  /\ lookup_error (disk f) = None.

Definition CheckAlerts (f : Faults) (cfg : config.Monitor) (now : GoTime.Time)
           (metrics : SystemMetrics.t) (db : database.DB)
  : database.DB * option error :=
  let db := check_kind (cpu f) kind_cpu (SystemMetrics.CPU metrics)
              (config.AlertCPU cfg) now db in
  let db := check_kind (memory f) kind_memory (SystemMetrics.Memory metrics)
              (config.AlertMemory cfg) now db in
  let db := check_kind (disk f) kind_disk (SystemMetrics.Disk metrics)
              (config.AlertDisk cfg) now db in
  (db, None).

(** [Scheduler.collectSystemMetrics] with the statements of its
    [CheckAlerts]. *)
Definition collectSystemMetrics (cfg : config.Monitor) (env : Sensors)
           (write_error : option error) (f : Faults) (now : GoTime.Time)
           (s : scheduler.Scheduler)
  : scheduler.Scheduler * list websocket.request :=
  let '(sm, (metrics, err)) :=
    monitor.CollectSystemMetrics (scheduler.sysMon s) env in
  match err with
  | Some _ => ({| scheduler.sysMon := sm; scheduler.DB := scheduler.DB s |}, [])
  | None =>
      match monitor.SaveMetrics write_error now metrics (scheduler.DB s) with
      | Err _ => ({| scheduler.sysMon := sm; scheduler.DB := scheduler.DB s |}, [])
      | Ok (metrics, db) =>
          let '(db, _) := CheckAlerts f cfg now metrics db in
          ({| scheduler.sysMon := sm; scheduler.DB := db |},
           websocket.BroadcastSystemMetrics metrics)
      end
  end.

(** The inputs of a tick: the readings, the outcome of the write of the
    record, the statements of the alert blocks, and the clock. *)
Definition Tick : Type := Sensors * option error * Faults * GoTime.Time.

Definition faults_of (i : Tick) : Faults := snd (fst i).

Fixpoint ticks (cfg : config.Monitor) (inputs : list Tick)
         (s : scheduler.Scheduler)
  : scheduler.Scheduler * list websocket.request :=
  match inputs with
  | [] => (s, [])
  | (env, write_error, f, now) :: rest =>
      let '(s', out) := collectSystemMetrics cfg env write_error f now s in
      let '(s'', outs) := ticks cfg rest s' in
      (s'', out ++ outs)
  end.
End faults.

Module sample_faults.
Definition locked : error := "database is locked".

(** The lookup of the cpu block fails; every other statement succeeds. *)
Definition cpu_lookup_fails : faults.Faults :=
  {| faults.cpu :=
       {| faults.lookup_error := Some locked; faults.create_alert_error := None;
          faults.save_error := None; faults.create_log_error := None |};
     faults.memory := faults.none; faults.disk := faults.none |}.

(** Every lookup answers; the log write of the cpu block and the save of
    the memory block fail. *)
Definition writes_fail : faults.Faults :=
  {| faults.cpu :=
       {| faults.lookup_error := None; faults.create_alert_error := None;
          faults.save_error := None; faults.create_log_error := Some locked |};
     faults.memory :=
       {| faults.lookup_error := None; faults.create_alert_error := None;
          faults.save_error := Some locked; faults.create_log_error := None |};
     faults.disk := faults.none |}.

(** The four samples of the scenario, the second with failing writes. *)
Definition ticks : list faults.Tick :=
  [(scenario.readings 5 70, None, faults.no_faults, 5 * GoTime.Second);
   (scenario.readings 10 85, None, writes_fail, 10 * GoTime.Second);
   (scenario.readings 15 90, None, faults.no_faults, 15 * GoTime.Second);
   (scenario.readings 20 75, None, writes_fail, 20 * GoTime.Second)].
End sample_faults.

(** * Properties *)

(** Closed facts are settled by evaluation. *)
Ltac by_evaluation := vm_compute; repeat split; reflexivity.

(** ** Arithmetic of the embedding *)

Example Round_samples :
  F64.Round 2.5 = 3%float /\ F64.Round (-2.5) = (-3)%float /\
  F64.Round 0.49999999999999994 = 0%float /\ F64.Round 1.5 = 2%float /\
  F64.Round 0.5 = 1%float /\ F64.Round 1234.4999 = 1234%float /\
  F64.round2 12.345678 = 12.35%float /\
  F64.of_uint64 (2 ^ 64 - 1) = 18446744073709551616%float /\
  F64.of_uint64 12345 = 12345%float /\ F64.of_int (-7) = (-7)%float.
Proof. by_evaluation. Qed.

Example Seconds_samples :
  GoTime.Seconds 2500000000 = 2.5%float /\ GoTime.Seconds 0 = 0%float /\
  GoTime.Seconds (-1500000000) = (-1.5)%float.
Proof. by_evaluation. Qed.

(** The unsigned subtraction, without and with wrap-around. *)
Lemma U64_sub_nowrap (a b : Z) :
  U64.in_range a -> U64.in_range b -> b <= a -> U64.sub a b = a - b.
Proof.
  unfold U64.sub, U64.wrap, U64.in_range, U64.modulus.
  intros Ha Hb Hle. apply Z.mod_small. lia.
Qed.

Lemma U64_sub_wraps (a b : Z) :
  U64.in_range a -> U64.in_range b -> a < b ->
  U64.sub a b = a - b + 2 ^ 64.
Proof.
  unfold U64.sub, U64.wrap, U64.in_range, U64.modulus.
  intros Ha Hb Hlt.
  rewrite <- (Z.mod_small (a - b + 2 ^ 64) (2 ^ 64)) by lia.
  replace (a - b + 2 ^ 64) with (a - b + 1 * 2 ^ 64) by lia.
  now rewrite Z.mod_add by lia.
Qed.

Lemma U64_add_zero (a : Z) : 0 <= a < 2 ^ 64 -> U64.add 0 a = a.
Proof.
  unfold U64.add, U64.wrap, U64.modulus. intros Ha.
  rewrite Z.add_0_l. apply Z.mod_small. lia.
Qed.

(** A positive float is not equal to zero. *)
Lemma F64_gtb_not_eqb (x y : float) : F64.gtb x y = true -> F64.eqb x y = false.
Proof.
  unfold F64.gtb, F64.eqb. destruct (PrimFloat.compare x y); congruence.
Qed.

(** ** The sign of the floats of a rate *)

Module FloatSign.
Import spec.

(** Rounding a positive mantissa gives no negative float. *)
Lemma binary_round_aux_sign m e l :
  sign_clear (binary_round_aux prec emax false m e l).
Proof.
  unfold binary_round_aux.
  destruct (shr_fexp prec emax m e l) as [mrs e'].
  destruct (shr_fexp prec emax _ e' loc_Exact) as [mrs' e''].
  destruct (shr_m mrs'); [reflexivity| |exact I].
  destruct (e'' <=? emax - prec); reflexivity.
Qed.

(** Product, quotient and sum of floats whose sign bit is clear. *)
Lemma SFmul_sign x y :
  sign_clear x -> sign_clear y -> sign_clear (SF64mul x y).
Proof.
  destruct x, y; simpl; intros; subst; try exact I; try reflexivity.
  apply binary_round_aux_sign.
Qed.

Lemma SFdiv_sign x y :
  sign_clear x -> sign_clear y -> sign_clear (SF64div x y).
Proof.
  destruct x, y; simpl; intros; subst; try exact I; try reflexivity.
  unfold SF64div, SFdiv.
  destruct (SFdiv_core_binary prec emax (Z.pos m) e (Z.pos m0) e0) as [[mz ez] lz].
  apply binary_round_aux_sign.
Qed.

Lemma SFadd_sign x y :
  sign_clear x -> sign_clear y -> sign_clear (SF64add x y).
Proof.
  destruct x, y; simpl; intros; subst; try exact I; try reflexivity.
  unfold SF64add, SFadd. simpl. unfold binary_round.
  destruct (shl_align _ _ _). apply binary_round_aux_sign.
Qed.

(** The conversion of an unsigned integer. *)
Lemma of_uint63_sign n : sign_clear (Prim2SF (of_uint63 n)).
Proof.
  rewrite FloatAxioms.of_uint63_spec. pose proof (Uint63.to_Z_bounded n) as H.
  destruct (Uint63.to_Z n); [reflexivity| |lia].
  simpl. unfold binary_round. destruct (shl_align _ _ _). apply binary_round_aux_sign.
Qed.

(** A float whose sign bit is clear is not below zero, and a float above
    zero has its sign bit clear. *)
Lemma not_negative_ltb x : not_negative x -> F64.ltb x 0 = false.
Proof.
  unfold not_negative, F64.ltb. rewrite FloatAxioms.compare_spec.
  change (Prim2SF 0) with (S754_zero false).
  destruct (Prim2SF x) as [s|s| |s m e]; simpl; intros H; subst; reflexivity.
Qed.

Lemma gtb_not_negative x : F64.gtb x 0 = true -> not_negative x.
Proof.
  unfold not_negative, F64.gtb. rewrite FloatAxioms.compare_spec.
  change (Prim2SF 0) with (S754_zero false).
  destruct (Prim2SF x) as [s|s| |s m e]; simpl; try discriminate;
    destruct s; simpl; try discriminate; reflexivity.
Qed.

Lemma mul_not_negative x y : not_negative x -> not_negative y -> not_negative (x * y).
Proof. unfold not_negative. rewrite FloatAxioms.mul_spec. apply SFmul_sign. Qed.
Lemma div_not_negative x y : not_negative x -> not_negative y -> not_negative (x / y).
Proof. unfold not_negative. rewrite FloatAxioms.div_spec. apply SFdiv_sign. Qed.
Lemma add_not_negative x y : not_negative x -> not_negative y -> not_negative (x + y).
Proof. unfold not_negative. rewrite FloatAxioms.add_spec. apply SFadd_sign. Qed.
Lemma abs_not_negative x : not_negative (abs x).
Proof.
  unfold not_negative. rewrite FloatAxioms.abs_spec.
  destruct (Prim2SF x); simpl; auto.
Qed.

Lemma of_uint64_not_negative n : not_negative (F64.of_uint64 n).
Proof.
  unfold F64.of_uint64. apply add_not_negative; [apply mul_not_negative|];
    try apply of_uint63_sign. reflexivity.
Qed.

(** [math.Round] keeps a clear sign bit. *)
Lemma Round_not_negative x : not_negative x -> not_negative (F64.Round x).
Proof.
  intros Hx. unfold F64.Round.
  destruct (PrimFloat.compare (abs x) F64.two52); try exact Hx.
  destruct (PrimFloat.compare x 0) eqn:Hc; try exact Hx.
  - apply not_negative_ltb in Hx. unfold F64.ltb in Hx. rewrite Hc in Hx.
    discriminate.
  - apply abs_not_negative.
Qed.

Lemma round2_not_negative x : not_negative x -> not_negative (F64.round2 x).
Proof.
  intros Hx. unfold F64.round2. apply div_not_negative; [|reflexivity].
  apply Round_not_negative. apply mul_not_negative; [exact Hx | reflexivity].
Qed.
End FloatSign.

(** ** Rate derivation: [getNetworkSpeed] *)

Module NetworkSpeed.
Import monitor spec.

(** The result of a call that computes rates, from the loop. *)
Lemma getNetworkSpeed_computes sm netStats now :
  F64.eqb (timeDiff sm now) 0 = false ->
  getNetworkSpeed sm (Ok netStats) now =
    (let acc := net_loop (lastNetworkStats sm) netStats in
     ({| lastNetworkStats := stats acc; lastNetworkTime := now |},
      Ok (rate_MBps (totalUploadBytes acc) (timeDiff sm now),
          rate_MBps (totalDownloadBytes acc) (timeDiff sm now)))).
Proof.
  intros Hdt. unfold getNetworkSpeed. rewrite Hdt. reflexivity.
Qed.

(** One interface that has a previous sample. *)
Lemma net_loop_single last prev cur :
  last !! net.Name cur = Some prev ->
  net_loop last [cur] =
    {| totalUploadBytes :=
         U64.add 0 (U64.sub (net.BytesSent cur) (net.BytesSent prev));
       totalDownloadBytes :=
         U64.add 0 (U64.sub (net.BytesRecv cur) (net.BytesRecv prev));
       stats := <[net.Name cur := cur]> last |}.
Proof.
  intros Hprev. unfold net_loop. simpl. unfold net_iter. simpl.
  rewrite Hprev. reflexivity.
Qed.

(** The unsigned subtraction of two readings. *)
Lemma U64_sub_wrapped_delta cur prev :
  U64.in_range cur -> U64.in_range prev ->
  U64.sub cur prev = wrapped_delta cur prev.
Proof.
  intros Hc Hp. unfold wrapped_delta.
  destruct (cur <? prev) eqn:E.
  - apply Z.ltb_lt in E. now apply U64_sub_wraps.
  - apply Z.ltb_ge in E. now apply U64_sub_nowrap.
Qed.

Lemma wrapped_delta_range cur prev :
  U64.in_range cur -> U64.in_range prev -> 0 <= wrapped_delta cur prev < 2 ^ 64.
Proof.
  unfold U64.in_range, U64.modulus, wrapped_delta. intros Hc Hp.
  destruct (cur <? prev) eqn:E; [apply Z.ltb_lt in E | apply Z.ltb_ge in E]; lia.
Qed.

(** Over a positive elapsed time, the rate of any byte count is not
    negative. *)
Lemma rate_not_negative delta dt :
  F64.gtb dt 0 = true -> F64.ltb (rate_MBps delta dt) 0 = false.
Proof.
  intros Hdt. apply FloatSign.not_negative_ltb. unfold rate_MBps.
  apply FloatSign.round2_not_negative. apply FloatSign.div_not_negative.
  - apply FloatSign.of_uint64_not_negative.
  - apply FloatSign.mul_not_negative; [reflexivity|].
    apply FloatSign.gtb_not_negative. exact Hdt.
Qed.
End NetworkSpeed.

Module NetworkSpeedClaims.
Import monitor spec.

(** C4, as stated, fails: 83,937,163 bytes were sent in 5.001481821
    seconds; the quotient lies below 16.005 and rounds to 16.00, and the
    upload rate returned is 16.01. The float64 product of the quotient by
    100 is 1600.5, which [math.Round] takes up. *)
Lemma getNetworkSpeed_rate_not_rounded_quotient :
  lastNetworkStats sample.sm_all !! net.Name sample_boundary.cur
    = Some (sample.stat "all" 1000 5000)
  /\ sample_boundary.now - lastNetworkTime sample.sm_all = 5001481821
  /\ net.BytesSent sample_boundary.cur - net.BytesSent (sample.stat "all" 1000 5000)
     = 83937163
  /\ net.BytesRecv sample_boundary.cur - net.BytesRecv (sample.stat "all" 1000 5000)
     = 0
  /\ snd (getNetworkSpeed sample.sm_all (Ok [sample_boundary.cur])
            sample_boundary.now)
     = Ok (exact.of_hundredths 1601, exact.of_hundredths 0)
  /\ (F64.of_uint64 83937163 / (1048576 * GoTime.Seconds 5001481821%Z) * 100
      = 1600.5)%float
  /\ exact.rate_hundredths 83937163 5001481821 = 1600
  /\ 1600 * (1048576 * 5001481821) < 83937163 * 100 * 1000000000
  /\ 2 * (83937163 * 100 * 1000000000) < 3201 * (1048576 * 5001481821)
  /\ F64.eqb (exact.of_hundredths 1601) (exact.of_hundredths 1600) = false.
Proof. by_evaluation. Qed.

(** C4, amended. For two consecutive samples [prev], [cur] of one
    interface with non-decreasing byte counters and a positive elapsed
    time, the rates returned by [getNetworkSpeed] are the float64 values
    [Round(q x 100) / 100] of the quotients [q] of the byte deltas by
    [1,048,576 x s], where [s] is the time from the previous sample to
    this one in seconds, as [Duration.Seconds] gives it. *)
Theorem getNetworkSpeed_rate_nondecreasing sm prev cur now :
  lastNetworkStats sm !! net.Name cur = Some prev ->
  U64.in_range (net.BytesSent prev) -> U64.in_range (net.BytesSent cur) ->
  U64.in_range (net.BytesRecv prev) -> U64.in_range (net.BytesRecv cur) ->
  net.BytesSent prev <= net.BytesSent cur ->
  net.BytesRecv prev <= net.BytesRecv cur ->
  F64.gtb (GoTime.Seconds (GoTime.Sub now (lastNetworkTime sm))) 0 = true ->
  snd (getNetworkSpeed sm (Ok [cur]) now) =
    Ok (F64.Round
          (F64.of_uint64 (net.BytesSent cur - net.BytesSent prev)
           / (1048576 * GoTime.Seconds (GoTime.Sub now (lastNetworkTime sm)))
           * 100) / 100,
        F64.Round
          (F64.of_uint64 (net.BytesRecv cur - net.BytesRecv prev)
           / (1048576 * GoTime.Seconds (GoTime.Sub now (lastNetworkTime sm)))
           * 100) / 100)%float.
Proof.
  intros Hprev Hps Hcs Hpr Hcr Hsent Hrecv Hdt.
  rewrite NetworkSpeed.getNetworkSpeed_computes by now apply F64_gtb_not_eqb.
  rewrite (NetworkSpeed.net_loop_single _ prev) by exact Hprev.
  cbn [snd totalUploadBytes totalDownloadBytes].
  rewrite !U64_sub_nowrap by assumption.
  unfold U64.in_range, U64.modulus in *.
  rewrite !U64_add_zero by lia.
  reflexivity.
Qed.

Lemma getNetworkSpeed_rate_nondecreasing_witness :
  snd (getNetworkSpeed sample.sm_all (Ok [sample.stat "all" 2098152 3150728])
         sample.two_seconds) =
    Ok (F64.Round
          (F64.of_uint64 (2098152 - 1000)
           / (1048576
              * GoTime.Seconds
                  (GoTime.Sub sample.two_seconds (lastNetworkTime sample.sm_all)))
           * 100) / 100,
        F64.Round
          (F64.of_uint64 (3150728 - 5000)
           / (1048576
              * GoTime.Seconds
                  (GoTime.Sub sample.two_seconds (lastNetworkTime sample.sm_all)))
           * 100) / 100)%float.
Proof.
  apply (getNetworkSpeed_rate_nondecreasing sample.sm_all
           (sample.stat "all" 1000 5000) (sample.stat "all" 2098152 3150728)
           sample.two_seconds);
    first [ reflexivity | unfold U64.in_range, U64.modulus; simpl; lia | simpl; lia ].
Defined.

Example getNetworkSpeed_rate_value :
  snd (getNetworkSpeed sample.sm_all (Ok [sample.stat "all" 2098152 3150728])
         sample.two_seconds) = Ok (1%float, 1.5%float).
Proof. by_evaluation. Qed.

(** C1, as stated, fails: the sent counter fell from 1000 to 400 over two
    seconds, and the upload rate returned is not 0 but that of a delta of
    [2^64 - 600] bytes. *)
Lemma getNetworkSpeed_decrease_not_clamped :
  net.BytesSent (sample.stat "all" 400 3150728)
    < net.BytesSent (sample.stat "all" 1000 5000)
  /\ lastNetworkStats sample.sm_all !! "all"%string = Some (sample.stat "all" 1000 5000)
  /\ F64.gtb (timeDiff sample.sm_all sample.two_seconds) 0 = true
  /\ snd (getNetworkSpeed sample.sm_all (Ok [sample.stat "all" 400 3150728])
            sample.two_seconds) = Ok (8796093022208%float, 1.5%float)
  /\ F64.eqb 8796093022208 0 = false.
Proof. by_evaluation. Qed.

(** C1, amended. When a byte counter decreased between two samples of
    one interface and the elapsed time is positive, nothing is clamped:
    the unsigned subtraction wraps, so the byte delta of a decreased
    counter is [cur - prev + 2^64], a positive count below [2^64], and
    the rate returned is the float64 value [Round(q x 100) / 100] of the
    quotient [q] of that delta by [1,048,576 x s], where [s] is the time
    from the previous sample to this one in seconds, as
    [Duration.Seconds] gives it. The rates returned are not negative. *)
Theorem getNetworkSpeed_rate_decreased sm prev cur now :
  lastNetworkStats sm !! net.Name cur = Some prev ->
  U64.in_range (net.BytesSent prev) -> U64.in_range (net.BytesSent cur) ->
  U64.in_range (net.BytesRecv prev) -> U64.in_range (net.BytesRecv cur) ->
  net.BytesSent cur < net.BytesSent prev
  \/ net.BytesRecv cur < net.BytesRecv prev ->
  F64.gtb (GoTime.Seconds (GoTime.Sub now (lastNetworkTime sm))) 0 = true ->
  exists uploadSpeed downloadSpeed,
    snd (getNetworkSpeed sm (Ok [cur]) now) = Ok (uploadSpeed, downloadSpeed)
    /\ uploadSpeed =
         (F64.Round
            (F64.of_uint64 (wrapped_delta (net.BytesSent cur) (net.BytesSent prev))
             / (1048576 * GoTime.Seconds (GoTime.Sub now (lastNetworkTime sm)))
             * 100) / 100)%float
    /\ downloadSpeed =
         (F64.Round
            (F64.of_uint64 (wrapped_delta (net.BytesRecv cur) (net.BytesRecv prev))
             / (1048576 * GoTime.Seconds (GoTime.Sub now (lastNetworkTime sm)))
             * 100) / 100)%float
    /\ (net.BytesSent cur < net.BytesSent prev ->
          wrapped_delta (net.BytesSent cur) (net.BytesSent prev)
            = net.BytesSent cur - net.BytesSent prev + 2 ^ 64
          /\ 0 < wrapped_delta (net.BytesSent cur) (net.BytesSent prev) < 2 ^ 64)
    /\ (net.BytesRecv cur < net.BytesRecv prev ->
          wrapped_delta (net.BytesRecv cur) (net.BytesRecv prev)
            = net.BytesRecv cur - net.BytesRecv prev + 2 ^ 64
          /\ 0 < wrapped_delta (net.BytesRecv cur) (net.BytesRecv prev) < 2 ^ 64)
    /\ F64.ltb uploadSpeed 0 = false
    /\ F64.ltb downloadSpeed 0 = false.
Proof.
  intros Hprev Hps Hcs Hpr Hcr _ Hdt.
  rewrite NetworkSpeed.getNetworkSpeed_computes by now apply F64_gtb_not_eqb.
  rewrite (NetworkSpeed.net_loop_single _ prev) by exact Hprev.
  cbn [snd totalUploadBytes totalDownloadBytes].
  rewrite !NetworkSpeed.U64_sub_wrapped_delta by assumption.
  rewrite !U64_add_zero by (apply NetworkSpeed.wrapped_delta_range; assumption).
  eexists. eexists. split; [reflexivity|].
  split; [reflexivity|]. split; [reflexivity|].
  split; [|split; [|split]].
  - intros Hlt. unfold wrapped_delta. apply Z.ltb_lt in Hlt. rewrite Hlt.
    apply Z.ltb_lt in Hlt. unfold U64.in_range, U64.modulus in *. lia.
  - intros Hlt. unfold wrapped_delta. apply Z.ltb_lt in Hlt. rewrite Hlt.
    apply Z.ltb_lt in Hlt. unfold U64.in_range, U64.modulus in *. lia.
  - apply NetworkSpeed.rate_not_negative. exact Hdt.
  - apply NetworkSpeed.rate_not_negative. exact Hdt.
Qed.

Lemma getNetworkSpeed_rate_decreased_witness :
  exists uploadSpeed downloadSpeed,
    snd (getNetworkSpeed sample.sm_all (Ok [sample.stat "all" 400 3150728])
           sample.two_seconds) = Ok (uploadSpeed, downloadSpeed)
    /\ uploadSpeed =
         (F64.Round
            (F64.of_uint64 (wrapped_delta 400 1000)
             / (1048576
                * GoTime.Seconds
                    (GoTime.Sub sample.two_seconds (lastNetworkTime sample.sm_all)))
             * 100) / 100)%float
    /\ downloadSpeed =
         (F64.Round
            (F64.of_uint64 (wrapped_delta 3150728 5000)
             / (1048576
                * GoTime.Seconds
                    (GoTime.Sub sample.two_seconds (lastNetworkTime sample.sm_all)))
             * 100) / 100)%float
    /\ (400 < 1000 ->
          wrapped_delta 400 1000 = 400 - 1000 + 2 ^ 64
          /\ 0 < wrapped_delta 400 1000 < 2 ^ 64)
    /\ (3150728 < 5000 ->
          wrapped_delta 3150728 5000 = 3150728 - 5000 + 2 ^ 64
          /\ 0 < wrapped_delta 3150728 5000 < 2 ^ 64)
    /\ F64.ltb uploadSpeed 0 = false
    /\ F64.ltb downloadSpeed 0 = false.
Proof.
  apply (getNetworkSpeed_rate_decreased sample.sm_all
           (sample.stat "all" 1000 5000) (sample.stat "all" 400 3150728)
           sample.two_seconds);
    first [ reflexivity
          | unfold U64.in_range, U64.modulus; simpl; lia
          | left; simpl; lia ].
Defined.

End NetworkSpeedClaims.

(** ** The baselines kept by [getNetworkSpeed] *)

Module Baselines.
Import monitor spec.

Lemma net_loop_stats netStats acc :
  stats (fold_left net_iter netStats acc) = fold_left put netStats (stats acc).
Proof.
  revert acc. induction netStats as [|stat rest IH]; intros acc; [reflexivity|].
  simpl. rewrite IH. f_equal. unfold net_iter, put.
  destruct (stats acc !! net.Name stat); reflexivity.
Qed.

Lemma fold_put_lookup netStats (m : gmap string net.IOCountersStat) name :
  fold_left put netStats m !! name =
    match fold_left put netStats ∅ !! name with
    | Some s => Some s
    | None => m !! name
    end.
Proof.
  revert m. induction netStats as [|stat rest IH]; intros m; simpl.
  - rewrite lookup_empty. reflexivity.
  - rewrite (IH (put m stat)), (IH (put ∅ stat)).
    destruct (fold_left put rest ∅ !! name); [reflexivity|].
    unfold put. destruct (decide (net.Name stat = name)) as [->|Hne].
    + rewrite !lookup_insert_eq. reflexivity.
    + rewrite !lookup_insert_ne by exact Hne. rewrite lookup_empty. reflexivity.
Qed.

(** After a call that computes rates the previous timestamp is the
    current time, the stored sample of every interface of the reading is
    its current sample, and the stored sample of any other name is left
    as it was. *)
Lemma getNetworkSpeed_baselines sm netStats now name :
  F64.eqb (timeDiff sm now) 0 = false ->
  lastNetworkTime (fst (getNetworkSpeed sm (Ok netStats) now)) = now
  /\ lastNetworkStats (fst (getNetworkSpeed sm (Ok netStats) now)) !! name =
       match current_readings netStats !! name with
       | Some s => Some s
       | None => lastNetworkStats sm !! name
       end.
Proof.
  intros Hdt. rewrite NetworkSpeed.getNetworkSpeed_computes by exact Hdt.
  cbn [fst lastNetworkTime lastNetworkStats]. split; [reflexivity|].
  unfold net_loop. rewrite net_loop_stats. cbn [stats].
  apply fold_put_lookup.
Qed.

(** A call that returns rates has passed the test of the elapsed time. *)
Lemma computes_rates sm netStats now rates :
  snd (getNetworkSpeed sm (Ok netStats) now) = Ok rates ->
  F64.eqb (timeDiff sm now) 0 = false.
Proof.
  unfold getNetworkSpeed. destruct (F64.eqb (timeDiff sm now) 0); [|reflexivity].
  discriminate.
Qed.

(** The map of a monitor that the program builds has no key but all:
    the only writer is [getNetworkSpeed], on the aggregate reading. *)
Lemma reachable_keys sm :
  reach.reachable sm ->
  forall name s, lastNetworkStats sm !! name = Some s -> name = "all"%string.
Proof.
  induction 1 as [t0|sm io now Hsm IH Hio]; intros name s.
  - cbn [NewSystemMonitor lastNetworkStats]. rewrite lookup_empty. discriminate.
  - destruct io as [netStats|e]; [|exact (IH name s)].
    destruct Hio as (stat & -> & Hname).
    destruct (F64.eqb (timeDiff sm now) 0) eqn:Hdt.
    + unfold getNetworkSpeed. rewrite Hdt. exact (IH name s).
    + destruct (getNetworkSpeed_baselines sm [stat] now name Hdt) as [_ ->].
      unfold current_readings, put. cbn [fold_left]. rewrite Hname.
      destruct (decide ("all"%string = name)) as [<-|Hne]; [reflexivity|].
      rewrite lookup_insert_ne by exact Hne. rewrite lookup_empty.
      exact (IH name s).
Qed.

(** C9. On every monitor that the program builds, a call to
    [getNetworkSpeed] that computes rates leaves the stored map equal to
    the map of the current reading and the stored time equal to the
    current time: no sample of an earlier cycle is kept for any name. The
    reading is that of [net.IOCounters(false)], the aggregate entry. *)
Theorem getNetworkSpeed_replaces_baselines sm netStats now rates :
  reach.reachable sm -> reach.aggregate netStats ->
  snd (getNetworkSpeed sm (Ok netStats) now) = Ok rates ->
  lastNetworkStats (fst (getNetworkSpeed sm (Ok netStats) now))
    = current_readings netStats
  /\ lastNetworkTime (fst (getNetworkSpeed sm (Ok netStats) now)) = now
  /\ forall name,
       lastNetworkStats (fst (getNetworkSpeed sm (Ok netStats) now)) !! name
       = None
       \/ exists stat,
            In stat netStats
            /\ lastNetworkStats (fst (getNetworkSpeed sm (Ok netStats) now))
                 !! name = Some stat.
Proof.
  intros Hsm (stat & -> & Hname) Hrates.
  apply computes_rates in Hrates.
  assert (Hmap : lastNetworkStats (fst (getNetworkSpeed sm (Ok [stat]) now))
                 = current_readings [stat]).
  { apply map_eq. intros name.
    destruct (getNetworkSpeed_baselines sm [stat] now name Hrates) as [_ ->].
    destruct (current_readings [stat] !! name) as [s|] eqn:Hcur; [reflexivity|].
    destruct (lastNetworkStats sm !! name) as [old|] eqn:Hold; [|reflexivity].
    apply (reachable_keys sm Hsm) in Hold. subst name.
    unfold current_readings, put in Hcur. cbn [fold_left] in Hcur.
    rewrite Hname, lookup_insert_eq in Hcur. discriminate. }
  split; [exact Hmap|]. split.
  - apply (getNetworkSpeed_baselines sm [stat] now "all"%string Hrates).
  - intros name. rewrite Hmap. unfold current_readings, put. cbn [fold_left].
    destruct (decide (net.Name stat = name)) as [<-|Hne].
    + right. exists stat. split; [now left|]. apply lookup_insert_eq.
    + left. rewrite lookup_insert_ne by exact Hne. apply lookup_empty.
Qed.

Lemma sample_sm_all_reachable : reach.reachable sample.sm_all.
Proof.
  change sample.sm_all
    with (fst (getNetworkSpeed (NewSystemMonitor (- 1000000000))
                 (Ok [sample.stat "all" 1000 5000]) 0)).
  apply reach.reach_sample; [apply reach.reach_new|].
  exists (sample.stat "all" 1000 5000). split; reflexivity.
Qed.

Lemma getNetworkSpeed_replaces_baselines_witness :
  lastNetworkStats
    (fst (getNetworkSpeed sample.sm_all (Ok [sample.stat "all" 2098152 3150728])
            sample.two_seconds))
    = current_readings [sample.stat "all" 2098152 3150728]
  /\ lastNetworkTime
       (fst (getNetworkSpeed sample.sm_all (Ok [sample.stat "all" 2098152 3150728])
               sample.two_seconds)) = sample.two_seconds
  /\ forall name,
       lastNetworkStats
         (fst (getNetworkSpeed sample.sm_all
                 (Ok [sample.stat "all" 2098152 3150728]) sample.two_seconds))
         !! name = None
       \/ exists stat,
            In stat [sample.stat "all" 2098152 3150728]
            /\ lastNetworkStats
                 (fst (getNetworkSpeed sample.sm_all
                         (Ok [sample.stat "all" 2098152 3150728])
                         sample.two_seconds)) !! name = Some stat.
Proof.
  apply (getNetworkSpeed_replaces_baselines sample.sm_all
           [sample.stat "all" 2098152 3150728] sample.two_seconds
           (1%float, 1.5%float)).
  - exact sample_sm_all_reachable.
  - exists (sample.stat "all" 2098152 3150728). split; reflexivity.
  - vm_compute. reflexivity.
Defined.

End Baselines.

(** ** One sample: [CollectSystemMetrics] *)

Module Collect.
Import monitor spec models fields.

(** Each step of the collection writes its own fields only. *)
Lemma collect_network_fields r m :
  SystemMetrics.CPU (collect_network r m) = SystemMetrics.CPU m
  /\ SystemMetrics.Memory (collect_network r m) = SystemMetrics.Memory m
  /\ SystemMetrics.Disk (collect_network r m) = SystemMetrics.Disk m
  /\ SystemMetrics.Upload (collect_network r m) = or_zero r fst
  /\ SystemMetrics.Download (collect_network r m) = or_zero r snd.
Proof. destruct r as [[up down]|e]; repeat split; reflexivity. Qed.

Lemma collect_disk_fields r usage m :
  SystemMetrics.CPU (collect_disk r usage m) = SystemMetrics.CPU m
  /\ SystemMetrics.Memory (collect_disk r usage m) = SystemMetrics.Memory m.
Proof.
  unfold collect_disk. destruct r as [ps|e]; [|split; reflexivity].
  destruct (disk_loop usage ps) as [total count].
  destruct (0 <? count); split; reflexivity.
Qed.

Lemma collect_memory_fields r m :
  SystemMetrics.CPU (collect_memory r m) = SystemMetrics.CPU m
  /\ SystemMetrics.Disk (collect_memory r m) = SystemMetrics.Disk m.
Proof. destruct r; split; reflexivity. Qed.

Lemma collect_cpu_fields r m :
  SystemMetrics.Memory (collect_cpu r m) = SystemMetrics.Memory m
  /\ SystemMetrics.Disk (collect_cpu r m) = SystemMetrics.Disk m.
Proof. destruct r as [[|c l]|e]; split; reflexivity. Qed.

(** The record, field by field. *)
Lemma CollectSystemMetrics_record sm env :
  CollectSystemMetrics sm env =
    (fst (getNetworkSpeed sm (net_IOCounters env) (net_clock env)),
     (collect_network
        (snd (getNetworkSpeed sm (net_IOCounters env) (net_clock env)))
        (collect_disk (disk_Partitions env) (disk_Usage env)
           (collect_memory (mem_VirtualMemory env)
              (collect_cpu (cpu_Percent env) (SystemMetrics.new (clock env))))),
      None)).
Proof.
  unfold CollectSystemMetrics.
  destruct (getNetworkSpeed sm (net_IOCounters env) (net_clock env)); reflexivity.
Qed.

Lemma collect_cpu_CPU r ts :
  SystemMetrics.CPU (collect_cpu r (SystemMetrics.new ts)) = or_zero r cpu_value.
Proof. destruct r as [[|c l]|e]; reflexivity. Qed.

Lemma collect_memory_Memory r m :
  SystemMetrics.Memory (collect_memory r m) =
    or_zero r (fun memory => F64.round2 (mem.UsedPercent memory)).
Proof. destruct r; reflexivity. Qed.

Lemma collect_disk_Disk r usage m :
  SystemMetrics.Disk m = 0%float ->
  SystemMetrics.Disk (collect_disk r usage m) = or_zero r (disk_value usage).
Proof.
  intros Hzero. unfold collect_disk, disk_value.
  destruct r as [ps|e]; [|reflexivity]. cbn [or_zero].
  destruct (disk_loop usage ps) as [total count]. cbn [fst snd].
  destruct (0 <? count); [reflexivity | exact Hzero].
Qed.

(** The loop over the partitions sums and counts the successful lookups. *)
Lemma disk_loop_from usage partitions total count :
  fold_left (disk_iter usage) partitions (total, count) =
    (fold_left PrimFloat.add (successful_usage usage partitions) total,
     count + Z.of_nat (length (successful_usage usage partitions))).
Proof.
  revert total count.
  induction partitions as [|p rest IH]; intros total count; simpl.
  - f_equal. lia.
  - unfold disk_iter at 2. destruct (usage (disk.Mountpoint p)) as [u|e]; simpl.
    + rewrite IH. f_equal. lia.
    + apply IH.
Qed.

Lemma disk_loop_mean usage partitions :
  disk_loop usage partitions =
    (fold_left PrimFloat.add (successful_usage usage partitions) 0%float,
     Z.of_nat (length (successful_usage usage partitions))).
Proof. unfold disk_loop. rewrite disk_loop_from. reflexivity. Qed.

(** Every field of the record is that of its own step. *)
Lemma CollectSystemMetrics_fields sm env :
  snd (snd (CollectSystemMetrics sm env)) = None
  /\ SystemMetrics.CPU (fst (snd (CollectSystemMetrics sm env))) =
       or_zero (cpu_Percent env) cpu_value
  /\ SystemMetrics.Memory (fst (snd (CollectSystemMetrics sm env))) =
       or_zero (mem_VirtualMemory env)
               (fun memory => F64.round2 (mem.UsedPercent memory))
  /\ SystemMetrics.Disk (fst (snd (CollectSystemMetrics sm env))) =
       or_zero (disk_Partitions env) (disk_value (disk_Usage env))
  /\ SystemMetrics.Upload (fst (snd (CollectSystemMetrics sm env))) =
       or_zero (snd (getNetworkSpeed sm (net_IOCounters env) (net_clock env))) fst
  /\ SystemMetrics.Download (fst (snd (CollectSystemMetrics sm env))) =
       or_zero (snd (getNetworkSpeed sm (net_IOCounters env) (net_clock env))) snd.
Proof.
  rewrite CollectSystemMetrics_record. cbn [fst snd].
  set (net := snd (getNetworkSpeed sm (net_IOCounters env) (net_clock env))).
  set (m1 := collect_cpu (cpu_Percent env) (SystemMetrics.new (clock env))).
  set (m2 := collect_memory (mem_VirtualMemory env) m1).
  set (m3 := collect_disk (disk_Partitions env) (disk_Usage env) m2).
  destruct (collect_network_fields net m3) as (Hc & Hm & Hd & Hu & Hdn).
  destruct (collect_disk_fields (disk_Partitions env) (disk_Usage env) m2)
    as (Hc3 & Hm3).
  destruct (collect_memory_fields (mem_VirtualMemory env) m1) as (Hc2 & Hd2).
  destruct (collect_cpu_fields (cpu_Percent env) (SystemMetrics.new (clock env)))
    as (Hm1 & Hd1).
  repeat split.
  - rewrite Hc. subst m3. rewrite Hc3. subst m2. rewrite Hc2. subst m1.
    apply collect_cpu_CPU.
  - rewrite Hm. subst m3. rewrite Hm3. subst m2.
    apply collect_memory_Memory.
  - rewrite Hd. subst m3. apply collect_disk_Disk.
    subst m2. rewrite Hd2. subst m1. rewrite Hd1. reflexivity.
  - exact Hu.
  - exact Hdn.
Qed.

End Collect.

Module CollectClaims.
Import monitor spec models fields.

(** C6. [CollectSystemMetrics] returns a record and a nil error whatever
    the outcomes of the four sub-measurements. A field whose
    sub-measurement failed is 0; a field whose sub-measurement succeeded
    has the value of its own reading, whatever happened to the others. *)
Theorem CollectSystemMetrics_never_fails sm env :
  snd (snd (CollectSystemMetrics sm env)) = None
  /\ (forall e, cpu_Percent env = Err e ->
        SystemMetrics.CPU (fst (snd (CollectSystemMetrics sm env))) = 0%float)
  /\ (forall e, mem_VirtualMemory env = Err e ->
        SystemMetrics.Memory (fst (snd (CollectSystemMetrics sm env))) = 0%float)
  /\ (forall e, disk_Partitions env = Err e ->
        SystemMetrics.Disk (fst (snd (CollectSystemMetrics sm env))) = 0%float)
  /\ (forall e,
        snd (getNetworkSpeed sm (net_IOCounters env) (net_clock env)) = Err e ->
        SystemMetrics.Upload (fst (snd (CollectSystemMetrics sm env))) = 0%float
        /\ SystemMetrics.Download (fst (snd (CollectSystemMetrics sm env))) = 0%float)
  /\ (forall cpuPercent, cpu_Percent env = Ok cpuPercent ->
        SystemMetrics.CPU (fst (snd (CollectSystemMetrics sm env)))
          = cpu_value cpuPercent)
  /\ (forall memory, mem_VirtualMemory env = Ok memory ->
        SystemMetrics.Memory (fst (snd (CollectSystemMetrics sm env)))
          = F64.round2 (mem.UsedPercent memory))
  /\ (forall partitions, disk_Partitions env = Ok partitions ->
        SystemMetrics.Disk (fst (snd (CollectSystemMetrics sm env)))
          = disk_value (disk_Usage env) partitions)
  /\ (forall uploadSpeed downloadSpeed,
        snd (getNetworkSpeed sm (net_IOCounters env) (net_clock env))
          = Ok (uploadSpeed, downloadSpeed) ->
        SystemMetrics.Upload (fst (snd (CollectSystemMetrics sm env))) = uploadSpeed
        /\ SystemMetrics.Download (fst (snd (CollectSystemMetrics sm env)))
           = downloadSpeed).
Proof.
  destruct (Collect.CollectSystemMetrics_fields sm env)
    as (Herr & Hcpu & Hmem & Hdisk & Hup & Hdown).
  rewrite Hcpu, Hmem, Hdisk, Hup, Hdown.
  split; [exact Herr|].
  repeat split; intros; match goal with H : _ = _ |- _ => rewrite H end;
    reflexivity.
Qed.

(** A cycle in which every sub-measurement fails. *)
Example CollectSystemMetrics_all_failing :
  snd (CollectSystemMetrics sample.sm_all sample_env.all_failing)
    = (SystemMetrics.new 2000000000, None).
Proof. by_evaluation. Qed.



Example Disk_mean_value :
  successful_usage (disk_Usage sample_env.healthy)
    [sample_env.root_fs; sample_env.cdrom; sample_env.data_fs] = [40%float; 65.5%float]
  /\ SystemMetrics.Disk
       (fst (snd (CollectSystemMetrics sample.sm_all sample_env.healthy))) = 52.75%float.
Proof. by_evaluation. Qed.

(** C10. When the listing succeeds and every usage lookup fails, no
    partition is counted, the division is not made, and the Disk field
    keeps the value 0. *)
Theorem Disk_zero_when_no_usage sm env partitions :
  disk_Partitions env = Ok partitions ->
  (forall p, In p partitions ->
             exists e, disk_Usage env (disk.Mountpoint p) = Err e) ->
  snd (disk_loop (disk_Usage env) partitions) = 0
  /\ SystemMetrics.Disk (fst (snd (CollectSystemMetrics sm env))) = 0%float.
Proof.
  intros Hlist Hfail.
  assert (Hnone : successful_usage (disk_Usage env) partitions = []).
  { clear Hlist. induction partitions as [|p rest IH]; [reflexivity|].
    simpl. destruct (Hfail p (or_introl eq_refl)) as [e ->]. simpl.
    apply IH. intros q Hq. apply Hfail. right. exact Hq. }
  destruct (Collect.CollectSystemMetrics_fields sm env) as (_ & _ & _ & HDisk & _).
  rewrite HDisk, Hlist. cbn [or_zero]. unfold disk_value.
  rewrite Collect.disk_loop_mean, Hnone. split; reflexivity.
Qed.

Lemma Disk_zero_when_no_usage_witness :
  snd (disk_loop (disk_Usage sample_env.no_disk_usage)
         [sample_env.root_fs; sample_env.cdrom; sample_env.data_fs]) = 0
  /\ SystemMetrics.Disk
       (fst (snd (CollectSystemMetrics sample.sm_all sample_env.no_disk_usage)))
     = 0%float.
Proof.
  apply (Disk_zero_when_no_usage sample.sm_all sample_env.no_disk_usage
           [sample_env.root_fs; sample_env.cdrom; sample_env.data_fs]).
  - reflexivity.
  - intros p _. exists sample_env.failing. reflexivity.
Defined.

(** The quotient that the guard avoids is not a number. *)
Example unguarded_mean_is_nan :
  PrimFloat.is_nan (0 / F64.of_int 0)%float = true.
Proof. by_evaluation. Qed.

(** C8. When no time has elapsed since the previous sample and the
    counters were read, [getNetworkSpeed] fails with its zero-interval
    error and leaves the monitor as it was; the collection still returns
    a record and a nil error, with Upload and Download 0. *)
Theorem zero_interval_reported_as_zero sm env netStats :
  net_IOCounters env = Ok netStats ->
  GoTime.Sub (net_clock env) (lastNetworkTime sm) = 0 ->
  getNetworkSpeed sm (net_IOCounters env) (net_clock env) =
    (sm, Err errTimeDiffZero)
  /\ fst (CollectSystemMetrics sm env) = sm
  /\ snd (snd (CollectSystemMetrics sm env)) = None
  /\ SystemMetrics.Upload (fst (snd (CollectSystemMetrics sm env))) = 0%float
  /\ SystemMetrics.Download (fst (snd (CollectSystemMetrics sm env))) = 0%float.
Proof.
  intros Hio Hzero.
  assert (Hnet : getNetworkSpeed sm (net_IOCounters env) (net_clock env) =
                 (sm, Err errTimeDiffZero)).
  { rewrite Hio. unfold getNetworkSpeed, timeDiff. rewrite Hzero. reflexivity. }
  split; [exact Hnet|].
  destruct (Collect.CollectSystemMetrics_fields sm env)
    as (Herr & _ & _ & _ & Hup & Hdown).
  rewrite Hup, Hdown, Collect.CollectSystemMetrics_record, Hnet.
  repeat split; reflexivity.
Qed.

Lemma zero_interval_reported_as_zero_witness :
  getNetworkSpeed sample.sm_all (net_IOCounters sample_env.same_instant)
    (net_clock sample_env.same_instant) = (sample.sm_all, Err errTimeDiffZero)
  /\ fst (CollectSystemMetrics sample.sm_all sample_env.same_instant) = sample.sm_all
  /\ snd (snd (CollectSystemMetrics sample.sm_all sample_env.same_instant)) = None
  /\ SystemMetrics.Upload
       (fst (snd (CollectSystemMetrics sample.sm_all sample_env.same_instant)))
     = 0%float
  /\ SystemMetrics.Download
       (fst (snd (CollectSystemMetrics sample.sm_all sample_env.same_instant)))
     = 0%float.
Proof.
  apply (zero_interval_reported_as_zero sample.sm_all sample_env.same_instant
           [sample.stat "all" 2098152 3150728]); reflexivity.
Defined.

End CollectClaims.

(** ** The alert table under [CheckAlerts] *)

Module AlertTable.
Import models database monitor alerts.

Section Lookup.
Variable cond : Alert.t -> bool.

(** The scan of [First], from any candidate [best]. *)
Lemma pick_least_fold rows best r :
  fold_left (fun best a => if cond a then pick_least best a else best) rows best
    = Some r ->
  best = Some r \/ (In r rows /\ cond r = true).
Proof.
  revert best. induction rows as [|a rows IH]; intros best Hfold; simpl in Hfold.
  - left. exact Hfold.
  - apply IH in Hfold. destruct Hfold as [Hbest | [Hin Hc]].
    + destruct (cond a) eqn:Hca; [|left; exact Hbest].
      unfold pick_least in Hbest. destruct best as [b|].
      * destruct (Alert.ID a <? Alert.ID b); inversion Hbest; subst.
        -- right. split; [left; reflexivity | exact Hca].
        -- left. reflexivity.
      * inversion Hbest; subst. right. split; [left; reflexivity | exact Hca].
    + right. split; [right; exact Hin | exact Hc].
Qed.

Lemma pick_least_fold_none rows best :
  fold_left (fun best a => if cond a then pick_least best a else best) rows best
    = None ->
  best = None /\ List.filter cond rows = [].
Proof.
  revert best. induction rows as [|a rows IH]; intros best Hfold; simpl in Hfold.
  - split; [exact Hfold | reflexivity].
  - apply IH in Hfold. destruct Hfold as [Hbest Hnone]. simpl.
    destruct (cond a).
    + unfold pick_least in Hbest. destruct best as [b|]; [|discriminate].
      destruct (Alert.ID a <? Alert.ID b); discriminate.
    + split; assumption.
Qed.

(** [First] returns a row of the table that meets the condition. *)
Lemma First_Some db a :
  First cond db = Some a -> In a (alerts db) /\ cond a = true.
Proof.
  unfold First. intros H. apply pick_least_fold in H.
  destruct H as [H|H]; [discriminate | exact H].
Qed.

(** [First] finds nothing only when no row meets the condition. *)
Lemma First_None db :
  First cond db = None -> List.filter cond (alerts db) = [].
Proof. unfold First. intros H. apply pick_least_fold_none in H. apply H. Qed.
End Lookup.

(** Overwriting the row of a key changes that row only. *)
Lemma Save_alert_splits a a' db :
  keys_unique db -> In a (alerts db) -> Alert.ID a' = Alert.ID a ->
  exists before after,
    alerts db = before ++ a :: after
    /\ alerts (Save_alert a' db) = before ++ a' :: after.
Proof.
  unfold keys_unique, Save_alert. cbn [alerts]. intros Hnd Hin Hid.
  apply in_split in Hin. destruct Hin as (before & after & Heq).
  exists before, after. split; [exact Heq|].
  rewrite Heq in Hnd |- *. rewrite map_app in Hnd. simpl in Hnd.
  apply NoDup_app in Hnd. destruct Hnd as (_ & Hbefore & Hafter).
  apply NoDup_cons in Hafter. destruct Hafter as [Hafter _].
  rewrite map_app. simpl. rewrite Hid, Z.eqb_refl. f_equal; [|f_equal].
  - rewrite <- (map_id before) at 2. apply map_ext_in. intros r Hr.
    destruct (Alert.ID r =? Alert.ID a) eqn:E; [|reflexivity].
    exfalso. apply Z.eqb_eq in E. apply (Hbefore (Alert.ID r)).
    + apply list_elem_of_In. now apply in_map.
    + rewrite E. left.
  - rewrite <- (map_id after) at 2. apply map_ext_in. intros r Hr.
    destruct (Alert.ID r =? Alert.ID a) eqn:E; [|reflexivity].
    exfalso. apply Z.eqb_eq in E. apply Hafter. rewrite <- E.
    apply list_elem_of_In. now apply in_map.
Qed.

Lemma Save_alert_keys a' db :
  map Alert.ID (alerts (Save_alert a' db)) = map Alert.ID (alerts db).
Proof.
  unfold Save_alert. cbn [alerts]. rewrite map_map. apply map_ext. intros r.
  destruct (Alert.ID r =? Alert.ID a') eqn:E; [|reflexivity].
  apply Z.eqb_eq in E. symmetry. exact E.
Qed.

Lemma next_id_above ids : forall i, In i ids -> i < next_id ids.
Proof.
  unfold next_id. induction ids as [|j ids IH]; intros i Hin; [destruct Hin|].
  simpl. destruct Hin as [->|Hin]; [lia|]. specialize (IH i Hin). lia.
Qed.

Lemma Create_alert_keys_unique now a db :
  keys_unique db -> keys_unique (Create_alert now a db).
Proof.
  unfold keys_unique, Create_alert. cbn [alerts]. intros Hnd.
  rewrite map_app. simpl. apply NoDup_app. split; [exact Hnd|]. split.
  - intros i Hi Hnew. apply list_elem_of_In in Hi.
    apply list_elem_of_In in Hnew. destruct Hnew as [Hnew|[]].
    cbn [Alert.ID] in Hnew. apply next_id_above in Hi. lia.
  - apply NoDup_singleton.
Qed.

Lemma count_replace (P : Alert.t -> bool) before a after :
  length (List.filter P (before ++ a :: after)) =
    (length (List.filter P before) + (if P a then 1 else 0)
     + length (List.filter P after))%nat.
Proof.
  rewrite List.filter_app, length_app. simpl.
  destruct (P a); simpl; lia.
Qed.

(** One block of [CheckAlerts] keeps the keys unique. *)
Lemma check_kind_keys_unique k v threshold now db :
  keys_unique db -> keys_unique (check_kind k v threshold now db).
Proof.
  intros Hnd. unfold check_kind.
  destruct (F64.gtb v (F64.of_int threshold));
    destruct (First (type_and_status (type_name k) "active") db) as [a|];
    try exact Hnd.
  - unfold keys_unique. cbn [Create_log alerts]. rewrite Save_alert_keys. exact Hnd.
  - unfold keys_unique. cbn [Create_log alerts].
    apply (Create_alert_keys_unique now _ db Hnd).
  - unfold keys_unique. cbn [Create_log alerts]. rewrite Save_alert_keys. exact Hnd.
Qed.
(** One block of [CheckAlerts] keeps at most one active alert of any kind. *)
Lemma check_kind_at_most_one k v threshold now db kind :
  keys_unique db ->
  at_most_one_active kind db ->
  at_most_one_active kind (check_kind k v threshold now db).
Proof.
  intros Hnd Hone. unfold check_kind.
  destruct (F64.gtb v (F64.of_int threshold));
    destruct (First (type_and_status (type_name k) "active") db) as [a|] eqn:HFirst;
    try exact Hone.
  - (* the active alert is updated in place *)
    apply First_Some in HFirst. destruct HFirst as [Hin _].
    match goal with |- at_most_one_active _ (Save_alert ?a' _) =>
      destruct (Save_alert_splits a a' db Hnd Hin eq_refl)
        as (before & after & Hdb & Hdb')
    end.
    unfold at_most_one_active, active_of in *. rewrite Hdb'. rewrite Hdb in Hone.
    rewrite count_replace in *. exact Hone.
  - (* no active alert: one is created *)
    apply First_None in HFirst.
    unfold at_most_one_active, active_of in *.
    cbn [Create_log Create_alert alerts].
    rewrite List.filter_app, length_app. simpl.
    unfold type_and_status at 2. cbn [Alert.Type_ Alert.Status].
    destruct (String.eqb (type_name k) kind) eqn:Hk; simpl; [|lia].
    apply String.eqb_eq in Hk. subst kind. rewrite HFirst. simpl. lia.
  - (* the active alert is resolved *)
    apply First_Some in HFirst. destruct HFirst as [Hin _].
    match goal with |- at_most_one_active _ (Create_log _ _ (Save_alert ?a' _)) =>
      destruct (Save_alert_splits a a' db Hnd Hin eq_refl)
        as (before & after & Hdb & Hdb')
    end.
    unfold at_most_one_active, active_of in *.
    cbn [Create_log alerts]. rewrite Hdb'. rewrite Hdb in Hone.
    rewrite count_replace in *.
    unfold type_and_status at 2. cbn [Alert.Type_ Alert.Status].
    rewrite andb_false_r.
    destruct (type_and_status kind "active" a); lia.
Qed.
End AlertTable.

Module AlertClaims.
Import models database monitor alerts.

(** On a store whose statements all succeed, [CheckAlerts] keeps the
    invariant: from a table with unique keys and at most one active alert
    of a kind, the table after the call has at most one active alert of
    that kind; this holds for cpu, memory and disk (and for every other
    kind). The call returns a nil error. *)
Lemma CheckAlerts_keeps_one_active cfg now metrics db kind :
  keys_unique db ->
  at_most_one_active kind db ->
  at_most_one_active kind (fst (CheckAlerts cfg now metrics db))
  /\ keys_unique (fst (CheckAlerts cfg now metrics db))
  /\ snd (CheckAlerts cfg now metrics db) = None.
Proof.
  intros Hnd Hone. unfold CheckAlerts. cbn [fst snd].
  repeat split.
  - repeat (apply AlertTable.check_kind_at_most_one;
            [repeat apply AlertTable.check_kind_keys_unique; exact Hnd|]).
    exact Hone.
  - repeat apply AlertTable.check_kind_keys_unique. exact Hnd.
Qed.

Lemma CheckAlerts_keeps_one_active_witness :
  at_most_one_active "cpu"
    (fst (CheckAlerts scenario.cfg (15 * GoTime.Second) (scenario.metrics_cpu 90)
            scenario.store_with_alert))
  /\ keys_unique
       (fst (CheckAlerts scenario.cfg (15 * GoTime.Second) (scenario.metrics_cpu 90)
               scenario.store_with_alert))
  /\ snd (CheckAlerts scenario.cfg (15 * GoTime.Second) (scenario.metrics_cpu 90)
            scenario.store_with_alert) = None.
Proof.
  apply (CheckAlerts_keeps_one_active scenario.cfg (15 * GoTime.Second)
           (scenario.metrics_cpu 90) scenario.store_with_alert "cpu").
  - unfold keys_unique. simpl. apply NoDup_singleton.
  - unfold at_most_one_active. simpl. lia.
Defined.

(** The four transitions on the sample store: a sample above the
    threshold updates the one active alert in place, and a sample at or
    below it resolves that alert. *)
Example CheckAlerts_updates_in_place :
  alerts (fst (CheckAlerts scenario.cfg (15 * GoTime.Second) (scenario.metrics_cpu 90)
                 scenario.store_with_alert)) = [scenario.cpu_alert 90 15 "active"]
  /\ alerts (fst (CheckAlerts scenario.cfg (20 * GoTime.Second) (scenario.metrics_cpu 80)
                    scenario.store_with_alert)) = [scenario.cpu_alert 85 20 "resolved"].
Proof. by_evaluation. Qed.

(** C3. The example scenario, run through the scheduler from an empty
    store with the cpu threshold 80: no alert after 70; one active alert
    of value 85 after 85; the same row, of value 90, after 90, with
    no second row and no new log entry; that row resolved after 75. The
    system log holds one entry for the creation and one for the
    resolution. What the four ticks sent to the Hub is four
    system_metrics messages: no message of type alert is published, so a
    subscriber of the alert stream observes no creation event and no
    resolution event. *)
Theorem cpu_scenario_history :
  alerts (scenario.store_after 1) = []
  /\ alerts (scenario.store_after 2) = [scenario.cpu_alert 85 10 "active"]
  /\ alerts (scenario.store_after 3) = [scenario.cpu_alert 90 15 "active"]
  /\ alerts (scenario.store_after 4) = [scenario.cpu_alert 90 20 "resolved"]
  /\ map (fun l => (SystemLog.Level l, SystemLog.Message l))
         (system_logs (scenario.store_after 2)) =
       [("warning"%string, Sprintf "CPU使用率过高: %.2f%%" 85)]
  /\ system_logs (scenario.store_after 3) = system_logs (scenario.store_after 2)
  /\ map (fun l => (SystemLog.Level l, SystemLog.Message l))
         (system_logs (scenario.store_after 4)) =
       [("warning"%string, Sprintf "CPU使用率过高: %.2f%%" 85);
        ("info"%string, Sprintf "CPU使用率恢复正常: %.2f%%" 75)]
  /\ scheduler.of_type "alert" scenario.sent = []
  /\ length (scheduler.of_type "system_metrics" scenario.sent) = 4%nat
  /\ length scenario.sent = 4%nat.
Proof. by_evaluation. Qed.
End AlertClaims.

(** ** The Hub *)

Module HubFacts.
Import websocket fanout.

(** The body of the range loop at one client. *)
Lemma deliver_outcome m h client :
  wf h ->
  exists h', deliver m h client = Some h'
             /\ wf h'
             /\ outcome m h h' client
             /\ (forall other, other <> client -> same h h' other).
Proof.
  intros Hwf. unfold deliver, outcome.
  destruct (Clients h !! client) as [b|] eqn:HC.
  - destruct (Hwf client) as (c & Hc & Hopen); [rewrite HC; eauto|].
    rewrite Hc. unfold try_send, close, has_room. rewrite Hopen.
    destruct (length (buf (Send c)) <? cap (Send c))%nat eqn:Hroom.
    + eexists. split; [reflexivity|]. split; [|split].
      * intros q Hq. cbn [Clients mem] in *.
        destruct (decide (q = client)) as [->|Hne].
        -- rewrite lookup_insert_eq. eexists. split; reflexivity.
        -- rewrite lookup_insert_ne by congruence. apply Hwf. exact Hq.
      * cbn [Clients mem]. split; [exact HC|]. apply lookup_insert_eq.
      * intros other Hne. unfold same. cbn [Clients mem].
        split; [reflexivity|]. apply lookup_insert_ne. congruence.
    + eexists. split; [reflexivity|]. split; [|split].
      * intros q Hq. cbn [Clients mem] in *.
        destruct (decide (q = client)) as [->|Hne].
        -- rewrite lookup_delete_eq in Hq. destruct Hq; discriminate.
        -- rewrite lookup_delete_ne in Hq by congruence.
           rewrite lookup_insert_ne by congruence. apply Hwf. exact Hq.
      * cbn [Clients mem]. split; [apply lookup_delete_eq | apply lookup_insert_eq].
      * intros other Hne. unfold same. cbn [Clients mem].
        split; [apply lookup_delete_ne | apply lookup_insert_ne]; congruence.
  - exists h. split; [reflexivity|]. split; [exact Hwf|].
    split; [split; reflexivity|]. intros other _. split; reflexivity.
Qed.

Lemma outcome_same_source m h0 h h' client :
  same h0 h client -> outcome m h h' client -> outcome m h0 h' client.
Proof. unfold outcome, same. intros [-> ->]. exact (fun H => H). Qed.

Lemma same_trans h0 h h' client :
  same h0 h client -> same h h' client -> same h0 h' client.
Proof. unfold same. intros [H1 H2] [H3 H4]. split; congruence. Qed.

Lemma outcome_then_same m h h1 h' client :
  outcome m h h1 client -> same h1 h' client -> outcome m h h' client.
Proof.
  unfold outcome, same. intros Hout [HC HM].
  destruct (Clients h !! client), (mem h !! client); try (split; intuition congruence).
  destruct (has_room c); destruct Hout; split; congruence.
Qed.

(** The whole range loop, in any order without repetition. *)
Lemma broadcast_over_outcome m order : forall h,
  NoDup order -> wf h ->
  exists h', broadcast_over order m h = Some h'
             /\ wf h'
             /\ (forall client, client ∈ order -> outcome m h h' client)
             /\ (forall client, client ∉ order -> same h h' client).
Proof.
  induction order as [|p rest IH]; intros h Hnd Hwf.
  - exists h. repeat split; try exact Hwf.
    intros client Hin. inversion Hin.
  - apply NoDup_cons in Hnd. destruct Hnd as [Hp Hnd].
    destruct (deliver_outcome m h p Hwf) as (h1 & Hd & Hwf1 & Hout1 & Hsame1).
    destruct (IH h1 Hnd Hwf1) as (h' & Hb & Hwf' & Hout & Hsame).
    exists h'. simpl. rewrite Hd. split; [exact Hb|]. split; [exact Hwf'|]. split.
    + intros client Hin. apply elem_of_cons in Hin. destruct Hin as [->|Hin].
      * apply (outcome_then_same m h h1 h' p Hout1). apply Hsame. exact Hp.
      * apply (outcome_same_source m h h1 h' client).
        -- apply Hsame1. intros ->. contradiction.
        -- apply Hout. exact Hin.
    + intros client Hnot. apply not_elem_of_cons in Hnot. destruct Hnot as [Hne Hnot].
      apply (same_trans h h1 h' client); [apply Hsame1; exact Hne | apply Hsame; exact Hnot].
Qed.

(** A publish is always processed, whatever the order of the range, and
    its outcome is that of the specification at every client. *)
Lemma publish_outcome m order h :
  wf h -> order ≡ₚ registered h ->
  exists h', Run_case order (Broadcast m) h = Some h'
             /\ wf h' /\ forall client, outcome m h h' client.
Proof.
  intros Hwf Hperm.
  assert (Hnd : NoDup order).
  { rewrite Hperm. unfold registered. apply NoDup_fst_map_to_list. }
  destruct (broadcast_over_outcome m order h Hnd Hwf) as (h' & Hb & Hwf' & Hout & Hsame).
  exists h'. split; [exact Hb|]. split; [exact Hwf'|].
  intros client. destruct (decide (client ∈ order)) as [Hin|Hnot].
  - apply Hout. exact Hin.
  - specialize (Hsame client Hnot). unfold outcome.
    destruct (Clients h !! client) as [b|] eqn:HC; [|exact Hsame].
    exfalso. apply Hnot. rewrite Hperm. unfold registered.
    apply list_elem_of_fmap. exists (client, b). split; [reflexivity|].
    apply elem_of_map_to_list. exact HC.
Qed.
End HubFacts.

(** ** A fast and a slow subscriber *)

Module FastSlow.
Import websocket fanout.

Lemma wrote_cons m msgs c : wrote msgs (wrote [m] c) = wrote (m :: msgs) c.
Proof. unfold wrote. simpl. rewrite <- app_assoc. reflexivity. Qed.

(** The pump of a client whose queue holds exactly the message just sent. *)
Lemma pump_after_enqueue m h client c n :
  mem h !! client = Some (enqueue m c) ->
  Send c = make_chan n ->
  writePump_recv client h =
    Some {| Clients := Clients h; mem := <[client := wrote [m] c]> (mem h) |}.
Proof.
  intros Hmem Hsend. unfold writePump_recv. rewrite Hmem.
  unfold enqueue, set_Send, wrote. cbn [Send buf cap closed ID Socket].
  rewrite Hsend. reflexivity.
Qed.

Section TwoClients.
(** The fast client is registered at [fast] with flag [bf] and a queue of
    capacity [n]; the slow client [cs], registered at [slow] with flag
    [bs], has no room. *)
Variables (fast slow : ptr) (cs : Client) (n : nat) (bf bs : bool).
Hypothesis Hne : fast <> slow.
Hypothesis Hn : (0 < n)%nat.
Hypothesis Hfull : has_room cs = false.

(** One publish followed by the write of the fast client's pump. *)
Lemma round m h cf :
  wf h ->
  Clients h !! fast = Some bf -> mem h !! fast = Some cf ->
  Send cf = make_chan n ->
  still_in h slow cs bs \/ dropped h slow cs ->
  (exists h2, run h [HubTakes (Broadcast m); PumpWrites fast] h2)
  /\ forall h1 h2,
       step h (HubTakes (Broadcast m)) h1 -> step h1 (PumpWrites fast) h2 ->
       wf h2
       /\ Clients h2 !! fast = Some bf
       /\ mem h2 !! fast = Some (wrote [m] cf)
       /\ dropped h2 slow cs.
Proof.
  intros Hwf HCf HMf Hsend Hslow.
  assert (Hroom : has_room cf = true).
  { unfold has_room. rewrite Hsend. simpl. apply Nat.ltb_lt. exact Hn. }
  assert (Hafter : forall h1, (forall client, outcome m h h1 client) -> wf h1 ->
            writePump_recv fast h1 =
              Some {| Clients := Clients h1;
                      mem := <[fast := wrote [m] cf]> (mem h1) |}
            /\ Clients h1 !! fast = Some bf
            /\ dropped h1 slow cs).
  { intros h1 Hout Hwf1.
    pose proof (Hout fast) as Hf. unfold outcome in Hf.
    rewrite HCf, HMf, Hroom in Hf. destruct Hf as [HCf1 HMf1].
    split; [exact (pump_after_enqueue m h1 fast cf n HMf1 Hsend)|].
    split; [exact HCf1|].
    pose proof (Hout slow) as Hs. unfold outcome in Hs.
    destruct Hslow as [[HCs HMs]|[HCs HMs]].
    - rewrite HCs, HMs, Hfull in Hs. exact Hs.
    - rewrite HCs in Hs. destruct Hs as [HC1 HM1].
      split; congruence. }
  split.
  - destruct (HubFacts.publish_outcome m (registered h) h Hwf (reflexivity _))
      as (h1 & Hrun & Hwf1 & Hout).
    destruct (Hafter h1 Hout Hwf1) as (Hpump & _).
    eexists. eapply run_cons.
    + apply step_hub. eapply hub_step_intro; [reflexivity | exact Hrun].
    + eapply run_cons; [apply step_pump; exact Hpump | apply run_nil].
  - intros h1 h2 Hstep1 Hstep2.
    inversion Hstep1 as [h0 req h0' Hhub|]; subst.
    inversion Hhub as [h0 req order h0' Hperm Hrun]; subst.
    destruct (HubFacts.publish_outcome m order h Hwf Hperm)
      as (h1' & Hrun' & Hwf1 & Hout).
    rewrite Hrun in Hrun'. inversion Hrun'; subst h1'.
    destruct (Hafter h1 Hout Hwf1) as (Hpump & HCf1 & [HCs1 HMs1]).
    inversion Hstep2 as [|h0 client h0' Hrecv]; subst.
    rewrite Hpump in Hrecv. inversion Hrecv; subst h2. cbn [Clients mem].
    split; [|split; [exact HCf1|split; [apply lookup_insert_eq|]]].
    + intros q Hq. cbn [Clients mem] in *.
      destruct (decide (q = fast)) as [->|Hq'].
      * rewrite lookup_insert_eq. eexists. split; [reflexivity|].
        unfold wrote. cbn [Send]. rewrite Hsend. reflexivity.
      * rewrite lookup_insert_ne by congruence. apply Hwf1. exact Hq.
    + split; [exact HCs1|]. cbn [mem].
      rewrite lookup_insert_ne by exact Hne. exact HMs1.
Qed.

(** [N] rounds. *)
Lemma rounds msgs : forall h cf,
  wf h ->
  Clients h !! fast = Some bf -> mem h !! fast = Some cf ->
  Send cf = make_chan n ->
  still_in h slow cs bs \/ dropped h slow cs ->
  (exists h', run h (fast_schedule fast msgs) h')
  /\ forall h', run h (fast_schedule fast msgs) h' ->
       Clients h' !! fast = Some bf
       /\ mem h' !! fast = Some (wrote msgs cf)
       /\ (msgs <> [] -> dropped h' slow cs).
Proof.
  induction msgs as [|m msgs IH]; intros h cf Hwf HCf HMf Hsend Hslow.
  - split; [exists h; apply run_nil|].
    intros h' Hrun. inversion Hrun; subst.
    split; [exact HCf|]. split; [|congruence].
    rewrite HMf. unfold wrote. simpl. rewrite app_nil_r.
    destruct cf; reflexivity.
  - destruct (round m h cf Hwf HCf HMf Hsend Hslow) as [(h2 & Hrun2) Hround].
    inversion Hrun2 as [|? ? h1 ? ? Hs1 Hrest]; subst.
    inversion Hrest as [|? ? h2' ? ? Hs2 Hnil]; subst.
    inversion Hnil; subst.
    destruct (Hround h1 h2 Hs1 Hs2) as (Hwf2 & HCf2 & HMf2 & Hdrop2).
    assert (Hsend2 : Send (wrote [m] cf) = make_chan n) by exact Hsend.
    destruct (IH h2 (wrote [m] cf) Hwf2 HCf2 HMf2 Hsend2 (or_intror Hdrop2))
      as [(h' & Hrun') _].
    split.
    + exists h'. simpl. eapply run_cons; [exact Hs1|].
      eapply run_cons; [exact Hs2 | exact Hrun'].
    + intros hz Hrunz. simpl in Hrunz.
      inversion Hrunz as [|? ? ha ? ? Hsa Hresta]; subst.
      inversion Hresta as [|? ? hb ? ? Hsb Hrestb]; subst.
      destruct (Hround ha hb Hsa Hsb) as (Hwfb & HCfb & HMfb & Hdropb).
      destruct (IH hb (wrote [m] cf) Hwfb HCfb HMfb Hsend2 (or_intror Hdropb))
        as [_ Hall].
      destruct (Hall hz Hrestb) as (HCz & HMz & Hdz).
      split; [exact HCz|]. split; [rewrite HMz, wrote_cons; reflexivity|].
      intros _. destruct msgs as [|m' msgs'].
      * inversion Hrestb; subst. exact Hdropb.
      * apply Hdz. discriminate.
Qed.
End TwoClients.
End FastSlow.

Module HubClaims.
Import websocket fanout.

(** C5. Every publish is processed by the Hub, in whatever order the
    range visits the clients: each registered client whose queue has room
    gets the message at the back of its queue and stays registered, each
    registered client whose queue is full is removed from the set with
    its queue closed, and nothing else changes. In particular, when [N]
    messages ([N] at least 1) are published to a Hub with a fast client,
    whose pump writes each message out before the next publish, and a
    slow client whose queue is full from the start, every run ends with
    all [N] messages written, in order, to the fast client's connection,
    and with the slow client out of the set, its queue closed. *)
Theorem publish_never_blocks :
  (forall h order m,
      wf h -> order ≡ₚ registered h ->
      exists h', Run_case order (Broadcast m) h = Some h'
                 /\ wf h' /\ forall client, outcome m h h' client)
  /\ (forall h fast slow cf cs n bf bs msgs,
         wf h -> fast <> slow ->
         still_in h fast cf bf -> Send cf = make_chan n -> (0 < n)%nat ->
         still_in h slow cs bs -> length (buf (Send cs)) = cap (Send cs) ->
         msgs <> [] ->
         (exists h', run h (fast_schedule fast msgs) h')
         /\ forall h', run h (fast_schedule fast msgs) h' ->
              still_in h' fast (wrote msgs cf) bf /\ dropped h' slow cs).
Proof.
  split.
  - intros h order m Hwf Hperm. exact (HubFacts.publish_outcome m order h Hwf Hperm).
  - intros h fast slow cf cs n bf bs msgs Hwf Hne [HCf HMf] Hsend Hn Hslow Hfull Hmsgs.
    assert (Hnoroom : has_room cs = false).
    { unfold has_room. rewrite Hfull. apply Nat.ltb_irrefl. }
    destruct (FastSlow.rounds fast slow cs n bf bs Hne Hn Hnoroom msgs h cf
                Hwf HCf HMf Hsend (or_introl Hslow)) as [Hex Hall].
    split; [exact Hex|].
    intros h' Hrun. destruct (Hall h' Hrun) as (HC & HM & Hd).
    split; [split; assumption | exact (Hd Hmsgs)].
Qed.

Lemma sample_hub_wf : wf sample_hub.hub.
Proof.
  intros client [b Hb]. unfold sample_hub.hub in *. cbn [Clients mem] in *.
  destruct (decide (client = sample_hub.fast)) as [->|Hf].
  { rewrite lookup_insert_eq. eexists. split; reflexivity. }
  destruct (decide (client = sample_hub.slow)) as [->|Hs].
  { rewrite lookup_insert_ne by congruence. rewrite lookup_insert_eq.
    eexists. split; reflexivity. }
  rewrite !lookup_insert_ne in Hb by congruence.
  rewrite lookup_empty in Hb. discriminate.
Qed.

Lemma publish_never_blocks_witness :
  (exists h', Run_case (registered sample_hub.hub)
                (Broadcast (sample_hub.metrics_message 2)) sample_hub.hub = Some h'
              /\ wf h'
              /\ forall client,
                   outcome (sample_hub.metrics_message 2) sample_hub.hub h' client)
  /\ ((exists h', run sample_hub.hub
                    (fast_schedule sample_hub.fast sample_hub.published) h')
      /\ forall h', run sample_hub.hub
                      (fast_schedule sample_hub.fast sample_hub.published) h' ->
           still_in h' sample_hub.fast
             (wrote sample_hub.published sample_hub.fast_client) true
           /\ dropped h' sample_hub.slow sample_hub.slow_client).
Proof.
  split.
  - apply (proj1 publish_never_blocks sample_hub.hub (registered sample_hub.hub)
             (sample_hub.metrics_message 2)).
    + exact sample_hub_wf.
    + reflexivity.
  - apply (proj2 publish_never_blocks sample_hub.hub sample_hub.fast sample_hub.slow
             sample_hub.fast_client sample_hub.slow_client 2%nat true true
             sample_hub.published).
    + exact sample_hub_wf.
    + discriminate.
    + split; reflexivity.
    + reflexivity.
    + lia.
    + split; reflexivity.
    + reflexivity.
    + discriminate.
Defined.

(** The run of the sample, computed in the order fast, slow. *)
Example sample_hub_run :
  match broadcast_over [sample_hub.fast; sample_hub.slow]
          (sample_hub.metrics_message 2) sample_hub.hub with
  | Some h =>
      registered h = [sample_hub.fast]
      /\ (buf ∘ Send <$> mem h !! sample_hub.fast) = Some [sample_hub.metrics_message 2]
      /\ (closed ∘ Send <$> mem h !! sample_hub.slow) = Some true
  | None => False
  end.
Proof. by_evaluation. Qed.
End HubClaims.

(** ** What the sampling job publishes *)

Module SchedulerFacts.
Import scheduler.

Lemma of_type_app ty reqs reqs' :
  of_type ty (reqs ++ reqs') = of_type ty reqs ++ of_type ty reqs'.
Proof. unfold of_type. apply flat_map_app. Qed.

(** The sampling job publishes no message of type alert: its only call to
    the Hub is [BroadcastSystemMetrics]. *)
Lemma collectSystemMetrics_publishes_no_alert cfg env write_error now s :
  of_type "alert" (snd (collectSystemMetrics cfg env write_error now s)) = [].
Proof.
  unfold collectSystemMetrics.
  destruct (monitor.CollectSystemMetrics (sysMon s) env) as [sm [metrics [e|]]];
    [reflexivity|].
  destruct (monitor.SaveMetrics write_error now metrics (DB s)) as [[stored db]|e];
    [|reflexivity].
  destruct (monitor.CheckAlerts cfg now stored db) as [db' err]. cbn [snd].
  unfold websocket.BroadcastSystemMetrics, websocket.publish.
  destruct (websocket.marshals _); reflexivity.
Qed.

Lemma ticks_publish_no_alert cfg inputs : forall s,
  of_type "alert" (snd (ticks cfg inputs s)) = [].
Proof.
  induction inputs as [|[[env write_error] now] rest IH]; intros s; [reflexivity|].
  simpl.
  pose proof (collectSystemMetrics_publishes_no_alert cfg env write_error now s) as H1.
  destruct (collectSystemMetrics cfg env write_error now s) as [s' out].
  specialize (IH s'). destruct (ticks cfg rest s') as [s'' outs].
  cbn [snd] in *. rewrite of_type_app, H1, IH. reflexivity.
Qed.
End SchedulerFacts.

(** * Further properties *)

(** ** The transitions of an alert *)

Module AlertTransitions.
Import models database monitor alerts alert_rows.

Section Scan.
Variable cond : Alert.t -> bool.

Lemma scan_none rows best :
  List.filter cond rows = [] ->
  fold_left (fun best a => if cond a then pick_least best a else best) rows best
    = best.
Proof.
  revert best. induction rows as [|r rows IH]; intros best Hnone; [reflexivity|].
  simpl in *. destruct (cond r); [discriminate|]. apply IH. exact Hnone.
Qed.

(** [First] finds nothing when no row meets the condition. *)
Lemma First_of_none db : List.filter cond (alerts db) = [] -> First cond db = None.
Proof. unfold First. apply scan_none. Qed.

(** [First] finds the row when exactly one row meets the condition. *)
Lemma First_of_single db a :
  List.filter cond (alerts db) = [a] -> First cond db = Some a.
Proof.
  unfold First. generalize (alerts db). intros rows.
  induction rows as [|r rows IH]; intros Hone; [discriminate|].
  simpl in *. destruct (cond r).
  - inversion Hone; subst. simpl. apply scan_none. assumption.
  - apply IH. exact Hone.
Qed.

Lemma filter_single_split before a after r :
  List.filter cond (before ++ a :: after) = [r] -> cond a = true ->
  List.filter cond before = [] /\ List.filter cond after = [] /\ r = a.
Proof.
  rewrite List.filter_app. simpl. intros Hone Ha. rewrite Ha in Hone.
  destruct (List.filter cond before) as [|b bs].
  - simpl in Hone. inversion Hone; subst. auto.
  - simpl in Hone. inversion Hone as [[Hb Hrest]].
    destruct bs; discriminate.
Qed.
End Scan.

(** X1. No active alert and a value above the threshold: one alert row and
    one warning log row are appended, each under a key that no row of its
    table has, and the new alert is then the one active alert of the
    kind. Which new key the store gives is not stated. *)
Theorem check_kind_raises k v threshold now db :
  active_of (type_name k) db = [] ->
  F64.gtb v (F64.of_int threshold) = true ->
  exists key log_key,
    ~ In key (map Alert.ID (alerts db))
    /\ ~ In log_key (map SystemLog.ID (system_logs db))
    /\ alerts (check_kind k v threshold now db)
       = alerts db ++ [raised k v threshold now key]
    /\ system_logs (check_kind k v threshold now db)
       = system_logs db ++ [log_row "warning" (fmt_high k) v now log_key]
    /\ active_of (type_name k) (check_kind k v threshold now db)
       = [raised k v threshold now key].
Proof.
  intros Hnone Habove. unfold check_kind. rewrite Habove.
  rewrite (First_of_none _ db Hnone).
  cbn [Create_log Create_alert alerts system_logs].
  exists (next_id (map Alert.ID (alerts db))),
         (next_id (map SystemLog.ID (system_logs db))).
  split; [intros Hin; apply AlertTable.next_id_above in Hin; lia|].
  split; [intros Hin; apply AlertTable.next_id_above in Hin; lia|].
  split; [reflexivity|]. split; [reflexivity|].
  unfold active_of in *. cbn [Create_log Create_alert alerts].
  rewrite List.filter_app, Hnone. simpl.
  unfold type_and_status at 1. cbn [Alert.Type_ Alert.Status].
  rewrite String.eqb_refl. reflexivity.
Qed.

(** X2. One active alert and a value above the threshold, on a store whose
    lookup and save succeed: that row is updated in place (same key, new
    value and message), no row is added to the table and nothing is
    logged. *)
Theorem check_kind_updates_in_place k v threshold now db a :
  keys_unique db ->
  active_of (type_name k) db = [a] ->
  F64.gtb v (F64.of_int threshold) = true ->
  active_of (type_name k) (check_kind k v threshold now db) = [updated k v now a]
  /\ map Alert.ID (alerts (check_kind k v threshold now db)) = map Alert.ID (alerts db)
  /\ system_logs (check_kind k v threshold now db) = system_logs db.
Proof.
  intros Hkeys Hone Habove. unfold check_kind. rewrite Habove.
  pose proof (First_of_single _ db a Hone) as HFirst. rewrite HFirst.
  apply AlertTable.First_Some in HFirst. destruct HFirst as [Hin Hcond].
  fold (updated k v now a).
  destruct (AlertTable.Save_alert_splits a (updated k v now a) db Hkeys Hin eq_refl)
    as (before & after & Hdb & Hdb').
  split; [|split; [apply AlertTable.Save_alert_keys | reflexivity]].
  unfold active_of in *. rewrite Hdb in Hone. rewrite Hdb'.
  destruct (filter_single_split _ before a after a Hone Hcond) as (Hb & Ha & _).
  rewrite List.filter_app, Hb. simpl. rewrite Ha.
  change (type_and_status (type_name k) "active" (updated k v now a))
    with (type_and_status (type_name k) "active" a).
  rewrite Hcond. reflexivity.
Qed.

(** X3. One active alert and a value that is not above the threshold (at the
    threshold, below it, or not a number), on a store whose lookup and
    writes succeed: the alert is resolved, its row keeps its key and
    value, no active alert of the kind is left, and one info log row is
    appended. *)
Theorem check_kind_resolves k v threshold now db a :
  keys_unique db ->
  active_of (type_name k) db = [a] ->
  F64.gtb v (F64.of_int threshold) = false ->
  active_of (type_name k) (check_kind k v threshold now db) = []
  /\ In (resolved now a) (alerts (check_kind k v threshold now db))
  /\ map Alert.ID (alerts (check_kind k v threshold now db)) = map Alert.ID (alerts db)
  /\ system_logs (check_kind k v threshold now db) =
       system_logs db
       ++ [log_row "info" (fmt_normal k) v now
             (next_id (map SystemLog.ID (system_logs db)))].
Proof.
  intros Hkeys Hone Hbelow. unfold check_kind. rewrite Hbelow.
  pose proof (First_of_single _ db a Hone) as HFirst. rewrite HFirst.
  apply AlertTable.First_Some in HFirst. destruct HFirst as [Hin Hcond].
  fold (resolved now a).
  destruct (AlertTable.Save_alert_splits a (resolved now a) db Hkeys Hin eq_refl)
    as (before & after & Hdb & Hdb').
  cbn [Create_log alerts system_logs].
  split; [|split; [|split; [apply AlertTable.Save_alert_keys | reflexivity]]].
  - unfold active_of in *. cbn [Create_log alerts].
    rewrite Hdb in Hone. rewrite Hdb'.
    destruct (filter_single_split _ before a after a Hone Hcond) as (Hb & Ha & _).
    rewrite List.filter_app, Hb. simpl. rewrite Ha.
    unfold type_and_status at 1. cbn [resolved Alert.Type_ Alert.Status].
    rewrite andb_false_r. reflexivity.
  - rewrite Hdb'. apply in_or_app. right. left. reflexivity.
Qed.

(** No active alert and a value that is not above the threshold: the
    store is left as it is. *)
Lemma check_kind_idle k v threshold now db :
  active_of (type_name k) db = [] ->
  F64.gtb v (F64.of_int threshold) = false ->
  check_kind k v threshold now db = db.
Proof.
  intros Hnone Hbelow. unfold check_kind. rewrite Hbelow.
  rewrite (First_of_none _ db Hnone). reflexivity.
Qed.
Lemma check_kind_raises_witness :
  exists key log_key,
    ~ In key (map Alert.ID (alerts database.empty))
    /\ ~ In log_key (map SystemLog.ID (system_logs database.empty))
    /\ alerts (check_kind kind_cpu 85 80 (10 * GoTime.Second) database.empty)
       = alerts database.empty
         ++ [raised kind_cpu 85 80 (10 * GoTime.Second) key]
    /\ system_logs (check_kind kind_cpu 85 80 (10 * GoTime.Second) database.empty)
       = system_logs database.empty
         ++ [log_row "warning" (fmt_high kind_cpu) 85 (10 * GoTime.Second) log_key]
    /\ active_of (type_name kind_cpu)
         (check_kind kind_cpu 85 80 (10 * GoTime.Second) database.empty)
       = [raised kind_cpu 85 80 (10 * GoTime.Second) key].
Proof.
  apply (check_kind_raises kind_cpu 85 80 (10 * GoTime.Second) database.empty);
    reflexivity.
Defined.

Lemma check_kind_updates_in_place_witness :
  active_of (type_name kind_cpu)
    (check_kind kind_cpu 90 80 (15 * GoTime.Second) scenario.store_with_alert)
    = [updated kind_cpu 90 (15 * GoTime.Second) (scenario.cpu_alert 85 10 "active")]
  /\ map Alert.ID
       (alerts (check_kind kind_cpu 90 80 (15 * GoTime.Second)
                  scenario.store_with_alert))
     = map Alert.ID (alerts scenario.store_with_alert)
  /\ system_logs
       (check_kind kind_cpu 90 80 (15 * GoTime.Second) scenario.store_with_alert)
     = system_logs scenario.store_with_alert.
Proof.
  apply (check_kind_updates_in_place kind_cpu 90 80 (15 * GoTime.Second)
           scenario.store_with_alert (scenario.cpu_alert 85 10 "active")).
  - unfold keys_unique. simpl. apply NoDup_singleton.
  - reflexivity.
  - reflexivity.
Defined.

Lemma check_kind_resolves_witness :
  active_of (type_name kind_cpu)
    (check_kind kind_cpu 80 80 (20 * GoTime.Second) scenario.store_with_alert) = []
  /\ In (resolved (20 * GoTime.Second) (scenario.cpu_alert 85 10 "active"))
        (alerts (check_kind kind_cpu 80 80 (20 * GoTime.Second)
                   scenario.store_with_alert))
  /\ map Alert.ID
       (alerts (check_kind kind_cpu 80 80 (20 * GoTime.Second)
                  scenario.store_with_alert))
     = map Alert.ID (alerts scenario.store_with_alert)
  /\ system_logs
       (check_kind kind_cpu 80 80 (20 * GoTime.Second) scenario.store_with_alert)
     = system_logs scenario.store_with_alert
       ++ [log_row "info" (fmt_normal kind_cpu) 80 (20 * GoTime.Second)
             (next_id (map SystemLog.ID (system_logs scenario.store_with_alert)))].
Proof.
  apply (check_kind_resolves kind_cpu 80 80 (20 * GoTime.Second)
           scenario.store_with_alert (scenario.cpu_alert 85 10 "active")).
  - unfold keys_unique. simpl. apply NoDup_singleton.
  - reflexivity.
  - reflexivity.
Defined.

(** A value that is not a number resolves an active alert. *)
Example nan_resolves :
  F64.gtb nan (F64.of_int 80) = false
  /\ active_of "cpu"
       (check_kind kind_cpu nan 80 (20 * GoTime.Second) scenario.store_with_alert)
     = [].
Proof. by_evaluation. Qed.

(** One block of [CheckAlerts] leaves the alerts of every other type as
    they are. *)
Lemma check_kind_other_types k v threshold now db ty :
  keys_unique db -> ty <> type_name k ->
  of_type ty (check_kind k v threshold now db) = of_type ty db.
Proof.
  intros Hkeys Hty.
  assert (Hneq : String.eqb (type_name k) ty = false).
  { apply String.eqb_neq. congruence. }
  assert (Hsave : forall a a',
             First (type_and_status (type_name k) "active") db = Some a ->
             Alert.ID a' = Alert.ID a -> Alert.Type_ a' = Alert.Type_ a ->
             of_type ty (Save_alert a' db) = of_type ty db).
  { intros a a' HFirst Hid Htype.
    apply AlertTable.First_Some in HFirst. destruct HFirst as [Hin Hcond].
    destruct (AlertTable.Save_alert_splits a a' db Hkeys Hin Hid)
      as (before & after & Hdb & Hdb').
    unfold of_type. rewrite Hdb, Hdb', !List.filter_app. simpl.
    rewrite Htype.
    unfold type_and_status in Hcond. apply andb_true_iff in Hcond.
    destruct Hcond as [Hk _]. apply String.eqb_eq in Hk. rewrite Hk, Hneq.
    reflexivity. }
  unfold check_kind.
  destruct (F64.gtb v (F64.of_int threshold));
    destruct (First (type_and_status (type_name k) "active") db) as [a|] eqn:HFirst;
    try reflexivity.
  - apply (Hsave a); [reflexivity | reflexivity | reflexivity].
  - unfold of_type. cbn [Create_log Create_alert alerts].
    rewrite List.filter_app. simpl. rewrite Hneq. apply app_nil_r.
  - unfold of_type at 1. cbn [Create_log alerts].
    apply (Hsave a); reflexivity.
Qed.

(** X4. [CheckAlerts] never touches an alert whose type is not cpu, memory
    or disk. *)
Theorem CheckAlerts_other_types cfg now metrics db ty :
  keys_unique db ->
  ty <> "cpu"%string -> ty <> "memory"%string -> ty <> "disk"%string ->
  of_type ty (fst (CheckAlerts cfg now metrics db)) = of_type ty db.
Proof.
  intros Hkeys Hcpu Hmem Hdisk. unfold CheckAlerts. cbn [fst].
  rewrite check_kind_other_types;
    [|repeat apply AlertTable.check_kind_keys_unique; exact Hkeys | exact Hdisk].
  rewrite check_kind_other_types;
    [|repeat apply AlertTable.check_kind_keys_unique; exact Hkeys | exact Hmem].
  apply check_kind_other_types; assumption.
Qed.

Lemma CheckAlerts_other_types_witness :
  of_type "service"
    (fst (CheckAlerts scenario.cfg (15 * GoTime.Second) (scenario.metrics_cpu 90)
            scenario_more.store_with_service_alert))
  = of_type "service" scenario_more.store_with_service_alert.
Proof.
  apply (CheckAlerts_other_types scenario.cfg (15 * GoTime.Second)
           (scenario.metrics_cpu 90) scenario_more.store_with_service_alert "service").
  - unfold keys_unique. simpl. apply NoDup_cons. split.
    + intros Hin. apply list_elem_of_In in Hin. simpl in Hin.
      destruct Hin as [Hin|[]]. discriminate.
    + apply NoDup_singleton.
  - discriminate.
  - discriminate.
  - discriminate.
Defined.

Lemma check_kind_keeps_rows k v threshold now db :
  exists added,
    map Alert.ID (alerts (check_kind k v threshold now db))
      = map Alert.ID (alerts db) ++ added
    /\ (length added <= 1)%nat.
Proof.
  unfold check_kind.
  destruct (F64.gtb v (F64.of_int threshold));
    destruct (First (type_and_status (type_name k) "active") db) as [a|].
  - exists []. rewrite AlertTable.Save_alert_keys, app_nil_r. split; [reflexivity|simpl; lia].
  - eexists [_]. cbn [Create_log Create_alert alerts]. rewrite map_app.
    split; [reflexivity | simpl; lia].
  - exists []. cbn [Create_log alerts].
    rewrite AlertTable.Save_alert_keys, app_nil_r. split; [reflexivity|simpl; lia].
  - exists []. rewrite app_nil_r. split; [reflexivity|simpl; lia].
Qed.

(** X5. [CheckAlerts] never deletes an alert row and never changes a key: the
    keys after the call are the keys before it, in the same order,
    followed by those of at most three new rows. *)
Theorem CheckAlerts_keeps_rows cfg now metrics db :
  exists added,
    map Alert.ID (alerts (fst (CheckAlerts cfg now metrics db)))
      = map Alert.ID (alerts db) ++ added
    /\ (length added <= 3)%nat.
Proof.
  unfold CheckAlerts. cbn [fst].
  set (db1 := check_kind kind_cpu _ _ now db).
  set (db2 := check_kind kind_memory _ _ now db1).
  destruct (check_kind_keeps_rows kind_disk (SystemMetrics.Disk metrics)
              (config.AlertDisk cfg) now db2) as (a3 & H3 & L3).
  destruct (check_kind_keeps_rows kind_memory (SystemMetrics.Memory metrics)
              (config.AlertMemory cfg) now db1) as (a2 & H2 & L2).
  destruct (check_kind_keeps_rows kind_cpu (SystemMetrics.CPU metrics)
              (config.AlertCPU cfg) now db) as (a1 & H1 & L1).
  exists (a1 ++ a2 ++ a3). fold db1 in H1. fold db2 in H2.
  rewrite H3, H2, H1, <- !app_assoc. split; [reflexivity|].
  rewrite !length_app. lia.
Qed.
End AlertTransitions.

(** ** The sampling job of the scheduler *)

Module SamplingJob.
Import models database monitor alerts scheduler.

Lemma check_kind_metrics k v threshold now db :
  system_metrics (check_kind k v threshold now db) = system_metrics db.
Proof.
  unfold check_kind.
  destruct (F64.gtb v (F64.of_int threshold));
    destruct (First (type_and_status (type_name k) "active") db); reflexivity.
Qed.

Lemma CheckAlerts_metrics cfg now metrics db :
  system_metrics (fst (CheckAlerts cfg now metrics db)) = system_metrics db.
Proof. unfold CheckAlerts. cbn [fst]. now rewrite !check_kind_metrics. Qed.

(** What one run of the job does to the store and sends to the Hub. *)
Lemma collectSystemMetrics_unfolds cfg env write_error now s :
  collectSystemMetrics cfg env write_error now s =
    let sm := fst (CollectSystemMetrics (sysMon s) env) in
    let metrics := fst (snd (CollectSystemMetrics (sysMon s) env)) in
    match write_error with
    | Some _ => ({| sysMon := sm; DB := DB s |}, [])
    | None =>
        let stored := Create_metrics now metrics (DB s) in
        ({| sysMon := sm;
            DB := fst (CheckAlerts cfg now (fst stored) (snd stored)) |},
         websocket.BroadcastSystemMetrics (fst stored))
    end.
Proof.
  unfold collectSystemMetrics.
  rewrite Collect.CollectSystemMetrics_record. cbn [fst snd].
  destruct write_error as [e|]; [reflexivity|].
  unfold SaveMetrics.
  destruct (Create_metrics now _ (DB s)) as [stored db] eqn:Hc. cbn [fst snd].
  destruct (CheckAlerts cfg now stored db) as [db' err]. reflexivity.
Qed.

(** X6. When the write of the record succeeds, the job appends exactly one
    row to the metrics table, under a new key, and what it sends to the
    Hub is that stored row, key and stamps included. *)
Theorem published_row_is_stored_row cfg env now s :
  exists row,
    system_metrics (DB (fst (collectSystemMetrics cfg env None now s)))
      = system_metrics (DB s) ++ [row]
    /\ ~ In (SystemMetrics.ID row) (map SystemMetrics.ID (system_metrics (DB s)))
    /\ SystemMetrics.CreatedAt row = now
    /\ snd (collectSystemMetrics cfg env None now s)
       = websocket.BroadcastSystemMetrics row.
Proof.
  rewrite collectSystemMetrics_unfolds. cbn zeta. cbn [fst snd DB].
  eexists. rewrite CheckAlerts_metrics. unfold Create_metrics. cbn [fst snd system_metrics].
  split; [reflexivity|]. split; [|split; reflexivity].
  cbn [SystemMetrics.ID]. intros Hin.
  assert (Habove : forall ids i, In i ids -> i < next_id ids).
  { unfold next_id. induction ids as [|j ids IH]; intros i Hi; [destruct Hi|].
    simpl. destruct Hi as [->|Hi]; [lia|]. specialize (IH i Hi). lia. }
  apply Habove in Hin. lia.
Qed.

(** X7. When the write of the record fails, the job stops: the store is left
    as it was, no alert is evaluated and nothing is sent to the Hub; the
    network baseline of the monitor has advanced all the same. *)
Theorem failed_save_stops_the_job cfg env e now s :
  DB (fst (collectSystemMetrics cfg env (Some e) now s)) = DB s
  /\ snd (collectSystemMetrics cfg env (Some e) now s) = []
  /\ sysMon (fst (collectSystemMetrics cfg env (Some e) now s))
     = fst (getNetworkSpeed (sysMon s) (net_IOCounters env) (net_clock env)).
Proof.
  rewrite collectSystemMetrics_unfolds. cbn zeta. cbn [fst snd DB sysMon].
  rewrite Collect.CollectSystemMetrics_record. repeat split; reflexivity.
Qed.

Lemma collectSystemMetrics_alert_invariant cfg env write_error now s kind :
  keys_unique (DB s) -> at_most_one_active kind (DB s) ->
  keys_unique (DB (fst (collectSystemMetrics cfg env write_error now s)))
  /\ at_most_one_active kind (DB (fst (collectSystemMetrics cfg env write_error now s))).
Proof.
  intros Hkeys Hone. rewrite collectSystemMetrics_unfolds. cbn zeta.
  destruct write_error as [e|]; cbn [fst DB]; [split; assumption|].
  set (stored := Create_metrics now _ (DB s)).
  assert (Halerts : alerts (snd stored) = alerts (DB s)) by reflexivity.
  assert (Hkeys' : keys_unique (snd stored)).
  { unfold keys_unique. rewrite Halerts. exact Hkeys. }
  assert (Hone' : at_most_one_active kind (snd stored)).
  { unfold at_most_one_active, active_of. rewrite Halerts. exact Hone. }
  unfold CheckAlerts. cbn [fst]. split.
  - repeat apply AlertTable.check_kind_keys_unique. exact Hkeys'.
  - repeat (apply AlertTable.check_kind_at_most_one;
            [repeat apply AlertTable.check_kind_keys_unique; exact Hkeys'|]).
    exact Hone'.
Qed.

End SamplingJob.

(** ** Registering, unregistering and the order of delivery *)

Module HubLife.
Import websocket fanout connection.

(** X9. The Hub takes an Unregister without a panic; the client is then out
    of the set, with its queue closed if it was in the set; no other
    client changes; and a second Unregister of the same client, or the
    Unregister of a client that a full queue already removed, changes
    nothing: a queue is never closed twice. *)
Theorem unregister_is_safe h order client :
  wf h ->
  exists h',
    Run_case order (Unregister client) h = Some h'
    /\ wf h'
    /\ Clients h' !! client = None
    /\ (forall c, is_Some (Clients h !! client) -> mem h !! client = Some c ->
                  mem h' !! client = Some (shut c))
    /\ (Clients h !! client = None -> h' = h)
    /\ (forall other, other <> client -> same h h' other)
    /\ Run_case order (Unregister client) h' = Some h'.
Proof.
  intros Hwf. unfold Run_case.
  destruct (Clients h !! client) as [b|] eqn:HC.
  - destruct (Hwf client) as (c & Hc & Hopen); [rewrite HC; eauto|].
    rewrite Hc. unfold close. rewrite Hopen.
    eexists. split; [reflexivity|]. cbn [Clients mem].
    split; [|split; [apply lookup_delete_eq|split; [|split; [discriminate|split]]]].
    + intros q Hq. cbn [Clients mem] in *.
      destruct (decide (q = client)) as [->|Hne].
      * rewrite lookup_delete_eq in Hq. destruct Hq; discriminate.
      * rewrite lookup_delete_ne in Hq by congruence.
        rewrite lookup_insert_ne by congruence. apply Hwf. exact Hq.
    + intros c' _ Hc'. inversion Hc'; subst c'. apply lookup_insert_eq.
    + intros other Hne. unfold same. cbn [Clients mem].
      split; [apply lookup_delete_ne | apply lookup_insert_ne]; congruence.
    + rewrite lookup_delete_eq. reflexivity.
  - exists h. rewrite HC.
    split; [reflexivity|]. split; [exact Hwf|]. split; [reflexivity|].
    split; [intros c [b Hb]; discriminate|]. split; [reflexivity|].
    split; [intros other _; split; reflexivity | reflexivity].
Qed.

Lemma unregister_is_safe_witness :
  exists h',
    Run_case [] (Unregister sample_hub.slow) sample_hub.hub = Some h'
    /\ wf h'
    /\ Clients h' !! sample_hub.slow = None
    /\ (forall c, is_Some (Clients sample_hub.hub !! sample_hub.slow) ->
                  mem sample_hub.hub !! sample_hub.slow = Some c ->
                  mem h' !! sample_hub.slow = Some (shut c))
    /\ (Clients sample_hub.hub !! sample_hub.slow = None -> h' = sample_hub.hub)
    /\ (forall other, other <> sample_hub.slow -> same sample_hub.hub h' other)
    /\ Run_case [] (Unregister sample_hub.slow) h' = Some h'.
Proof.
  apply (unregister_is_safe sample_hub.hub [] sample_hub.slow).
  exact HubClaims.sample_hub_wf.
Defined.

Lemma outcome_determines m h h1 h2 client :
  outcome m h h1 client -> outcome m h h2 client ->
  Clients h1 !! client = Clients h2 !! client
  /\ mem h1 !! client = mem h2 !! client.
Proof.
  unfold outcome, same.
  destruct (Clients h !! client), (mem h !! client);
    try (intros [-> ->] [-> ->]; split; reflexivity).
  destruct (has_room c); intros [-> ->] [-> ->]; split; reflexivity.
Qed.

(** X10. The Hub after a publish does not depend on the order in which the
    range visits the clients. *)
Theorem broadcast_order_irrelevant h order order' m :
  wf h -> order ≡ₚ registered h -> order' ≡ₚ registered h ->
  Run_case order (Broadcast m) h = Run_case order' (Broadcast m) h.
Proof.
  intros Hwf Hp Hp'.
  destruct (HubFacts.publish_outcome m order h Hwf Hp) as (h1 & -> & _ & H1).
  destruct (HubFacts.publish_outcome m order' h Hwf Hp') as (h2 & -> & _ & H2).
  f_equal. destruct h1 as [C1 M1], h2 as [C2 M2].
  f_equal; apply map_eq; intros client;
    destruct (outcome_determines m h _ _ client (H1 client) (H2 client)) as [HC HM];
    assumption.
Qed.

Lemma sample_hub_registered :
  registered sample_hub.hub = [sample_hub.slow; sample_hub.fast].
Proof. by_evaluation. Qed.

Lemma broadcast_order_irrelevant_witness :
  Run_case [sample_hub.fast; sample_hub.slow]
    (Broadcast (sample_hub.metrics_message 2)) sample_hub.hub
  = Run_case [sample_hub.slow; sample_hub.fast]
      (Broadcast (sample_hub.metrics_message 2)) sample_hub.hub.
Proof.
  apply (broadcast_order_irrelevant sample_hub.hub
           [sample_hub.fast; sample_hub.slow] [sample_hub.slow; sample_hub.fast]
           (sample_hub.metrics_message 2)).
  - exact HubClaims.sample_hub_wf.
  - rewrite sample_hub_registered. apply perm_swap.
  - rewrite sample_hub_registered. reflexivity.
Defined.
(** What one publish does at a registered client, in a run. *)
Lemma publish_step m h h1 :
  wf h -> step h (HubTakes (Broadcast m)) h1 ->
  wf h1 /\ forall client, outcome m h h1 client.
Proof.
  intros Hwf Hstep.
  inversion Hstep as [h0 req h0' Hhub|]; subst.
  inversion Hhub as [h0 req order h0' Hperm Hrun]; subst.
  destruct (HubFacts.publish_outcome m order h Hwf Hperm) as (h' & Hrun' & Hwf' & Hout).
  rewrite Hrun in Hrun'. inversion Hrun'; subst h'. split; assumption.
Qed.

Lemma publish_step_exists m h :
  wf h -> exists h1, step h (HubTakes (Broadcast m)) h1.
Proof.
  intros Hwf.
  destruct (HubFacts.publish_outcome m (registered h) h Hwf (reflexivity _))
    as (h1 & Hrun & _).
  exists h1. apply step_hub. eapply hub_step_intro; [reflexivity | exact Hrun].
Qed.

Lemma publishes_run_exists msgs : forall h,
  wf h -> exists h', run h (publishes msgs) h'.
Proof.
  induction msgs as [|m msgs IH]; intros h Hwf.
  - exists h. apply run_nil.
  - destruct (publish_step_exists m h Hwf) as (h1 & Hstep).
    destruct (publish_step m h h1 Hwf Hstep) as [Hwf1 _].
    destruct (IH h1 Hwf1) as (h' & Hrun).
    exists h'. simpl. eapply run_cons; eassumption.
Qed.

Lemma enqueue_all_cons m msgs c :
  enqueue_all msgs (enqueue m c) = enqueue_all (m :: msgs) c.
Proof.
  unfold enqueue_all, enqueue, set_Send. cbn [Send buf cap ID Socket].
  rewrite <- app_assoc. reflexivity.
Qed.

(** X11. First in, first out: a registered client whose queue has room for
    all of [msgs] has them, after they were published one after the
    other, at the back of its queue in the order of publication, and is
    still registered. *)
Theorem delivery_in_order msgs : forall h client c b,
  wf h -> still_in h client c b ->
  (length (buf (Send c)) + length msgs <= cap (Send c))%nat ->
  (exists h', run h (publishes msgs) h')
  /\ forall h', run h (publishes msgs) h' ->
       still_in h' client (enqueue_all msgs c) b.
Proof.
  induction msgs as [|m msgs IH]; intros h client c b Hwf [HC HM] Hroom.
  - split; [exists h; apply run_nil|].
    intros h' Hrun. inversion Hrun; subst. split; [exact HC|].
    rewrite HM. f_equal. unfold enqueue_all, set_Send. rewrite app_nil_r.
    destruct (Hwf client) as (c' & Hc' & Hopen); [rewrite HC; eauto|].
    rewrite HM in Hc'. inversion Hc'; subst c'.
    destruct c as [id sock [bf cp cl]]. simpl in *. subst cl. reflexivity.
  - split; [apply publishes_run_exists; exact Hwf|].
    intros h' Hrun. simpl in Hrun.
    inversion Hrun as [|? ? h1 ? ? Hstep Hrest]; subst.
    destruct (publish_step m h h1 Hwf Hstep) as [Hwf1 Hout].
    specialize (Hout client). unfold outcome in Hout. rewrite HC, HM in Hout.
    assert (Hhas : has_room c = true).
    { unfold has_room. apply Nat.ltb_lt. simpl in Hroom. lia. }
    rewrite Hhas in Hout.
    destruct (IH h1 client (enqueue m c) b Hwf1 Hout) as [_ Hall].
    { unfold enqueue, set_Send. cbn [Send buf cap]. rewrite length_app.
      simpl in *. lia. }
    rewrite <- enqueue_all_cons. apply Hall. exact Hrest.
Qed.

Lemma delivery_in_order_witness :
  (exists h', run sample_hub.hub
                (publishes [sample_hub.metrics_message 2; sample_hub.metrics_message 3]) h')
  /\ forall h',
       run sample_hub.hub
         (publishes [sample_hub.metrics_message 2; sample_hub.metrics_message 3]) h' ->
       still_in h' sample_hub.fast
         (enqueue_all [sample_hub.metrics_message 2; sample_hub.metrics_message 3]
            sample_hub.fast_client) true.
Proof.
  apply (delivery_in_order
           [sample_hub.metrics_message 2; sample_hub.metrics_message 3]
           sample_hub.hub sample_hub.fast sample_hub.fast_client true).
  - exact HubClaims.sample_hub_wf.
  - split; reflexivity.
  - simpl. lia.
Defined.

(** A client that is out of the set stays out, and its memory is not
    touched, whatever is published. *)
Lemma publishes_leave_dropped msgs : forall h client,
  wf h -> Clients h !! client = None ->
  forall h', run h (publishes msgs) h' ->
    Clients h' !! client = None /\ mem h' !! client = mem h !! client.
Proof.
  induction msgs as [|m msgs IH]; intros h client Hwf HC h' Hrun.
  - inversion Hrun; subst. split; [exact HC | reflexivity].
  - simpl in Hrun. inversion Hrun as [|? ? h1 ? ? Hstep Hrest]; subst.
    destruct (publish_step m h h1 Hwf Hstep) as [Hwf1 Hout].
    specialize (Hout client). unfold outcome in Hout. rewrite HC in Hout.
    destruct Hout as [HC1 HM1]. rewrite HC in HC1.
    destruct (IH h1 client Hwf1 HC1 h' Hrest) as [HC' HM'].
    split; [exact HC' | congruence].
Qed.

(** X12. A client that never drains: of the messages published one after the
    other it gets the first ones, as many as its queue had room for; the
    next publish removes it from the set and closes its queue, and every
    later message is lost to it. *)
Theorem lagging_client_is_dropped msgs : forall h client c b,
  wf h -> still_in h client c b ->
  (length (buf (Send c)) <= cap (Send c))%nat ->
  (cap (Send c) < length (buf (Send c)) + length msgs)%nat ->
  (exists h', run h (publishes msgs) h')
  /\ forall h', run h (publishes msgs) h' ->
       dropped h' client
         (enqueue_all (firstn (cap (Send c) - length (buf (Send c))) msgs) c).
Proof.
  induction msgs as [|m msgs IH]; intros h client c b Hwf [HC HM] Hle Hover.
  - simpl in Hover. lia.
  - split; [apply publishes_run_exists; exact Hwf|].
    intros h' Hrun. simpl in Hrun.
    inversion Hrun as [|? ? h1 ? ? Hstep Hrest]; subst.
    destruct (publish_step m h h1 Hwf Hstep) as [Hwf1 Hout].
    specialize (Hout client). unfold outcome in Hout. rewrite HC, HM in Hout.
    destruct (Hwf client) as (c' & Hc' & Hopen); [rewrite HC; eauto|].
    rewrite HM in Hc'. inversion Hc'; subst c'.
    destruct (has_room c) eqn:Hhas; unfold has_room in Hhas.
    + apply Nat.ltb_lt in Hhas.
      destruct (IH h1 client (enqueue m c) b Hwf1 Hout) as [_ Hall].
      { unfold enqueue, set_Send. cbn [Send buf cap]. rewrite length_app.
        simpl. lia. }
      { unfold enqueue, set_Send. cbn [Send buf cap]. rewrite length_app.
        simpl in *. lia. }
      specialize (Hall h' Hrest).
      replace (cap (Send c) - length (buf (Send c)))%nat
        with (S (cap (Send (enqueue m c)) - length (buf (Send (enqueue m c)))))%nat.
      * simpl firstn. rewrite <- enqueue_all_cons. exact Hall.
      * unfold enqueue, set_Send. cbn [Send buf cap]. rewrite length_app. simpl. lia.
    + apply Nat.ltb_ge in Hhas.
      replace (cap (Send c) - length (buf (Send c)))%nat with 0%nat by lia.
      simpl firstn. destruct Hout as [HC1 HM1].
      destruct (publishes_leave_dropped msgs h1 client Hwf1 HC1 h' Hrest) as [HC' HM'].
      split; [exact HC'|]. rewrite HM', HM1. f_equal.
      unfold shut, enqueue_all, set_Send. cbn [Send buf cap ID Socket].
      rewrite app_nil_r. reflexivity.
Qed.

Lemma lagging_client_is_dropped_witness :
  (exists h', run sample_hub.hub (publishes sample_hub.published) h')
  /\ forall h', run sample_hub.hub (publishes sample_hub.published) h' ->
       dropped h' sample_hub.fast
         (enqueue_all
            (firstn (cap (Send sample_hub.fast_client)
                     - length (buf (Send sample_hub.fast_client)))
               sample_hub.published)
            sample_hub.fast_client).
Proof.
  apply (lagging_client_is_dropped sample_hub.published sample_hub.hub
           sample_hub.fast sample_hub.fast_client true).
  - exact HubClaims.sample_hub_wf.
  - split; reflexivity.
  - simpl. lia.
  - simpl. lia.
Defined.

(** X13. A connection that comes and goes: a client allocated and registered
    by [ServeWebSocket] and then unregistered leaves the set of the Hub
    as it was before, with the client's queue closed, and the Hub
    well-formed. *)
Theorem connect_then_disconnect h id client order order' :
  wf h -> mem h !! client = None ->
  exists h1 h2,
    Run_case order (snd (ServeWebSocket id client h))
      (fst (ServeWebSocket id client h)) = Some h1
    /\ wf h1 /\ still_in h1 client (new_client id) true
    /\ Run_case order' (Unregister client) h1 = Some h2
    /\ wf h2
    /\ Clients h2 = Clients h
    /\ mem h2 = <[client := shut (new_client id)]> (mem h).
Proof.
  intros Hwf Hfresh.
  assert (HnotC : Clients h !! client = None).
  { destruct (Clients h !! client) as [b|] eqn:HC; [|reflexivity].
    destruct (Hwf client) as (c & Hc & _); [rewrite HC; eauto|]. congruence. }
  unfold ServeWebSocket. cbn [fst snd Run_case Clients mem].
  eexists. eexists. split; [reflexivity|].
  assert (Hwf1 : wf {| Clients := <[client := true]> (Clients h);
                       mem := <[client := new_client id]> (mem h) |}).
  { intros q Hq. cbn [Clients mem] in *.
    destruct (decide (q = client)) as [->|Hne].
    - rewrite lookup_insert_eq. eexists. split; reflexivity.
    - rewrite lookup_insert_ne in Hq by congruence.
      rewrite lookup_insert_ne by congruence. apply Hwf. exact Hq. }
  split; [exact Hwf1|].
  split; [split; apply lookup_insert_eq|].
  cbn [Clients mem]. rewrite !lookup_insert_eq. cbn [close new_client Send make_chan closed].
  split; [reflexivity|]. cbn [Clients mem].
  split; [|split].
  - intros q Hq. cbn [Clients mem] in *.
    destruct (decide (q = client)) as [->|Hne].
    + rewrite lookup_delete_eq in Hq. destruct Hq; discriminate.
    + rewrite lookup_delete_ne in Hq by congruence.
      rewrite lookup_insert_ne in Hq by congruence.
      rewrite !lookup_insert_ne by congruence. apply Hwf. exact Hq.
  - apply delete_insert_id. exact HnotC.
  - rewrite insert_insert_eq. reflexivity.
Qed.

Lemma connect_then_disconnect_witness :
  exists h1 h2,
    Run_case [] (snd (ServeWebSocket "c3" 3%positive sample_hub.hub))
      (fst (ServeWebSocket "c3" 3%positive sample_hub.hub)) = Some h1
    /\ wf h1 /\ still_in h1 3%positive (new_client "c3") true
    /\ Run_case [] (Unregister 3%positive) h1 = Some h2
    /\ wf h2
    /\ Clients h2 = Clients sample_hub.hub
    /\ mem h2 = <[3%positive := shut (new_client "c3")]> (mem sample_hub.hub).
Proof.
  apply (connect_then_disconnect sample_hub.hub "c3" 3%positive [] []).
  - exact HubClaims.sample_hub_wf.
  - reflexivity.
Defined.

(** X14. The pump of a client whose queue was closed, on a connection whose
    writes succeed and while the ticker does not fire: it writes every
    queued message to the connection, in order, then the close frame, and
    returns; the queue is then empty. *)
Theorem pump_drains_then_closes : forall queued h client c,
  mem h !! client = Some c ->
  buf (Send c) = queued -> closed (Send c) = true ->
  snd (writePump (S (length queued)) client h) = true
  /\ Clients (fst (writePump (S (length queued)) client h)) = Clients h
  /\ mem (fst (writePump (S (length queued)) client h)) !! client =
       Some {| ID := ID c;
               Socket := Socket c ++ map TextMessage queued ++ [CloseMessage];
               Send := {| buf := []; cap := cap (Send c); closed := true |} |}.
Proof.
  induction queued as [|m rest IH]; intros h client c HM Hbuf Hclosed.
  - simpl. rewrite HM. unfold writePump_recv. rewrite HM, Hbuf, Hclosed.
    cbn [fst snd Clients mem]. split; [reflexivity|]. split; [reflexivity|].
    rewrite lookup_insert_eq. f_equal.
    destruct c as [id sock [bf cp cl]]. simpl in *. subst. reflexivity.
  - change (writePump (S (length (m :: rest))) client h)
      with (match mem h !! client with
            | None => (h, false)
            | Some c =>
                match writePump_recv client h with
                | None => (h, false)
                | Some h' =>
                    match buf (Send c) with
                    | [] => (h', true)
                    | _ :: _ => writePump (S (length rest)) client h'
                    end
                end
            end).
    rewrite HM. unfold writePump_recv. rewrite HM, Hbuf.
    set (h1 := {| Clients := Clients h; mem := _ |}).
    edestruct (IH h1 client) as (Hret & HC & HMem).
    + unfold h1. cbn [mem]. apply lookup_insert_eq.
    + reflexivity.
    + cbn [Send closed]. exact Hclosed.
    + split; [exact Hret|]. split; [exact HC|].
      rewrite HMem. cbn [ID Socket Send cap]. f_equal. f_equal.
      rewrite <- app_assoc. reflexivity.
Qed.

Lemma pump_drains_then_closes_witness :
  snd (writePump (S (length (buf (Send (shut sample_hub.slow_client)))))
         sample_hub.slow sample_drop.after_drop) = true
  /\ Clients
       (fst (writePump (S (length (buf (Send (shut sample_hub.slow_client)))))
               sample_hub.slow sample_drop.after_drop))
     = Clients sample_drop.after_drop
  /\ mem
       (fst (writePump (S (length (buf (Send (shut sample_hub.slow_client)))))
               sample_hub.slow sample_drop.after_drop)) !! sample_hub.slow =
       Some {| ID := ID (shut sample_hub.slow_client);
               Socket := Socket (shut sample_hub.slow_client)
                         ++ map TextMessage (buf (Send (shut sample_hub.slow_client)))
                         ++ [CloseMessage];
               Send := {| buf := []; cap := cap (Send (shut sample_hub.slow_client));
                          closed := true |} |}.
Proof.
  apply (pump_drains_then_closes (buf (Send (shut sample_hub.slow_client)))
           sample_drop.after_drop sample_hub.slow (shut sample_hub.slow_client));
    reflexivity.
Defined.
End HubLife.

(** ** The secondary collections *)

Module Secondary.
Import monitor monitor_more models_more spec.

(** The loop of [CollectDiskUsage] from any accumulator. *)
Lemma disk_usage_loop usage now partitions : forall acc,
  map DiskUsage.Usage (fold_left (disk_usage_iter usage now) partitions acc)
    = map DiskUsage.Usage acc
      ++ map F64.round2 (successful_usage usage partitions)
  /\ length (fold_left (disk_usage_iter usage now) partitions acc)
     = (length acc + length (successful_usage usage partitions))%nat
  /\ (Forall (fun row => DiskUsage.Timestamp row = now /\ DiskUsage.ID row = 0) acc ->
      Forall (fun row => DiskUsage.Timestamp row = now /\ DiskUsage.ID row = 0)
             (fold_left (disk_usage_iter usage now) partitions acc)).
Proof.
  induction partitions as [|p rest IH]; intros acc; simpl.
  - rewrite !app_nil_r. split; [reflexivity|]. split; [lia | exact (fun H => H)].
  - unfold disk_usage_iter at 2 4 6.
    destruct (usage (disk.Mountpoint p)) as [u|e]; simpl.
    + destruct (IH (acc ++ [disk_row now p u])) as (Hu & Hl & Hf).
      rewrite Hu, Hl, map_app, length_app, <- app_assoc. simpl.
      split; [reflexivity|]. split; [lia|].
      intros Hacc. apply Hf. apply Forall_app. split; [exact Hacc|].
      constructor; [split; reflexivity | constructor].
    + apply IH.
Qed.

(** X15. [CollectDiskUsage] fails only when the listing fails. Otherwise it
    returns one row for each partition whose usage lookup succeeds, in
    the order of the listing, with the used-percent rounded to two
    decimals: these are the partitions that [CollectSystemMetrics]
    counts for its mean. Every row carries the time of the call and no
    key yet. *)
Theorem CollectDiskUsage_rows partitions usage now :
  exists rows,
    CollectDiskUsage (Ok partitions) usage now = Ok rows
    /\ map DiskUsage.Usage rows = map F64.round2 (successful_usage usage partitions)
    /\ Z.of_nat (length rows) = snd (disk_loop usage partitions)
    /\ Forall (fun row => DiskUsage.Timestamp row = now /\ DiskUsage.ID row = 0) rows.
Proof.
  eexists. split; [reflexivity|].
  destruct (disk_usage_loop usage now partitions []) as (Hu & Hl & Hf).
  split; [exact Hu|]. split.
  - rewrite Hl, Collect.disk_loop_mean. reflexivity.
  - apply Hf. constructor.
Qed.

Example CollectDiskUsage_sample :
  CollectDiskUsage (Err sample_env.failing) sample_env.usage 7 = Err sample_env.failing
  /\ (exists rows,
        CollectDiskUsage
          (Ok [sample_env.root_fs; sample_env.cdrom; sample_env.data_fs])
          sample_env.usage 7 = Ok rows
        /\ map DiskUsage.Path rows = ["/"%string; "/data"%string]
        /\ map DiskUsage.Usage rows = [40%float; 65.5%float]).
Proof. split; [reflexivity|]. eexists. by_evaluation. Qed.

Lemma traffic_loop_not_negative sm now netStats : forall acc,
  Forall speeds_not_negative acc -> Forall speeds_not_negative (fold_left (traffic_iter sm now) netStats acc).
Proof.
  induction netStats as [|stat rest IH]; intros acc Hacc; [exact Hacc|].
  simpl. apply IH. unfold traffic_iter.
  destruct (lastNetworkStats sm !! net.Name stat) as [lastStat|].
  - destruct (F64.gtb (timeDiff sm now) 0) eqn:Hdt.
    + apply Forall_app. split; [exact Hacc|].
      constructor; [|constructor].
      split; cbn [NetworkTraffic.UploadSpeed NetworkTraffic.DownloadSpeed];
        exact (NetworkSpeed.rate_not_negative _ _ Hdt).
    + apply Forall_app. split; [exact Hacc|].
      constructor; [split; reflexivity | constructor].
  - apply Forall_app. split; [exact Hacc|].
    constructor; [split; reflexivity | constructor].
Qed.

(** Over a positive elapsed time, the rate of any byte count has its
    sign bit clear. *)
Lemma rate_sign_clear delta dt :
  F64.gtb dt 0 = true -> spec.not_negative (spec.rate_MBps delta dt).
Proof.
  intros Hdt. unfold spec.rate_MBps.
  apply FloatSign.round2_not_negative. apply FloatSign.div_not_negative.
  - apply FloatSign.of_uint64_not_negative.
  - apply FloatSign.mul_not_negative; [reflexivity|].
    apply FloatSign.gtb_not_negative. exact Hdt.
Qed.

Lemma traffic_loop_sign_clear sm now netStats : forall acc,
  Forall (fun row => spec.not_negative (NetworkTraffic.UploadSpeed row)
                     /\ spec.not_negative (NetworkTraffic.DownloadSpeed row)) acc ->
  Forall (fun row => spec.not_negative (NetworkTraffic.UploadSpeed row)
                     /\ spec.not_negative (NetworkTraffic.DownloadSpeed row))
         (fold_left (traffic_iter sm now) netStats acc).
Proof.
  induction netStats as [|stat rest IH]; intros acc Hacc; [exact Hacc|].
  simpl. apply IH. unfold traffic_iter.
  destruct (lastNetworkStats sm !! net.Name stat) as [lastStat|].
  - destruct (F64.gtb (timeDiff sm now) 0) eqn:Hdt.
    + apply Forall_app. split; [exact Hacc|].
      constructor; [|constructor].
      split; cbn [NetworkTraffic.UploadSpeed NetworkTraffic.DownloadSpeed];
        exact (rate_sign_clear _ _ Hdt).
    + apply Forall_app. split; [exact Hacc|].
      constructor; [split; vm_compute; reflexivity | constructor].
  - apply Forall_app. split; [exact Hacc|].
    constructor; [split; vm_compute; reflexivity | constructor].
Qed.

(** X16. [CollectNetworkTraffic] never reports a speed below zero, whatever
    the counters, the stored samples and the clock: no upload or download
    speed is a negative number, the negative zero or the negative
    infinity (its sign bit is clear, unless it is not a number), and no
    speed compares below 0. *)
Theorem CollectNetworkTraffic_not_negative sm netStats now :
  exists rows,
    CollectNetworkTraffic sm (Ok netStats) now = Ok rows
    /\ Forall (fun row =>
                 spec.not_negative (NetworkTraffic.UploadSpeed row)
                 /\ spec.not_negative (NetworkTraffic.DownloadSpeed row)) rows
    /\ Forall speeds_not_negative rows.
Proof.
  eexists. split; [reflexivity|]. split.
  - apply (traffic_loop_sign_clear sm now netStats []). constructor.
  - apply (traffic_loop_not_negative sm now netStats []). constructor.
Qed.

Lemma traffic_loop_rows sm now netStats : forall acc,
  map NetworkTraffic.Interface (fold_left (traffic_iter sm now) netStats acc)
    = map NetworkTraffic.Interface acc ++ map net.Name netStats
  /\ map NetworkTraffic.Upload (fold_left (traffic_iter sm now) netStats acc)
     = map NetworkTraffic.Upload acc ++ map net.BytesSent netStats
  /\ map NetworkTraffic.Download (fold_left (traffic_iter sm now) netStats acc)
     = map NetworkTraffic.Download acc ++ map net.BytesRecv netStats.
Proof.
  induction netStats as [|stat rest IH]; intros acc; simpl.
  - rewrite !app_nil_r. repeat split; reflexivity.
  - destruct (IH (traffic_iter sm now acc stat)) as (Hi & Hu & Hd).
    rewrite Hi, Hu, Hd. unfold traffic_iter.
    destruct (match lastNetworkStats sm !! net.Name stat with
              | Some _ => _ | None => _ end) as [up down].
    rewrite !map_app, <- !app_assoc. repeat split; reflexivity.
Qed.

Lemma traffic_loop_zero sm now netStats : forall acc,
  (F64.gtb (timeDiff sm now) 0 = false
   \/ forall stat, In stat netStats -> lastNetworkStats sm !! net.Name stat = None) ->
  Forall (fun row => NetworkTraffic.UploadSpeed row = 0%float
                     /\ NetworkTraffic.DownloadSpeed row = 0%float) acc ->
  Forall (fun row => NetworkTraffic.UploadSpeed row = 0%float
                     /\ NetworkTraffic.DownloadSpeed row = 0%float)
         (fold_left (traffic_iter sm now) netStats acc).
Proof.
  induction netStats as [|stat rest IH]; intros acc Hwhy Hacc; [exact Hacc|].
  simpl. apply IH.
  - destruct Hwhy as [Hdt|Hnew]; [left; exact Hdt|].
    right. intros s Hs. apply Hnew. right. exact Hs.
  - unfold traffic_iter.
    destruct (lastNetworkStats sm !! net.Name stat) as [lastStat|] eqn:Hlast.
    + destruct Hwhy as [Hdt|Hnew].
      * rewrite Hdt. apply Forall_app. split; [exact Hacc|].
        constructor; [split; reflexivity | constructor].
      * rewrite (Hnew stat (or_introl eq_refl)) in Hlast. discriminate.
    + apply Forall_app. split; [exact Hacc|].
      constructor; [split; reflexivity | constructor].
Qed.

(** X17. [CollectNetworkTraffic] returns one row for each interface of the
    reading, in its order, carrying the interface's name and its raw
    byte counters. The speeds of all rows are 0 when the elapsed time is
    not above zero, and when no interface of the reading has a stored
    sample, as on a monitor that has never sampled. *)
Theorem CollectNetworkTraffic_rows sm netStats now :
  exists rows,
    CollectNetworkTraffic sm (Ok netStats) now = Ok rows
    /\ map NetworkTraffic.Interface rows = map net.Name netStats
    /\ map NetworkTraffic.Upload rows = map net.BytesSent netStats
    /\ map NetworkTraffic.Download rows = map net.BytesRecv netStats
    /\ (F64.gtb (timeDiff sm now) 0 = false
        \/ (forall stat, In stat netStats ->
                         lastNetworkStats sm !! net.Name stat = None) ->
        Forall (fun row => NetworkTraffic.UploadSpeed row = 0%float
                           /\ NetworkTraffic.DownloadSpeed row = 0%float) rows).
Proof.
  eexists. split; [reflexivity|].
  destruct (traffic_loop_rows sm now netStats []) as (Hi & Hu & Hd).
  split; [exact Hi|]. split; [exact Hu|]. split; [exact Hd|].
  intros Hwhy. apply traffic_loop_zero; [exact Hwhy | constructor].
Qed.

Example CollectNetworkTraffic_sample :
  CollectNetworkTraffic sample.sm_eth0
    (Ok [sample.stat "eth0" 2098152 3150728; sample.stat "eth1" 10 20])
    sample.two_seconds
  = Ok [{| NetworkTraffic.ID := 0; NetworkTraffic.Interface := "eth0";
           NetworkTraffic.Upload := 2098152; NetworkTraffic.Download := 3150728;
           NetworkTraffic.UploadSpeed := 1; NetworkTraffic.DownloadSpeed := 1.5;
           NetworkTraffic.Timestamp := sample.two_seconds;
           NetworkTraffic.CreatedAt := 0; NetworkTraffic.UpdatedAt := 0 |};
        {| NetworkTraffic.ID := 0; NetworkTraffic.Interface := "eth1";
           NetworkTraffic.Upload := 10; NetworkTraffic.Download := 20;
           NetworkTraffic.UploadSpeed := 0; NetworkTraffic.DownloadSpeed := 0;
           NetworkTraffic.Timestamp := sample.two_seconds;
           NetworkTraffic.CreatedAt := 0; NetworkTraffic.UpdatedAt := 0 |}].
Proof. by_evaluation. Qed.

(** Writing rows that all succeed. *)
Lemma SaveDiskUsage_all now diskUsages : forall table,
  SaveDiskUsage [] now diskUsages table
    = (fold_left (fun t u => Create_disk_usage now u t) diskUsages table, None).
Proof.
  induction diskUsages as [|u rest IH]; intros table; [reflexivity|].
  simpl. apply IH.
Qed.

Lemma writes_length now diskUsages : forall table,
  length (fold_left (fun t u => Create_disk_usage now u t) diskUsages table)
    = (length table + length diskUsages)%nat.
Proof.
  induction diskUsages as [|u rest IH]; intros table; simpl; [lia|].
  rewrite IH. unfold Create_disk_usage. rewrite length_app. simpl. lia.
Qed.

(** X18. [SaveDiskUsage] has no rollback: when the write of the row of index
    [k] is the first to fail, the [k] rows before it are in the table,
    the row and those after it are not, and the error of that write is
    returned. *)
Theorem SaveDiskUsage_stops_at_first_failure now e later : forall k diskUsages table,
  (k < length diskUsages)%nat ->
  SaveDiskUsage (repeat None k ++ Some e :: later) now diskUsages table
    = (fst (SaveDiskUsage [] now (firstn k diskUsages) table), Some e)
  /\ length (fst (SaveDiskUsage (repeat None k ++ Some e :: later) now
                    diskUsages table))
     = (length table + k)%nat.
Proof.
  induction k as [|k IH]; intros diskUsages table Hk.
  - destruct diskUsages as [|u rest]; [simpl in Hk; lia|].
    simpl. split; [reflexivity | lia].
  - destruct diskUsages as [|u rest]; [simpl in Hk; lia|].
    simpl in Hk. simpl.
    destruct (IH rest (Create_disk_usage now u table)) as [Heq Hlen]; [lia|].
    split; [exact Heq|]. rewrite Hlen. unfold Create_disk_usage.
    rewrite length_app. simpl. lia.
Qed.

Lemma SaveDiskUsage_stops_at_first_failure_witness :
  SaveDiskUsage (repeat None 1 ++ Some sample_env.failing :: []) 9
    [disk_row 7 sample_env.root_fs
       {| disk.Total := 5 * GB; disk.Used := 2 * GB; disk.Free := 3 * GB;
          disk.UsedPercent := 40 |};
     disk_row 7 sample_env.data_fs
       {| disk.Total := 9 * GB; disk.Used := 6 * GB; disk.Free := 3 * GB;
          disk.UsedPercent := 65.5 |}] []
    = (fst (SaveDiskUsage [] 9
              (firstn 1
                 [disk_row 7 sample_env.root_fs
                    {| disk.Total := 5 * GB; disk.Used := 2 * GB; disk.Free := 3 * GB;
                       disk.UsedPercent := 40 |};
                  disk_row 7 sample_env.data_fs
                    {| disk.Total := 9 * GB; disk.Used := 6 * GB; disk.Free := 3 * GB;
                       disk.UsedPercent := 65.5 |}]) []),
       Some sample_env.failing)
  /\ length (fst (SaveDiskUsage (repeat None 1 ++ Some sample_env.failing :: []) 9
                    [disk_row 7 sample_env.root_fs
                       {| disk.Total := 5 * GB; disk.Used := 2 * GB;
                          disk.Free := 3 * GB; disk.UsedPercent := 40 |};
                     disk_row 7 sample_env.data_fs
                       {| disk.Total := 9 * GB; disk.Used := 6 * GB;
                          disk.Free := 3 * GB; disk.UsedPercent := 65.5 |}] []))
     = (length (@nil DiskUsage.t) + 1)%nat.
Proof.
  apply (SaveDiskUsage_stops_at_first_failure 9 sample_env.failing [] 1%nat).
  simpl. lia.
Defined.
End Secondary.

(** ** Successive samples of [getNetworkSpeed] *)

Module SuccessiveSamples.
Import monitor spec.

(** X19. The baseline of a sample is the reading of the sample before it. On
    a new monitor the first sample of an interface finds no baseline and
    reports the rate of zero bytes; it stores its reading, and the next
    sample of that interface reports the rate of the byte deltas between
    the two readings over the time between the two calls. *)
Theorem second_sample_uses_first t0 t1 t2 s1 s2 :
  net.Name s2 = net.Name s1 ->
  U64.in_range (net.BytesSent s1) -> U64.in_range (net.BytesSent s2) ->
  U64.in_range (net.BytesRecv s1) -> U64.in_range (net.BytesRecv s2) ->
  F64.eqb (GoTime.Seconds (GoTime.Sub t1 t0)) 0 = false ->
  F64.gtb (GoTime.Seconds (GoTime.Sub t2 t1)) 0 = true ->
  snd (getNetworkSpeed (NewSystemMonitor t0) (Ok [s1]) t1)
    = Ok (rate_MBps 0 (GoTime.Seconds (GoTime.Sub t1 t0)),
          rate_MBps 0 (GoTime.Seconds (GoTime.Sub t1 t0)))
  /\ snd (getNetworkSpeed
            (fst (getNetworkSpeed (NewSystemMonitor t0) (Ok [s1]) t1))
            (Ok [s2]) t2)
     = Ok (rate_MBps (wrapped_delta (net.BytesSent s2) (net.BytesSent s1))
                     (GoTime.Seconds (GoTime.Sub t2 t1)),
           rate_MBps (wrapped_delta (net.BytesRecv s2) (net.BytesRecv s1))
                     (GoTime.Seconds (GoTime.Sub t2 t1))).
Proof.
  intros Hname Hs1 Hs2 Hr1 Hr2 Hdt1 Hdt2.
  rewrite (NetworkSpeed.getNetworkSpeed_computes (NewSystemMonitor t0) [s1] t1)
    by exact Hdt1.
  cbn [fst snd]. split; [reflexivity|].
  set (sm1 := {| lastNetworkStats := _; lastNetworkTime := t1 |}).
  assert (Hdt : timeDiff sm1 t2 = GoTime.Seconds (GoTime.Sub t2 t1)) by reflexivity.
  rewrite NetworkSpeed.getNetworkSpeed_computes
    by (rewrite Hdt; now apply F64_gtb_not_eqb).
  rewrite (NetworkSpeed.net_loop_single _ s1).
  - cbn [snd totalUploadBytes totalDownloadBytes].
    rewrite !NetworkSpeed.U64_sub_wrapped_delta by assumption.
    rewrite !U64_add_zero by (apply NetworkSpeed.wrapped_delta_range; assumption).
    rewrite Hdt. reflexivity.
  - unfold sm1. cbn [lastNetworkStats NewSystemMonitor].
    unfold net_loop. cbn [fold_left]. unfold net_iter. cbn [stats].
    rewrite (lookup_empty (M := gmap string)). cbn [stats].
    rewrite Hname. apply lookup_insert_eq.
Qed.

Lemma second_sample_uses_first_witness :
  snd (getNetworkSpeed (NewSystemMonitor 0) (Ok [sample.stat "all" 1000 5000])
         sample.two_seconds)
    = Ok (rate_MBps 0 (GoTime.Seconds (GoTime.Sub sample.two_seconds 0)),
          rate_MBps 0 (GoTime.Seconds (GoTime.Sub sample.two_seconds 0)))
  /\ snd (getNetworkSpeed
            (fst (getNetworkSpeed (NewSystemMonitor 0)
                    (Ok [sample.stat "all" 1000 5000]) sample.two_seconds))
            (Ok [sample.stat "all" 2098152 3150728]) (2 * sample.two_seconds))
     = Ok (rate_MBps (wrapped_delta (net.BytesSent (sample.stat "all" 2098152 3150728))
                                    (net.BytesSent (sample.stat "all" 1000 5000)))
                     (GoTime.Seconds (GoTime.Sub (2 * sample.two_seconds)
                                        sample.two_seconds)),
           rate_MBps (wrapped_delta (net.BytesRecv (sample.stat "all" 2098152 3150728))
                                    (net.BytesRecv (sample.stat "all" 1000 5000)))
                     (GoTime.Seconds (GoTime.Sub (2 * sample.two_seconds)
                                        sample.two_seconds))).
Proof.
  apply (second_sample_uses_first 0 sample.two_seconds (2 * sample.two_seconds)
           (sample.stat "all" 1000 5000) (sample.stat "all" 2098152 3150728));
    first [ reflexivity | unfold U64.in_range, U64.modulus; simpl; lia ].
Defined.

Example second_sample_value :
  snd (getNetworkSpeed (NewSystemMonitor 0) (Ok [sample.stat "all" 1000 5000])
         sample.two_seconds) = Ok (0%float, 0%float)
  /\ snd (getNetworkSpeed
            (fst (getNetworkSpeed (NewSystemMonitor 0)
                    (Ok [sample.stat "all" 1000 5000]) sample.two_seconds))
            (Ok [sample.stat "all" 2098152 3150728]) (2 * sample.two_seconds))
     = Ok (1%float, 1.5%float).
Proof. by_evaluation. Qed.
End SuccessiveSamples.

(** ** The retention job *)

Module Retention.
Import models models_more database alerts retention.

Lemma I64_wrap_small z : - 2 ^ 63 <= z < 2 ^ 63 -> I64.wrap z = z.
Proof. intros Hz. unfold I64.wrap. rewrite Z.mod_small by lia. lia. Qed.

Lemma I64_wrap_below z : - 2 ^ 64 <= z < - 2 ^ 63 -> I64.wrap z = z + 2 ^ 64.
Proof.
  intros Hz. unfold I64.wrap.
  rewrite <- (Z.mod_add _ 1) by lia. rewrite Z.mod_small by lia. lia.
Qed.

(** Up to [max_hours] the offset is the retention period, negated. *)
Lemma retention_offset_exact h :
  0 <= h <= max_hours -> retention_offset h = - (h * Hour).
Proof.
  unfold max_hours, retention_offset, I64.mul, I64.neg, Hour, GoTime.Second.
  intros Hh. rewrite (I64_wrap_small (- h)) by lia.
  rewrite I64_wrap_small by lia. lia.
Qed.

(** Above it the product leaves the range of a Duration and comes back
    positive. *)
Lemma retention_offset_wraps h :
  max_hours < h <= 5124095 -> retention_offset h = 2 ^ 64 - h * Hour.
Proof.
  unfold max_hours, retention_offset, I64.mul, I64.neg, Hour, GoTime.Second.
  intros Hh. rewrite (I64_wrap_small (- h)) by lia.
  rewrite I64_wrap_below by lia. lia.
Qed.

Lemma Delete_where_In {A : Type} failed (cond : A -> bool) rows r :
  In r (Delete_where failed cond rows) <->
  In r rows /\ (failed = true \/ cond r = false).
Proof.
  unfold Delete_where. destruct failed.
  - split; [intros H; split; [exact H | now left] | intros [H _]; exact H].
  - rewrite List.filter_In. split.
    + intros [Hin Hc]. split; [exact Hin|]. right.
      destruct (cond r); [discriminate | reflexivity].
    + intros [Hin [Hf|Hc]]; [discriminate|]. split; [exact Hin|].
      rewrite Hc. reflexivity.
Qed.

Lemma Delete_where_keeps {A : Type} failed (cond keep : A -> bool) rows :
  (forall r, keep r = true -> cond r = false) ->
  List.filter keep (Delete_where failed cond rows) = List.filter keep rows.
Proof.
  intros Hkeep. unfold Delete_where. destruct failed; [reflexivity|].
  induction rows as [|r rows IH]; [reflexivity|]. simpl.
  destruct (cond r) eqn:Hc; simpl.
  - destruct (keep r) eqn:Hk; [|exact IH].
    rewrite (Hkeep r Hk) in Hc. discriminate.
  - rewrite IH. reflexivity.
Qed.

Lemma Delete_where_keys {A : Type} failed (cond : A -> bool) (key : A -> Z) rows :
  NoDup (map key rows) -> NoDup (map key (Delete_where failed cond rows)).
Proof.
  unfold Delete_where. destruct failed; [exact id|].
  induction rows as [|r rows IH]; intros Hnd; [exact Hnd|].
  simpl in *. apply NoDup_cons in Hnd. destruct Hnd as [Hr Hnd].
  destruct (cond r); simpl; [exact (IH Hnd)|].
  apply NoDup_cons. split; [|exact (IH Hnd)].
  intros Hin. apply Hr. apply list_elem_of_fmap in Hin.
  destruct Hin as (x & Hx & Hin). apply list_elem_of_fmap. exists x.
  split; [exact Hx|]. apply list_elem_of_In in Hin. apply list_elem_of_In.
  apply List.filter_In in Hin. apply Hin.
Qed.

Lemma Delete_where_idempotent {A : Type} failed (cond : A -> bool) rows :
  Delete_where failed cond (Delete_where failed cond rows)
    = Delete_where failed cond rows.
Proof.
  unfold Delete_where. destruct failed; [reflexivity|].
  induction rows as [|r rows IH]; [reflexivity|]. simpl.
  destruct (cond r) eqn:Hc; simpl; [exact IH|]. rewrite Hc. simpl.
  rewrite IH. reflexivity.
Qed.

Lemma active_is_not_resolved before kind cutoff a :
  type_and_status kind "active" a = true -> resolved_before before cutoff a = false.
Proof.
  unfold type_and_status, resolved_before. intros H.
  apply andb_prop in H. destruct H as [_ H]. apply String.eqb_eq in H.
  rewrite H. reflexivity.
Qed.

Lemma unresolved_is_not_resolved before cutoff a :
  negb (String.eqb (Alert.Status a) "resolved") = true ->
  resolved_before before cutoff a = false.
Proof.
  unfold resolved_before. intros H.
  destruct (String.eqb (Alert.Status a) "resolved"); [discriminate | reflexivity].
Qed.

Lemma CleanupOldData_active before cfg clk f t kind :
  active_of kind (core (CleanupOldData before cfg clk f t)) = active_of kind (core t).
Proof.
  unfold active_of, CleanupOldData. cbn [core alerts].
  apply Delete_where_keeps. intros r. apply active_is_not_resolved.
Qed.

(** X20. The job deletes resolved alerts only: the rows of any other status,
    and so the active alerts of every type, are the same before and
    after, whatever the clock, the configuration, the statements that
    fail and the way the store orders times. *)
Theorem CleanupOldData_keeps_unresolved before cfg clk f t :
  List.filter (fun a => negb (String.eqb (Alert.Status a) "resolved"))
              (alerts (core (CleanupOldData before cfg clk f t)))
    = List.filter (fun a => negb (String.eqb (Alert.Status a) "resolved"))
                  (alerts (core t))
  /\ forall kind,
       active_of kind (core (CleanupOldData before cfg clk f t))
       = active_of kind (core t).
Proof.
  split; [|intros kind; apply CleanupOldData_active].
  unfold CleanupOldData. cbn [core alerts].
  apply Delete_where_keeps. intros r. apply unresolved_is_not_resolved.
Qed.

(** X21. The invariants of the alert table survive the job: keys stay unique
    and a type with at most one active alert still has at most one. *)
Theorem CleanupOldData_keeps_alert_invariant before cfg clk f t :
  keys_unique (core t) ->
  (forall kind, at_most_one_active kind (core t)) ->
  keys_unique (core (CleanupOldData before cfg clk f t))
  /\ forall kind, at_most_one_active kind (core (CleanupOldData before cfg clk f t)).
Proof.
  intros Hkeys Hone. split.
  - unfold keys_unique, CleanupOldData in *. cbn [core alerts].
    apply Delete_where_keys. exact Hkeys.
  - intros kind. unfold at_most_one_active.
    rewrite CleanupOldData_active. apply Hone.
Qed.

(** X22. Where the store orders times as the instants are ordered (the
    process runs in a zone whose offset does not change), and with
    [HistoryHours] between 0 and 2562047, a metrics row and a traffic row
    survive a successful delete exactly when they were created no
    earlier than [HistoryHours] hours before the job read the clock. *)
Theorem CleanupOldData_retention before cfg clk f t :
  by_instant before ->
  0 <= config.HistoryHours cfg <= max_hours ->
  metrics_failed f = false -> traffic_failed f = false ->
  (forall m,
     In m (system_metrics (core (CleanupOldData before cfg clk f t))) <->
     In m (system_metrics (core t))
     /\ now_metrics clk - config.HistoryHours cfg * Hour <= SystemMetrics.CreatedAt m)
  /\ (forall n,
        In n (network_traffic (CleanupOldData before cfg clk f t)) <->
        In n (network_traffic t)
        /\ now_metrics clk - config.HistoryHours cfg * Hour
           <= NetworkTraffic.CreatedAt n).
Proof.
  intros Hbefore Hh Hm Hn. unfold CleanupOldData.
  cbn [core system_metrics network_traffic].
  rewrite Hm, Hn, (retention_offset_exact _ Hh). unfold Add.
  split; intros r; rewrite Delete_where_In, Hbefore; split.
  - intros [Hin [Hf|Hc]]; [discriminate|]. split; [exact Hin|].
    apply Z.ltb_ge in Hc. lia.
  - intros [Hin Hc]. split; [exact Hin|]. right. apply Z.ltb_ge. lia.
  - intros [Hin [Hf|Hc]]; [discriminate|]. split; [exact Hin|].
    apply Z.ltb_ge in Hc. lia.
  - intros [Hin Hc]. split; [exact Hin|]. right. apply Z.ltb_ge. lia.
Qed.

Lemma Delete_where_removes {A : Type} (cond gone : A -> bool) rows :
  (forall r, gone r = true -> cond r = true) ->
  List.filter gone (Delete_where false cond rows) = [].
Proof.
  intros Hgone. unfold Delete_where.
  induction rows as [|r rows IH]; [reflexivity|]. simpl.
  destruct (cond r) eqn:Hc; simpl; [exact IH|].
  destruct (gone r) eqn:Hg; [|exact IH].
  rewrite (Hgone r Hg) in Hc. discriminate.
Qed.

(** X23. A retention period above 2562047 hours does not fit a Duration: the
    product wraps to a positive offset and the cutoff lies in the future.
    Where the store orders times as the instants are ordered, a
    successful delete then leaves no metrics row created up to now. *)
Theorem CleanupOldData_long_retention_wraps before cfg clk f t :
  by_instant before ->
  max_hours < config.HistoryHours cfg <= 5124095 ->
  metrics_failed f = false ->
  now_metrics clk
    < Add (now_metrics clk) (retention_offset (config.HistoryHours cfg))
  /\ List.filter (fun m => SystemMetrics.CreatedAt m <=? now_metrics clk)
       (system_metrics (core (CleanupOldData before cfg clk f t))) = [].
Proof.
  intros Hbefore Hh Hm. split.
  - rewrite (retention_offset_wraps _ Hh). unfold Add.
    unfold max_hours, Hour, GoTime.Second in *. lia.
  - unfold CleanupOldData. cbn [core system_metrics].
    rewrite Hm, (retention_offset_wraps _ Hh). unfold Add.
    apply Delete_where_removes. intros r Hr. rewrite Hbefore.
    apply Z.leb_le in Hr. apply Z.ltb_lt.
    unfold max_hours, Hour, GoTime.Second in *. lia.
Qed.

(** X24. Running the job again on the same clock readings changes nothing. *)
Theorem CleanupOldData_idempotent before cfg clk f t :
  CleanupOldData before cfg clk f (CleanupOldData before cfg clk f t)
    = CleanupOldData before cfg clk f t.
Proof.
  unfold CleanupOldData. cbn [core alerts system_logs system_metrics
                              network_traffic process_info].
  rewrite !Delete_where_idempotent. reflexivity.
Qed.

Lemma sample_tables_keys : keys_unique (core sample_retention.tables).
Proof.
  unfold keys_unique. cbn. repeat (apply NoDup_cons; split);
    try apply NoDup_nil_2; rewrite ?list_elem_of_In; cbn; lia.
Qed.

Lemma sample_tables_one_active kind :
  at_most_one_active kind (core sample_retention.tables).
Proof.
  unfold at_most_one_active, active_of. cbn [core alerts sample_retention.tables].
  cbn [List.filter]. unfold type_and_status.
  cbn [Alert.Type_ Alert.Status scenario.cpu_alert scenario_more.service_alert
       sample_retention.old_alert].
  change (String.eqb "active" "active") with true.
  change (String.eqb "resolved" "active") with false.
  rewrite !andb_true_r, andb_false_r.
  destruct (String.eqb "cpu" kind) eqn:Hcpu.
  - apply String.eqb_eq in Hcpu. subst kind. simpl. lia.
  - destruct (String.eqb "service" kind); simpl; lia.
Qed.

Lemma instants_by_instant : by_instant instants.
Proof. intros t u. reflexivity. Qed.

Lemma CleanupOldData_keeps_alert_invariant_witness :
  keys_unique
    (core (CleanupOldData instants scenario.cfg (at_instant sample_retention.now)
             no_failure sample_retention.tables))
  /\ forall kind,
       at_most_one_active kind
         (core (CleanupOldData instants scenario.cfg
                  (at_instant sample_retention.now)
                  no_failure sample_retention.tables)).
Proof.
  apply (CleanupOldData_keeps_alert_invariant instants scenario.cfg
           (at_instant sample_retention.now) no_failure sample_retention.tables).
  - exact sample_tables_keys.
  - exact sample_tables_one_active.
Defined.

Lemma CleanupOldData_retention_witness :
  (forall m,
     In m (system_metrics
             (core (CleanupOldData instants scenario.cfg
                      (at_instant sample_retention.now)
                      no_failure sample_retention.tables))) <->
     In m (system_metrics (core sample_retention.tables))
     /\ now_metrics (at_instant sample_retention.now)
        - config.HistoryHours scenario.cfg * Hour <= SystemMetrics.CreatedAt m)
  /\ (forall n,
        In n (network_traffic
                (CleanupOldData instants scenario.cfg
                   (at_instant sample_retention.now)
                   no_failure sample_retention.tables)) <->
        In n (network_traffic sample_retention.tables)
        /\ now_metrics (at_instant sample_retention.now)
           - config.HistoryHours scenario.cfg * Hour
           <= NetworkTraffic.CreatedAt n).
Proof.
  apply (CleanupOldData_retention instants scenario.cfg
           (at_instant sample_retention.now) no_failure sample_retention.tables);
    [exact instants_by_instant | unfold max_hours; simpl; lia
    | reflexivity | reflexivity].
Defined.

Lemma CleanupOldData_long_retention_wraps_witness :
  now_metrics (at_instant sample_retention.now)
    < Add (now_metrics (at_instant sample_retention.now))
          (retention_offset (config.HistoryHours sample_retention.cfg_long))
  /\ List.filter
       (fun m => SystemMetrics.CreatedAt m
                 <=? now_metrics (at_instant sample_retention.now))
       (system_metrics
          (core (CleanupOldData instants sample_retention.cfg_long
                   (at_instant sample_retention.now) no_failure
                   sample_retention.tables))) = [].
Proof.
  apply (CleanupOldData_long_retention_wraps instants sample_retention.cfg_long
           (at_instant sample_retention.now) no_failure sample_retention.tables);
    [exact instants_by_instant | unfold max_hours; simpl; lia | reflexivity].
Defined.

(** At day 10 with a retention of 24 hours, in a zone of fixed offset:
    the rows of day 1 and the alert resolved on day 0 go, the rows of the
    last hour and the two active alerts stay. *)
Example CleanupOldData_sample :
  map SystemMetrics.ID
      (system_metrics
         (core (CleanupOldData instants scenario.cfg
                  (at_instant sample_retention.now) no_failure
                  sample_retention.tables))) = [2]
  /\ map NetworkTraffic.ID
         (network_traffic
            (CleanupOldData instants scenario.cfg
               (at_instant sample_retention.now) no_failure
               sample_retention.tables)) = [2]
  /\ map Alert.ID
         (alerts
            (core (CleanupOldData instants scenario.cfg
                     (at_instant sample_retention.now) no_failure
                     sample_retention.tables))) = [1; 2].
Proof. by_evaluation. Qed.
End Retention.

(** ** Resolving an alert by hand *)

Module ManualResolve.
Import models database alerts alert_rows api.

Lemma First_by_id_found id db a :
  In a (alerts db) -> Alert.ID a = id ->
  exists a', First_by_id id db = Some a' /\ In a' (alerts db) /\ Alert.ID a' = id.
Proof.
  intros Hin Hid. unfold First_by_id.
  destruct (First (fun r => Alert.ID r =? id) db) as [a'|] eqn:HF.
  - apply AlertTable.First_Some in HF. destruct HF as [Hin' Hc].
    exists a'. split; [reflexivity|]. split; [exact Hin'|].
    apply Z.eqb_eq. exact Hc.
  - apply AlertTable.First_None in HF.
    assert (Hfa : In a (List.filter (fun r => Alert.ID r =? id) (alerts db))).
    { apply List.filter_In. split; [exact Hin|]. apply Z.eqb_eq. exact Hid. }
    rewrite HF in Hfa. destruct Hfa.
Qed.


(** Saving a resolved row takes its key out of the active rows of every
    type and touches no other active row. *)
Lemma Save_resolved_active now a db kind :
  active_of kind (Save_alert (resolved now a) db)
    = List.filter (fun r => negb (Alert.ID r =? Alert.ID a)) (active_of kind db).
Proof.
  unfold active_of, Save_alert. cbn [alerts Alert.ID resolved].
  induction (alerts db) as [|r rows IH]; [reflexivity|]. simpl.
  destruct (Alert.ID r =? Alert.ID a) eqn:E.
  - replace (type_and_status kind "active" (resolved now a)) with false.
    + rewrite IH. destruct (type_and_status kind "active" r); [|reflexivity].
      simpl. rewrite E. reflexivity.
    + unfold type_and_status. cbn [Alert.Status resolved].
      change (String.eqb "resolved" "active") with false.
      rewrite andb_false_r. reflexivity.
  - destruct (type_and_status kind "active" r); [|exact IH].
    simpl. rewrite E, IH. reflexivity.
Qed.

(** X25. The store changes only with the answer 200: after any other answer
    it is as it was. *)
Theorem ResolveAlert_changes_store_only_on_200 id now save_error db :
  fst (ResolveAlert id now save_error db) = db
  \/ fst (snd (ResolveAlert id now save_error db)) = 200.
Proof.
  unfold ResolveAlert. destruct (First_by_id id db); [|now left].
  destruct save_error; [now left | now right].
Qed.



(** X27. A request for the key of a row, whose lookup answers and whose save
    succeeds, is answered with 200; the keys of the table are the same,
    and the active rows of every type are the ones before without that
    key. *)
Theorem ResolveAlert_clears_that_key id now db a :
  In a (alerts db) -> Alert.ID a = id ->
  fst (snd (ResolveAlert id now None db)) = 200
  /\ map Alert.ID (alerts (fst (ResolveAlert id now None db)))
     = map Alert.ID (alerts db)
  /\ forall kind,
       active_of kind (fst (ResolveAlert id now None db))
       = List.filter (fun r => negb (Alert.ID r =? id)) (active_of kind db).
Proof.
  intros Hin Hid. unfold ResolveAlert.
  destruct (First_by_id_found id db a Hin Hid) as (a' & -> & _ & Hid').
  cbn [fst snd]. split; [reflexivity|]. split.
  - apply AlertTable.Save_alert_keys.
  - intros kind. rewrite Save_resolved_active, Hid'. reflexivity.
Qed.

(** X28. The evaluator looks at active rows only: once the one active alert of
    a kind is resolved by hand, the next sample above the threshold
    raises a second alert row, under a new key that is greater than the
    key of the resolved row; the resolved row is not reopened. Which new
    key the store gives is not stated. *)
Theorem resolved_by_hand_is_raised_again k v threshold now now' db a :
  active_of (monitor.type_name k) db = [a] ->
  F64.gtb v (F64.of_int threshold) = true ->
  exists key,
    Alert.ID a < key
    /\ ~ In key (map Alert.ID (alerts db))
    /\ alerts (monitor.check_kind k v threshold now'
                 (fst (ResolveAlert (Alert.ID a) now None db)))
       = alerts (fst (ResolveAlert (Alert.ID a) now None db))
         ++ [raised k v threshold now' key]
    /\ active_of (monitor.type_name k)
         (fst (ResolveAlert (Alert.ID a) now None db)) = [].
Proof.
  intros Hone Habove.
  set (db' := fst (ResolveAlert (Alert.ID a) now None db)).
  assert (Hin : In a (alerts db)).
  { assert (H : In a (active_of (monitor.type_name k) db))
      by (rewrite Hone; now left).
    unfold active_of in H. apply List.filter_In in H. apply H. }
  assert (Hnone : active_of (monitor.type_name k) db' = []).
  { unfold db', ResolveAlert.
    destruct (First_by_id_found (Alert.ID a) db a Hin eq_refl)
      as (a' & -> & _ & Hid').
    cbn [fst]. rewrite Save_resolved_active, Hone, Hid'. simpl.
    rewrite Z.eqb_refl. reflexivity. }
  assert (Hkeys : map Alert.ID (alerts db') = map Alert.ID (alerts db)).
  { unfold db', ResolveAlert.
    destruct (First_by_id_found (Alert.ID a) db a Hin eq_refl)
      as (a' & -> & _ & _).
    cbn [fst]. apply AlertTable.Save_alert_keys. }
  exists (next_id (map Alert.ID (alerts db))).
  split; [apply AlertTable.next_id_above; apply in_map; exact Hin|].
  split; [intros Hk; apply AlertTable.next_id_above in Hk; lia|].
  split; [|exact Hnone].
  unfold monitor.check_kind. rewrite Habove.
  rewrite (AlertTransitions.First_of_none _ db' Hnone).
  cbn [Create_log Create_alert alerts]. rewrite Hkeys. reflexivity.
Qed.

Lemma ResolveAlert_clears_that_key_witness :
  fst (snd (ResolveAlert 1 (20 * GoTime.Second) None
              scenario_more.store_with_service_alert)) = 200
  /\ map Alert.ID (alerts (fst (ResolveAlert 1 (20 * GoTime.Second) None
                                  scenario_more.store_with_service_alert)))
     = map Alert.ID (alerts scenario_more.store_with_service_alert)
  /\ forall kind,
       active_of kind (fst (ResolveAlert 1 (20 * GoTime.Second) None
                              scenario_more.store_with_service_alert))
       = List.filter (fun r => negb (Alert.ID r =? 1))
                     (active_of kind scenario_more.store_with_service_alert).
Proof.
  apply (ResolveAlert_clears_that_key 1 (20 * GoTime.Second)
           scenario_more.store_with_service_alert (scenario.cpu_alert 85 10 "active"));
    [simpl; now left | reflexivity].
Defined.

Lemma resolved_by_hand_is_raised_again_witness :
  exists key,
    Alert.ID (scenario.cpu_alert 85 10 "active") < key
    /\ ~ In key (map Alert.ID (alerts scenario.store_with_alert))
    /\ alerts (monitor.check_kind monitor.kind_cpu 90 80 (25 * GoTime.Second)
                 (fst (ResolveAlert (Alert.ID (scenario.cpu_alert 85 10 "active"))
                         (20 * GoTime.Second) None scenario.store_with_alert)))
       = alerts (fst (ResolveAlert (Alert.ID (scenario.cpu_alert 85 10 "active"))
                        (20 * GoTime.Second) None scenario.store_with_alert))
         ++ [raised monitor.kind_cpu 90 80 (25 * GoTime.Second) key]
    /\ active_of (monitor.type_name monitor.kind_cpu)
         (fst (ResolveAlert (Alert.ID (scenario.cpu_alert 85 10 "active"))
                 (20 * GoTime.Second) None scenario.store_with_alert)) = [].
Proof.
  apply (resolved_by_hand_is_raised_again monitor.kind_cpu 90 80
           (20 * GoTime.Second) (25 * GoTime.Second) scenario.store_with_alert
           (scenario.cpu_alert 85 10 "active")); reflexivity.
Defined.

Example ResolveAlert_sample :
  let r := ResolveAlert 1 (20 * GoTime.Second) None
             scenario_more.store_with_service_alert in
  map Alert.Status (alerts (fst r)) = ["resolved"; "active"]
  /\ fst (snd (ResolveAlert 7 (20 * GoTime.Second) None
                 scenario_more.store_with_service_alert)) = 404
  /\ fst (snd (ResolveAlert 1 (20 * GoTime.Second) (Some "disk full"%string)
                 scenario_more.store_with_service_alert)) = 500.
Proof. by_evaluation. Qed.
End ManualResolve.

(** ** The service checks *)

Module ServiceChecks.
Import service.

Ltac classify :=
  repeat match goal with
         | |- context [if ?c then _ else _] => destruct c eqn:?
         | |- context [match ?d with Some _ => _ | None => _ end] => destruct d
         end.

(** X29. Each of the four checks answers with one of the statuses running,
    warning and error, and returns an error exactly with the status
    error: [CheckAllServices] logs at level error exactly the checks whose
    status is error. *)
Theorem checks_fail_exactly_on_error dial new_request do code elapsed o :
  In o [checkDatabaseService dial elapsed; checkMailService dial elapsed;
        checkStorageService dial elapsed;
        checkWebService new_request do code elapsed] ->
  In (status o) ["running"; "warning"; "error"]
  /\ (status o = "error" <-> err o <> None)
  /\ (log_level o = "error" <-> status o = "error").
Proof.
  unfold checkDatabaseService, checkMailService, checkStorageService,
    checkWebService, log_level.
  intros [<-|[<-|[<-|[<-|[]]]]]; classify; cbn;
    (split; [tauto|]); split; split; intros H;
    first [ reflexivity | discriminate | congruence | exfalso; now apply H ].
Qed.

Lemma Milliseconds_mono d d' : d <= d' -> Milliseconds d <= Milliseconds d'.
Proof. intros H. unfold Milliseconds. apply Z.quot_le_mono; lia. Qed.

Ltac compare_times :=
  repeat match goal with
         | H : (_ <? _) = true |- _ => apply Z.ltb_lt in H
         | H : (_ <? _) = false |- _ => apply Z.ltb_ge in H
         end.

(** X30. A slower answer is never classified better: with the same outcome of
    the connection, the status of each check is at least as severe for a
    longer response time. *)
Theorem slower_is_never_better dial new_request do code elapsed elapsed' :
  elapsed <= elapsed' ->
  (severity (status (checkDatabaseService dial elapsed))
   <= severity (status (checkDatabaseService dial elapsed')))%nat
  /\ (severity (status (checkMailService dial elapsed))
      <= severity (status (checkMailService dial elapsed')))%nat
  /\ (severity (status (checkStorageService dial elapsed))
      <= severity (status (checkStorageService dial elapsed')))%nat
  /\ (severity (status (checkWebService new_request do code elapsed))
      <= severity (status (checkWebService new_request do code elapsed')))%nat.
Proof.
  intros Hle. apply Milliseconds_mono in Hle.
  unfold checkDatabaseService, checkMailService, checkStorageService,
    checkWebService.
  repeat split; classify; cbn; compare_times; lia.
Qed.

Lemma checks_fail_exactly_on_error_witness :
  In (status (checkWebService None None 503 (20 * 1000000)))
     ["running"; "warning"; "error"]
  /\ (status (checkWebService None None 503 (20 * 1000000)) = "error"
      <-> err (checkWebService None None 503 (20 * 1000000)) <> None)
  /\ (log_level (checkWebService None None 503 (20 * 1000000)) = "error"
      <-> status (checkWebService None None 503 (20 * 1000000)) = "error").
Proof.
  apply (checks_fail_exactly_on_error None None None 503 (20 * 1000000)
           (checkWebService None None 503 (20 * 1000000))).
  simpl. tauto.
Defined.

Lemma slower_is_never_better_witness :
  (severity (status (checkDatabaseService None (99 * 1000000)%Z))
   <= severity (status (checkDatabaseService None (120 * 1000000)%Z)))%nat
  /\ (severity (status (checkMailService None (99 * 1000000)%Z))
      <= severity (status (checkMailService None (120 * 1000000)%Z)))%nat
  /\ (severity (status (checkStorageService None (99 * 1000000)%Z))
      <= severity (status (checkStorageService None (120 * 1000000)%Z)))%nat
  /\ (severity (status (checkWebService None None 200 (99 * 1000000)%Z))
      <= severity (status (checkWebService None None 200 (120 * 1000000)%Z)))%nat.
Proof.
  apply (slower_is_never_better None None None 200 (99 * 1000000)%Z (120 * 1000000)%Z).
  lia.
Defined.

(** A page answered in 20 ms with status 503 is an error with its
    response time; a dial answered in 120 ms is a warning. *)
Example checks_sample :
  checkWebService None None 503 (20 * 1000000)
    = ("error", 20, Some (Errorf "HTTP状态码错误: %d" 503))
  /\ checkDatabaseService None (120 * 1000000) = ("warning", 120, None)
  /\ checkDatabaseService (Some "connection refused"%string) (120 * 1000000)
     = ("error", 0, Some (Transport "connection refused")).
Proof. by_evaluation. Qed.
End ServiceChecks.

(** ** The alert evaluator when statements of the store fail *)

Module StoreFaults.
Import models database monitor alerts.

(** With every statement succeeding, the evaluator on the faulty store
    is the evaluator. *)
Lemma check_kind_no_fault k v threshold now db :
  faults.check_kind faults.none k v threshold now db
    = check_kind k v threshold now db.
Proof.
  unfold faults.check_kind, check_kind, faults.First, faults.none.
  cbn [faults.lookup_error faults.create_alert_error faults.save_error
       faults.create_log_error faults.write].
  destruct (F64.gtb v (F64.of_int threshold));
    destruct (First (type_and_status (type_name k) "active") db); reflexivity.
Qed.

Lemma CheckAlerts_no_fault cfg now metrics db :
  faults.CheckAlerts faults.no_faults cfg now metrics db
    = CheckAlerts cfg now metrics db.
Proof.
  unfold faults.CheckAlerts, CheckAlerts, faults.no_faults.
  cbn [faults.cpu faults.memory faults.disk].
  rewrite !check_kind_no_fault. reflexivity.
Qed.

Lemma collectSystemMetrics_no_fault cfg env write_error now s :
  faults.collectSystemMetrics cfg env write_error faults.no_faults now s
    = scheduler.collectSystemMetrics cfg env write_error now s.
Proof.
  unfold faults.collectSystemMetrics, scheduler.collectSystemMetrics.
  destruct (CollectSystemMetrics (scheduler.sysMon s) env) as [sm [metrics err]].
  destruct err; [reflexivity|].
  destruct (SaveMetrics write_error now metrics (scheduler.DB s)) as [[m db]|e];
    [|reflexivity].
  rewrite CheckAlerts_no_fault. reflexivity.
Qed.

(** A block whose lookup answers leaves the alert table as it was, when
    a write of it failed, or as the block does on a store whose
    statements succeed. *)
Lemma check_kind_alerts f k v threshold now db :
  faults.lookup_error f = None ->
  alerts (faults.check_kind f k v threshold now db) = alerts db
  \/ alerts (faults.check_kind f k v threshold now db)
     = alerts (check_kind k v threshold now db).
Proof.
  intros Hlookup. unfold faults.check_kind, check_kind, faults.First.
  rewrite Hlookup.
  destruct (F64.gtb v (F64.of_int threshold));
    destruct (First (type_and_status (type_name k) "active") db);
    destruct (faults.create_alert_error f), (faults.save_error f),
      (faults.create_log_error f);
    cbn [faults.write Create_log alerts];
    first [ now left | now right ].
Qed.

Lemma invariant_of_alerts db db' kind :
  alerts db' = alerts db ->
  (keys_unique db -> keys_unique db')
  /\ (at_most_one_active kind db -> at_most_one_active kind db').
Proof.
  unfold keys_unique, at_most_one_active, active_of. intros ->.
  split; exact id.
Qed.

Lemma check_kind_invariant f k v threshold now db kind :
  faults.lookup_error f = None ->
  keys_unique db -> at_most_one_active kind db ->
  keys_unique (faults.check_kind f k v threshold now db)
  /\ at_most_one_active kind (faults.check_kind f k v threshold now db).
Proof.
  intros Hlookup Hkeys Hone.
  destruct (check_kind_alerts f k v threshold now db Hlookup) as [Heq|Heq];
    destruct (invariant_of_alerts _ _ kind Heq) as [Hk Ho].
  - split; [exact (Hk Hkeys) | exact (Ho Hone)].
  - split.
    + apply Hk. apply AlertTable.check_kind_keys_unique. exact Hkeys.
    + apply Ho. apply AlertTable.check_kind_at_most_one; assumption.
Qed.

(** One call of [CheckAlerts] whose lookups answer keeps the invariant,
    whichever of its writes fail. *)
Lemma CheckAlerts_invariant f cfg now metrics db kind :
  faults.lookups_answer f ->
  keys_unique db -> at_most_one_active kind db ->
  keys_unique (fst (faults.CheckAlerts f cfg now metrics db))
  /\ at_most_one_active kind (fst (faults.CheckAlerts f cfg now metrics db)).
Proof.
  intros (Hcpu & Hmem & Hdisk) Hkeys Hone. unfold faults.CheckAlerts. cbn [fst].
  destruct (check_kind_invariant (faults.cpu f) kind_cpu
              (SystemMetrics.CPU metrics) (config.AlertCPU cfg) now db kind
              Hcpu Hkeys Hone) as [Hkeys1 Hone1].
  destruct (check_kind_invariant (faults.memory f) kind_memory
              (SystemMetrics.Memory metrics) (config.AlertMemory cfg) now _ kind
              Hmem Hkeys1 Hone1) as [Hkeys2 Hone2].
  exact (check_kind_invariant (faults.disk f) kind_disk
           (SystemMetrics.Disk metrics) (config.AlertDisk cfg) now _ kind
           Hdisk Hkeys2 Hone2).
Qed.

Lemma collectSystemMetrics_invariant cfg env write_error f now s kind :
  faults.lookups_answer f ->
  keys_unique (scheduler.DB s) -> at_most_one_active kind (scheduler.DB s) ->
  keys_unique
    (scheduler.DB (fst (faults.collectSystemMetrics cfg env write_error f now s)))
  /\ at_most_one_active kind
       (scheduler.DB (fst (faults.collectSystemMetrics cfg env write_error f now s))).
Proof.
  intros Hf Hkeys Hone. unfold faults.collectSystemMetrics.
  destruct (CollectSystemMetrics (scheduler.sysMon s) env) as [sm [metrics err]].
  destruct err; [split; assumption|].
  unfold SaveMetrics. destruct write_error as [e|]; [split; assumption|].
  destruct (Create_metrics now metrics (scheduler.DB s)) as [stored db] eqn:Hc.
  assert (Halerts : alerts db = alerts (scheduler.DB s)).
  { unfold Create_metrics in Hc. inversion Hc. reflexivity. }
  destruct (invariant_of_alerts _ _ kind Halerts) as [Hk Ho].
  destruct (CheckAlerts_invariant f cfg now stored db kind Hf (Hk Hkeys) (Ho Hone))
    as [Hkeys' Hone'].
  destruct (faults.CheckAlerts f cfg now stored db) as [db' err'].
  split; assumption.
Qed.

(** Whatever statements fail, the sampling job publishes no message of
    type alert. *)
Lemma faulty_job_publishes_no_alert cfg env write_error f now s :
  scheduler.of_type "alert"
    (snd (faults.collectSystemMetrics cfg env write_error f now s)) = [].
Proof.
  unfold faults.collectSystemMetrics.
  destruct (CollectSystemMetrics (scheduler.sysMon s) env) as [sm [metrics [e|]]];
    [reflexivity|].
  destruct (SaveMetrics write_error now metrics (scheduler.DB s)) as [[stored db]|e];
    [|reflexivity].
  destruct (faults.CheckAlerts f cfg now stored db) as [db' err]. cbn [snd].
  unfold websocket.BroadcastSystemMetrics, websocket.publish.
  destruct (websocket.marshals _); reflexivity.
Qed.

(** C2. The failing input: the store holds one active cpu alert, of
    value 85; the sample is 90, above the threshold 80, and the lookup of
    the cpu block fails with an error that is not record-not-found. The
    block takes the branch for "no active alert" and creates a second
    active cpu alert beside the first: the invariant held before the
    call and does not hold after it. *)
Theorem CheckAlerts_failed_lookup_second_alert :
  map (fun a => (Alert.Value a, Alert.Status a))
      (active_of "cpu" scenario.store_with_alert) = [(85%float, "active"%string)]
  /\ map (fun a => (Alert.Value a, Alert.Status a))
         (active_of "cpu"
            (fst (faults.CheckAlerts sample_faults.cpu_lookup_fails scenario.cfg
                    (15 * GoTime.Second) (scenario.metrics_cpu 90)
                    scenario.store_with_alert)))
     = [(85%float, "active"%string); (90%float, "active"%string)]
  /\ length
       (active_of "cpu"
          (fst (faults.CheckAlerts sample_faults.cpu_lookup_fails scenario.cfg
                  (15 * GoTime.Second) (scenario.metrics_cpu 90)
                  scenario.store_with_alert))) = 2%nat
  /\ snd (faults.CheckAlerts sample_faults.cpu_lookup_fails scenario.cfg
            (15 * GoTime.Second) (scenario.metrics_cpu 90)
            scenario.store_with_alert) = None
  /\ map (fun a => (Alert.Value a, Alert.Status a))
         (active_of "cpu"
            (fst (faults.CheckAlerts faults.no_faults scenario.cfg
                    (15 * GoTime.Second) (scenario.metrics_cpu 90)
                    scenario.store_with_alert)))
     = [(90%float, "active"%string)].
Proof. by_evaluation. Qed.

(** Whatever the store, a block whose lookup fails on a value above the
    threshold, and whose create succeeds, adds an active alert of its
    kind to the ones there are. *)
Lemma failed_lookup_adds_active e f k v threshold now db :
  faults.lookup_error f = Some e -> faults.create_alert_error f = None ->
  F64.gtb v (F64.of_int threshold) = true ->
  length (active_of (type_name k) (faults.check_kind f k v threshold now db))
    = S (length (active_of (type_name k) db)).
Proof.
  intros Hlookup Hcreate Habove. unfold faults.check_kind, faults.First.
  rewrite Habove, Hlookup, Hcreate. cbn [faults.write].
  unfold active_of.
  destruct (faults.create_log_error f); cbn [faults.write Create_log Create_alert alerts];
    rewrite List.filter_app, length_app; simpl;
    unfold type_and_status at 2; cbn [Alert.Type_ Alert.Status];
    rewrite String.eqb_refl; simpl; lia.
Qed.

(** X8. Over any number of ticks, with any readings, any failing write of
    the record and any failing write of the alert blocks, the alert
    table keeps its keys unique and holds at most one active alert of a
    kind, when it did at the start and every lookup of the alert blocks
    answers (with a row or with record-not-found). *)
Theorem ticks_keep_alert_invariant cfg inputs : forall s kind,
  Forall (fun i => faults.lookups_answer (faults.faults_of i)) inputs ->
  keys_unique (scheduler.DB s) -> at_most_one_active kind (scheduler.DB s) ->
  keys_unique (scheduler.DB (fst (faults.ticks cfg inputs s)))
  /\ at_most_one_active kind (scheduler.DB (fst (faults.ticks cfg inputs s))).
Proof.
  induction inputs as [|[[[env write_error] f] now] rest IH];
    intros s kind Hanswer Hkeys Hone.
  - split; assumption.
  - inversion Hanswer as [|i l Hf Hrest]; subst. simpl.
    destruct (collectSystemMetrics_invariant cfg env write_error f now s kind
                Hf Hkeys Hone) as [Hkeys1 Hone1].
    destruct (faults.collectSystemMetrics cfg env write_error f now s) as [s1 out].
    cbn [fst] in *. specialize (IH s1 kind Hrest Hkeys1 Hone1).
    destruct (faults.ticks cfg rest s1) as [s2 outs]. exact IH.
Qed.

Lemma ticks_keep_alert_invariant_witness :
  keys_unique
    (scheduler.DB (fst (faults.ticks scenario.cfg sample_faults.ticks scenario.start)))
  /\ at_most_one_active "cpu"
       (scheduler.DB
          (fst (faults.ticks scenario.cfg sample_faults.ticks scenario.start))).
Proof.
  apply (ticks_keep_alert_invariant scenario.cfg sample_faults.ticks
           scenario.start "cpu").
  - repeat constructor.
  - unfold keys_unique. simpl. apply NoDup_nil_2.
  - unfold at_most_one_active. simpl. lia.
Defined.

(** The sample ticks: the alert raised at 85 under failing log writes is
    updated at 90 and resolved at 75; the log write of the creation
    failed, the one of the resolution too. *)
Example ticks_with_failing_writes :
  map (fun a => (Alert.Value a, Alert.Status a))
      (alerts (scheduler.DB
                 (fst (faults.ticks scenario.cfg sample_faults.ticks scenario.start))))
    = [(90%float, "resolved"%string)]
  /\ system_logs
       (scheduler.DB
          (fst (faults.ticks scenario.cfg sample_faults.ticks scenario.start))) = [].
Proof. by_evaluation. Qed.
End StoreFaults.
